(** * LIN master emulation (LIN_master.h / LIN_master.cpp)

    A shallow embedding of the base class [LIN_Master]: the frame codec
    ([protectID], [checksum]), the engine object with its two 12 byte
    buffers, the serial port it drives and the entry points of the state
    machine ([begin], [end], [sendMasterRequest], [receiveSlaveResponse],
    [handlerSend], [handlerReceive], [getState]).

    Fixed width integers are integers of [Z] with the wrap-around written
    out ([uint8], [uint16], [uint32]); bit operations are those of [Z].
    An access outside an array is the outcome [Undefined].

    The file has two parts: the definitions (the code, then what the
    specification says about it), and the theorems. *)

From Stdlib Require Import ZArith List Bool Lia Permutation.
Import ListNotations.
Local Open Scope Z_scope.

(** ** Machine integers *)

Definition uint8 (x : Z) : Z := x mod 256.
Definition uint16 (x : Z) : Z := x mod 65536.
Definition uint32 (x : Z) : Z := x mod 4294967296.

(** A value that fits a [uint8_t]. *)
Definition is_byte (x : Z) : Prop := 0 <= x < 256.

Definition is_byteb (x : Z) : bool := (0 <=? x) && (x <? 256).

(** ** Enumerations of LIN_master.h *)

Inductive LIN_version_t := LIN_V1 | LIN_V2.

Inductive LIN_frame_t := LIN_MASTER_REQUEST | LIN_SLAVE_RESPONSE.

Inductive LIN_status_t :=
  LIN_STATE_OFF | LIN_STATE_IDLE | LIN_STATE_BREAK | LIN_STATE_FRAME.

(** [LIN_error_t] is used as a set of bit flags: the values of the
    enumerators. *)
Definition LIN_SUCCESS : Z := 0x00.
Definition LIN_ERROR_STATE : Z := 0x01.
Definition LIN_ERROR_ECHO : Z := 0x02.
Definition LIN_ERROR_TIMEOUT : Z := 0x04.
Definition LIN_ERROR_CHK : Z := 0x08.
Definition LIN_ERROR_MISC : Z := 0x80.

Definition version_eqb (a b : LIN_version_t) : bool :=
  match a, b with
  | LIN_V1, LIN_V1 | LIN_V2, LIN_V2 => true
  | _, _ => false
  end.

Definition status_eqb (a b : LIN_status_t) : bool :=
  match a, b with
  | LIN_STATE_OFF, LIN_STATE_OFF
  | LIN_STATE_IDLE, LIN_STATE_IDLE
  | LIN_STATE_BREAK, LIN_STATE_BREAK
  | LIN_STATE_FRAME, LIN_STATE_FRAME => true
  | _, _ => false
  end.

(** The numeric value of a state, as the enum declares it. *)
Definition status_value (s : LIN_status_t) : Z :=
  match s with
  | LIN_STATE_OFF => 0
  | LIN_STATE_IDLE => 1
  | LIN_STATE_BREAK => 2
  | LIN_STATE_FRAME => 3
  end.

(** ** Frame codec *)

Module Codec.

(** [LIN_Master::protectID].  [pid] and [tmp] are [uint8_t]; the operands
    of [^], [>>], [~] and [&] are promoted to [int], and every assignment
    truncates back to 8 bits. *)
Definition protectID (id : Z) : Z :=
  let pid := id in
  let pid := uint8 (Z.land pid 0x3F) in
  let tmp :=
    uint8 (Z.land
             (Z.lxor (Z.lxor (Z.lxor pid (Z.shiftr pid 1)) (Z.shiftr pid 2))
                     (Z.shiftr pid 4))
             0x01) in
  let pid := uint8 (Z.lor pid (uint8 (Z.shiftl tmp 6))) in
  let tmp :=
    uint8 (Z.land
             (Z.lnot
                (Z.lxor (Z.lxor (Z.lxor (Z.shiftr pid 1) (Z.shiftr pid 3))
                                (Z.shiftr pid 4))
                        (Z.shiftr pid 5)))
             0x01) in
  let pid := uint8 (Z.lor pid (uint8 (Z.shiftl tmp 7))) in
  pid.

(** One pass of the loop body of [checksum]:
    [chk += (uint16_t) data[i]; if (chk > 255) chk -= 255;]. *)
Definition checksum_step (chk d : Z) : Z :=
  let chk := uint16 (chk + uint16 d) in
  if 255 <? chk then uint16 (chk - 255) else chk.

(** [for (uint8_t i = 0; i < numData; i++)]: [count] passes remain, the
    next one reads [data[i]].  [data] is the array the pointer designates;
    a read past its end is undefined in C and yields 0 here, the theorems
    below only read inside the array. *)
Fixpoint checksum_loop (count : nat) (i : nat) (data : list Z) (chk : Z) : Z :=
  match count with
  | O => chk
  | S count' => checksum_loop count' (S i) data (checksum_step chk (nth i data 0))
  end.

(** [LIN_Master::checksum]; [version] is the member the method reads. *)
Definition checksum (version : LIN_version_t) (id numData : Z) (data : list Z) : Z :=
  let chk := 0x00 in
  let id := protectID id in
  let chk :=
    if negb (version_eqb version LIN_V1 || (id =? 0x3C) || (id =? 0x7D))
    then uint16 id
    else chk in
  let chk := checksum_loop (Z.to_nat numData) 0 data chk in
  let chk := uint16 (uint8 (0xFF - uint8 chk)) in
  uint8 chk.

End Codec.

(** ** Outcomes of a call

    [Undefined]: the call read or wrote outside an array (undefined
    behaviour in C, the model says nothing about what follows).
    [Starved]: the model ran out of recorded activity of the outside world
    while the code was still waiting (see [busy_wait]). *)

Inductive res (A : Type) : Type :=
| Ok (a : A)
| Undefined
| Starved.

Arguments Ok {A} a.
Arguments Undefined {A}.
Arguments Starved {A}.

Definition bind {A B : Type} (c : res A) (k : A -> res B) : res B :=
  match c with
  | Ok a => k a
  | Undefined => Undefined
  | Starved => Starved
  end.

Notation "x <- c ;; k" := (bind c (fun x => k))
  (at level 61, c at next level, right associativity).
Notation "' p <- c ;; k" := (bind c (fun x => let 'p := x in k))
  (at level 61, p pattern, c at next level, right associativity).

(** ** Arrays of [uint8_t]

    An array is the list of its bytes; the pointer arguments of the source
    ([data]) are the list of the bytes they designate. *)

Module Mem.

(** [a[i] = v] *)
Definition store (a : list Z) (i v : Z) : res (list Z) :=
  if (0 <=? i) && (i <? Z.of_nat (length a))
  then Ok (firstn (Z.to_nat i) a ++ uint8 v :: skipn (S (Z.to_nat i)) a)
  else Undefined.

(** [a[i]] *)
Definition load (a : list Z) (i : Z) : res Z :=
  if (0 <=? i) && (i <? Z.of_nat (length a))
  then Ok (nth (Z.to_nat i) a 0)
  else Undefined.

(** [memset(a, c, n)] *)
Definition memset (a : list Z) (c n : Z) : res (list Z) :=
  if (0 <=? n) && (n <=? Z.of_nat (length a))
  then Ok (repeat (uint8 c) (Z.to_nat n) ++ skipn (Z.to_nat n) a)
  else Undefined.

(** [memcpy(dst + off, src, n)] *)
Definition memcpy (dst : list Z) (off : Z) (src : list Z) (n : Z) : res (list Z) :=
  if (0 <=? off) && (0 <=? n) && (off + n <=? Z.of_nat (length dst))
     && (n <=? Z.of_nat (length src))
  then Ok (firstn (Z.to_nat off) dst ++ firstn (Z.to_nat n) src
             ++ skipn (Z.to_nat (off + n)) dst)
  else Undefined.

Definition bytes_eqb (x y : list Z) : bool :=
  if list_eq_dec Z.eq_dec x y then true else false.

(** [memcmp(a, b, n) != 0] *)
Definition memcmp_ne (a b : list Z) (n : Z) : res bool :=
  if (0 <=? n) && (n <=? Z.of_nat (length a)) && (n <=? Z.of_nat (length b))
  then Ok (negb (bytes_eqb (firstn (Z.to_nat n) a) (firstn (Z.to_nat n) b)))
  else Undefined.

End Mem.

(** ** The engine object *)

(** A [decoder_t] value: the null pointer of a zero-initialised object, a
    function of the user program (told apart by a number), or the wrapper
    [LIN_masterN_copy] that forwards to [defaultCallback]. *)
Inductive decoder_t :=
| null_decoder
| user_decoder (f : nat)
| wrapperDefaultCallback.

(** The members of [LIN_Master] the code reads or writes ([pSerial] is the
    port of the [Board] below; the three wrappers are fixed by the derived
    class to forward to this object's own methods).  [dataPtr] is the
    caller's array the pointer designates. *)
Record LIN_Master := mkLIN {
  baudrate : Z;
  version : LIN_version_t;
  background : bool;
  durationBreak : Z;
  frameType : LIN_frame_t;
  bufTx : list Z;
  lenTx : Z;
  bufRx : list Z;
  lenRx : Z;
  durationFrame : Z;
  state : LIN_status_t;
  rx_handler : decoder_t;
  dataPtr : list Z;
  error : Z
}.

Definition set_frameType (s : LIN_Master) (v : LIN_frame_t) : LIN_Master :=
  mkLIN (baudrate s) (version s) (background s) (durationBreak s) v
        (bufTx s) (lenTx s) (bufRx s) (lenRx s) (durationFrame s) (state s)
        (rx_handler s) (dataPtr s) (error s).

Definition set_bufTx (s : LIN_Master) (v : list Z) : LIN_Master :=
  mkLIN (baudrate s) (version s) (background s) (durationBreak s) (frameType s)
        v (lenTx s) (bufRx s) (lenRx s) (durationFrame s) (state s)
        (rx_handler s) (dataPtr s) (error s).

Definition set_lenTx (s : LIN_Master) (v : Z) : LIN_Master :=
  mkLIN (baudrate s) (version s) (background s) (durationBreak s) (frameType s)
        (bufTx s) v (bufRx s) (lenRx s) (durationFrame s) (state s)
        (rx_handler s) (dataPtr s) (error s).

Definition set_bufRx (s : LIN_Master) (v : list Z) : LIN_Master :=
  mkLIN (baudrate s) (version s) (background s) (durationBreak s) (frameType s)
        (bufTx s) (lenTx s) v (lenRx s) (durationFrame s) (state s)
        (rx_handler s) (dataPtr s) (error s).

Definition set_lenRx (s : LIN_Master) (v : Z) : LIN_Master :=
  mkLIN (baudrate s) (version s) (background s) (durationBreak s) (frameType s)
        (bufTx s) (lenTx s) (bufRx s) v (durationFrame s) (state s)
        (rx_handler s) (dataPtr s) (error s).

Definition set_state (s : LIN_Master) (v : LIN_status_t) : LIN_Master :=
  mkLIN (baudrate s) (version s) (background s) (durationBreak s) (frameType s)
        (bufTx s) (lenTx s) (bufRx s) (lenRx s) (durationFrame s) v
        (rx_handler s) (dataPtr s) (error s).

Definition set_rx_handler (s : LIN_Master) (v : decoder_t) : LIN_Master :=
  mkLIN (baudrate s) (version s) (background s) (durationBreak s) (frameType s)
        (bufTx s) (lenTx s) (bufRx s) (lenRx s) (durationFrame s) (state s)
        v (dataPtr s) (error s).

Definition set_dataPtr (s : LIN_Master) (v : list Z) : LIN_Master :=
  mkLIN (baudrate s) (version s) (background s) (durationBreak s) (frameType s)
        (bufTx s) (lenTx s) (bufRx s) (lenRx s) (durationFrame s) (state s)
        (rx_handler s) v (error s).

Definition set_error (s : LIN_Master) (v : Z) : LIN_Master :=
  mkLIN (baudrate s) (version s) (background s) (durationBreak s) (frameType s)
        (bufTx s) (lenTx s) (bufRx s) (lenRx s) (durationFrame s) (state s)
        (rx_handler s) (dataPtr s) v.

(** A [LIN_Master_N] object is a global: zero-initialised before its
    constructor stores the port and the wrappers.  The zero in [version]
    and [frameType] is no enumerator; the code only tests
    [version == LIN_V1] and [frameType == LIN_MASTER_REQUEST], which fail
    for it as they do for [LIN_V2] and [LIN_SLAVE_RESPONSE]. *)
Definition LIN_Master_N : LIN_Master :=
  mkLIN 0 LIN_V2 false 0 LIN_SLAVE_RESPONSE (repeat 0 12) 0 (repeat 0 12) 0 0
        LIN_STATE_OFF null_decoder [] LIN_SUCCESS.

(** ** The board: serial port, clock, scheduler and the outside world

    The port is the [HardwareSerial] of the Arduino core and the
    scheduler the Task Scheduler library; neither is part of this
    repository.  They are modelled after the "Byte Channel" and the
    "Deferred Call" of the specification: a queue of received bytes, a
    log of written bytes, a list of registered calls.

    Time passes, and bytes arrive, only where the code waits: in its
    three wait loops, in [flush] and during the delay of a deferred call.
    What the outside world does then is an input, the [line] of the
    board. *)

(** What the outside world does between two looks of the program at the
    hardware: [dt] microseconds pass and the bytes [arrived] enter the
    receive queue of the port. *)
Record poll := mkPoll { dt : Z; arrived : list Z }.

(** The two tasks the engine hands to the scheduler. *)
Inductive Task := wrapperSend | wrapperReceive.

Record Board := mkBoard {
  clock : Z;                                 (* microseconds since reset *)
  rx_fifo : list Z;                          (* received, not yet read *)
  tx_log : list Z;                           (* every byte written *)
  rate : Z;                                  (* baud rate in effect *)
  port_open : bool;
  port_timeout : Z;
  line : list poll;                          (* what is still to come *)
  tasks : list (Task * Z * Z);               (* Tasks_Add requests: task, period, delay *)
  decoded : list (decoder_t * Z * list Z)    (* calls of rx_handler: length, payload *)
}.

Definition set_clock_fifo (b : Board) (c : Z) (q : list Z) : Board :=
  mkBoard c q (tx_log b) (rate b) (port_open b) (port_timeout b) (line b)
          (tasks b) (decoded b).

Definition set_rx_fifo (b : Board) (q : list Z) : Board :=
  mkBoard (clock b) q (tx_log b) (rate b) (port_open b) (port_timeout b)
          (line b) (tasks b) (decoded b).

Definition set_tx_log (b : Board) (l : list Z) : Board :=
  mkBoard (clock b) (rx_fifo b) l (rate b) (port_open b) (port_timeout b)
          (line b) (tasks b) (decoded b).

Definition set_port (b : Board) (r : Z) (o : bool) : Board :=
  mkBoard (clock b) (rx_fifo b) (tx_log b) r o (port_timeout b)
          (line b) (tasks b) (decoded b).

Definition set_port_timeout (b : Board) (t : Z) : Board :=
  mkBoard (clock b) (rx_fifo b) (tx_log b) (rate b) (port_open b) t
          (line b) (tasks b) (decoded b).

Definition set_line (b : Board) (l : list poll) : Board :=
  mkBoard (clock b) (rx_fifo b) (tx_log b) (rate b) (port_open b)
          (port_timeout b) l (tasks b) (decoded b).

Definition set_tasks (b : Board) (t : list (Task * Z * Z)) : Board :=
  mkBoard (clock b) (rx_fifo b) (tx_log b) (rate b) (port_open b)
          (port_timeout b) (line b) t (decoded b).

Definition set_decoded (b : Board) (d : list (decoder_t * Z * list Z)) : Board :=
  mkBoard (clock b) (rx_fifo b) (tx_log b) (rate b) (port_open b)
          (port_timeout b) (line b) (tasks b) d.

(** [micros()] and [millis()]: 32 bit counters. *)
Definition micros (b : Board) : Z := uint32 (clock b).
Definition millis (b : Board) : Z := uint32 (clock b / 1000).

Module Serial.

(** [pSerial->available()] *)
Definition available (b : Board) : Z := Z.of_nat (length (rx_fifo b)).

(** [pSerial->read()]: the oldest byte, or -1 when the queue is empty. *)
Definition read (b : Board) : Z * Board :=
  match rx_fifo b with
  | [] => (-1, b)
  | c :: q => (c, set_rx_fifo b q)
  end.

(** [pSerial->write(c)] *)
Definition write (b : Board) (c : Z) : Board :=
  set_tx_log b (tx_log b ++ [uint8 c]).

(** [pSerial->write(buf + off, n)]: reads [buf[off .. off+n-1]]. *)
Definition write_buf (b : Board) (buf : list Z) (off n : Z) : res Board :=
  if (0 <=? off) && (0 <=? n) && (off + n <=? Z.of_nat (length buf))
  then Ok (set_tx_log b (tx_log b ++ firstn (Z.to_nat n) (skipn (Z.to_nat off) buf)))
  else Undefined.

(** [pSerial->begin(r)] followed by the wait for the port to be ready
    and, on AVR, the write to the double-speed bit of UCSRA: either way
    the baud rate in effect becomes [r]. *)
Definition begin (b : Board) (r : Z) : Board := set_port b r true.

(** [pSerial->end()] *)
Definition end_ (b : Board) : Board := set_port b (rate b) false.

(** [pSerial->setTimeout(t)] *)
Definition setTimeout (b : Board) (t : Z) : Board := set_port_timeout b t.

(** [while (pSerial->available()) pSerial->read();]: one pass per queued
    byte. *)
Fixpoint discard (n : nat) (b : Board) : Board :=
  match n with
  | O => b
  | S n' => if available b =? 0 then b else discard n' (snd (read b))
  end.

Definition drain (b : Board) : Board := discard (length (rx_fifo b)) b.

End Serial.

(** The outside world moves on by one [poll]. *)
Definition elapse (p : poll) (b : Board) : Board :=
  set_clock_fifo b (clock b + dt p) (rx_fifo b ++ arrived p).

(** [while (cond) ;] where [cond] looks at the hardware; [sched] is
    [line b].  Every evaluation that finds [cond] true is followed by the
    next recorded [poll] of the outside world; when none is left the
    outcome is [Starved]. *)
Fixpoint busy_wait (cond : Board -> bool) (sched : list poll) (b : Board)
  : res Board :=
  if cond b then
    match sched with
    | [] => Starved
    | p :: rest => busy_wait cond rest (set_line (elapse p b) rest)
    end
  else Ok b.

(** [pSerial->flush()]: returns when the transmitter is done; the outside
    world makes one move meanwhile. *)
Definition flush (b : Board) : res Board :=
  match line b with
  | [] => Starved
  | p :: rest => Ok (set_line (elapse p b) rest)
  end.

(** Modelled from the spec: [Tasks_Add(t, period, delay)] of the Task
    Scheduler library (Tasks.h is not part of this repository), which
    registers "invoke handler H after at least D time units": the request
    is queued. *)
Definition Tasks_Add (t : Task) (period delay : Z) (b : Board) : Board :=
  set_tasks b (tasks b ++ [(t, period, delay)]).

(** ** The engine *)

Module Engine.

Import Codec.

(** [LIN_Master::begin] *)
Definition begin (Baudrate : Z) (Version : LIN_version_t) (Background : bool)
  (s : LIN_Master) (b : Board) : LIN_Master * Board :=
  let baudrate' := uint16 Baudrate in
  let '(durationBreak', durationFrame') :=
    if baudrate' <? 12000 then (2, 13) else (1, 7) in
  let s := mkLIN baudrate' Version Background durationBreak' (frameType s)
                 (bufTx s) (lenTx s) (bufRx s) (lenRx s) durationFrame'
                 (state s) (rx_handler s) (dataPtr s) (error s) in
  let s := set_error s LIN_SUCCESS in
  let s := set_state s LIN_STATE_IDLE in
  let b := Serial.begin b (uint16 Baudrate) in
  let b := Serial.setTimeout b 2 in
  (s, b).

(** [LIN_Master::end] *)
Definition end_ (s : LIN_Master) (b : Board) : LIN_Master * Board :=
  let s := set_error s LIN_SUCCESS in
  let s := set_state s LIN_STATE_OFF in
  let b := Serial.end_ b in
  let b := Serial.setTimeout b 1000 in
  (s, b).

(** [inline bool getState(void) { return state; }]: the enumerator is
    converted to [bool]. *)
Definition getState (s : LIN_Master) : bool :=
  negb (status_value (state s) =? 0).

(** The three statements every error exit of the four entry points
    repeats before its [return]:
    [error = (LIN_error_t)((uint8_t) error | (uint8_t) flag);
     state = LIN_STATE_IDLE;  memset(bufRx, 0, lenRx);] *)
Definition revert (flag : Z) (s : LIN_Master) : res LIN_Master :=
  let s := set_error s (Z.lor (uint8 (error s)) (uint8 flag)) in
  let s := set_state s LIN_STATE_IDLE in
  buf <- Mem.memset (bufRx s) 0 (lenRx s) ;;
  Ok (set_bufRx s buf).

(** A call of [checksum] on an array: reads [data[0 .. numData-1]]. *)
Definition checksum_of (v : LIN_version_t) (id numData : Z) (data : list Z)
  : res Z :=
  if numData <=? Z.of_nat (length data)
  then Ok (checksum v id numData data)
  else Undefined.

(** [LIN_Master::defaultCallback], reached through
    [wrapperDefaultCallback]: [memcpy(dataPtr, data, numData)]. *)
Definition defaultCallback (numData : Z) (data : list Z) (s : LIN_Master)
  : res LIN_Master :=
  dst <- Mem.memcpy (dataPtr s) 0 data numData ;;
  Ok (set_dataPtr s dst).

(** [rx_handler(numData, data)].  A function of the user program is a
    call the board records, with the bytes it is given. *)
Definition call_decoder (h : decoder_t) (numData : Z) (data : list Z)
  (s : LIN_Master) (b : Board) : res (LIN_Master * Board) :=
  let b' := set_decoded b (decoded b ++ [(h, numData, firstn (Z.to_nat numData) data)]) in
  match h with
  | null_decoder => Undefined
  | user_decoder _ => Ok (s, b')
  | wrapperDefaultCallback => s <- defaultCallback numData data s ;; Ok (s, b')
  end.

(** The three waits.
    [uint32_t tStart = micros();
     while ((!(pSerial->available())) && ((micros() - tStart) < 500));] *)
Definition break_pending (tStart : Z) (b : Board) : bool :=
  (Serial.available b =? 0) && (uint32 (micros b - tStart) <? 500).

Definition break_wait (b : Board) : res Board :=
  let tStart := micros b in
  busy_wait (break_pending tStart) (line b) b.

(** [uint32_t tStart = micros();
     while ((pSerial->available() != lenRx-1) && ((micros() - tStart) < 500));] *)
Definition frame_pending (lenRx tStart : Z) (b : Board) : bool :=
  negb (Serial.available b =? lenRx - 1) && (uint32 (micros b - tStart) <? 500).

Definition frame_wait (lenRx : Z) (b : Board) : res Board :=
  let tStart := micros b in
  busy_wait (frame_pending lenRx tStart) (line b) b.

(** [uint32_t tStart = millis();
     while ((pSerial->available() != lenRx-1) && ((millis() - tStart) < durationFrame));] *)
Definition response_pending (lenRx durationFrame tStart : Z) (b : Board) : bool :=
  negb (Serial.available b =? lenRx - 1)
  && (uint32 (millis b - tStart) <? durationFrame).

Definition response_wait (lenRx durationFrame : Z) (b : Board) : res Board :=
  let tStart := millis b in
  busy_wait (response_pending lenRx durationFrame tStart) (line b) b.

(** [LIN_Master::handlerSend] *)
Definition handlerSend (s : LIN_Master) (b : Board) : res (LIN_Master * Board) :=
  if negb (status_eqb (state s) LIN_STATE_BREAK) then
    s <- revert LIN_ERROR_STATE s ;; Ok (s, b)
  else
    b <- break_wait b ;;
    if Serial.available b =? 0 then
      s <- revert LIN_ERROR_TIMEOUT s ;; Ok (s, b)
    else
      let '(c, b) := Serial.read b in
      buf <- Mem.store (bufRx s) 0 c ;;
      let s := set_bufRx s buf in
      c0 <- Mem.load (bufRx s) 0 ;;
      if negb (c0 =? 0x00) then
        s <- revert LIN_ERROR_ECHO s ;; Ok (s, b)
      else
        let b := Serial.begin b (baudrate s) in
        b <- Serial.write_buf b (bufTx s) 1 (lenTx s - 1) ;;
        let s := set_state s LIN_STATE_FRAME in
        if background s
        then Ok (s, Tasks_Add wrapperReceive 0 (durationFrame s) b)
        else Ok (s, b).

(** [for (i=1; i<lenRx; i++) bufRx[i] = pSerial->read();]: [count] passes
    remain, the next one writes [bufRx[i]]. *)
Fixpoint read_frame (count : nat) (i : Z) (buf : list Z) (b : Board)
  : res (list Z * Board) :=
  match count with
  | O => Ok (buf, b)
  | S count' =>
      let '(c, b) := Serial.read b in
      buf <- Mem.store buf i c ;;
      read_frame count' (i + 1) buf b
  end.

(** [LIN_Master::handlerReceive] *)
Definition handlerReceive (s : LIN_Master) (b : Board) : res (LIN_Master * Board) :=
  if negb (status_eqb (state s) LIN_STATE_FRAME) then
    s <- revert LIN_ERROR_STATE s ;; Ok (s, b)
  else
    b <- frame_wait (lenRx s) b ;;
    if negb (Serial.available b =? lenRx s - 1) then
      s <- revert LIN_ERROR_TIMEOUT s ;; Ok (s, b)
    else
      ' (buf, b) <- read_frame (Z.to_nat (lenRx s - 1)) 1 (bufRx s) b ;;
      let s := set_bufRx s buf in
      match frameType s with
      | LIN_MASTER_REQUEST =>
          ne <- Mem.memcmp_ne (bufRx s) (bufTx s) (lenTx s) ;;
          if ne then
            s <- revert LIN_ERROR_ECHO s ;; Ok (s, b)
          else
            Ok (set_state s LIN_STATE_IDLE, b)
      | LIN_SLAVE_RESPONSE =>
          ne <- Mem.memcmp_ne (bufRx s) (bufTx s) 3 ;;
          if ne then
            s <- revert LIN_ERROR_ECHO s ;; Ok (s, b)
          else
            id <- Mem.load (bufRx s) 2 ;;
            let numData := uint8 (lenRx s - 4) in
            let data := skipn 3 (bufRx s) in
            chk <- Mem.load (bufRx s) (lenRx s - 1) ;;
            chk_calc <- checksum_of (version s) id numData data ;;
            if negb (chk =? chk_calc) then
              s <- revert LIN_ERROR_CHK s ;; Ok (s, b)
            else
              ' (s, b) <- call_decoder (rx_handler s) (uint8 (lenRx s - 4))
                                       (skipn 3 (bufRx s)) s b ;;
              Ok (set_state s LIN_STATE_IDLE, b)
      end.

(** [LIN_Master::sendMasterRequest].  The value returned is
    [Some LIN_ERROR_STATE] on the early exit; the rest of the body reaches
    its end without a [return] statement: [None]. *)
Definition sendMasterRequest (id numData : Z) (data : list Z)
  (s : LIN_Master) (b : Board) : res (option Z * LIN_Master * Board) :=
  if negb (status_eqb (state s) LIN_STATE_IDLE) then
    s <- revert LIN_ERROR_STATE s ;; Ok (Some LIN_ERROR_STATE, s, b)
  else
    let s := set_frameType s LIN_MASTER_REQUEST in
    let id := protectID id in
    buf <- Mem.store (bufTx s) 0 0x00 ;;
    buf <- Mem.store buf 1 0x55 ;;
    buf <- Mem.store buf 2 id ;;
    buf <- Mem.memcpy buf 3 data numData ;;
    chk <- checksum_of (version s) id numData data ;;
    buf <- Mem.store buf (3 + numData) chk ;;
    let s := set_bufTx s buf in
    let s := set_lenTx s (uint8 (numData + 4)) in
    let s := set_lenRx s (lenTx s) in
    let b := Serial.drain b in
    let b := Serial.begin b (baudrate s / 2) in
    c0 <- Mem.load (bufTx s) 0 ;;
    let b := Serial.write b c0 in
    let s := set_state s LIN_STATE_BREAK in
    if background s then
      Ok (None, s, Tasks_Add wrapperSend 0 (durationBreak s) b)
    else
      b <- flush b ;;
      ' (s, b) <- handlerSend s b ;;
      b <- flush b ;;
      ' (s, b) <- handlerReceive s b ;;
      Ok (None, s, b).

(** [LIN_Master::receiveSlaveResponse] with a callback function *)
Definition receiveSlaveResponse (id numData : Z) (Rx_handler : decoder_t)
  (s : LIN_Master) (b : Board) : res (option Z * LIN_Master * Board) :=
  if negb (status_eqb (state s) LIN_STATE_IDLE) then
    s <- revert LIN_ERROR_STATE s ;; Ok (Some LIN_ERROR_STATE, s, b)
  else
    let s := set_frameType s LIN_SLAVE_RESPONSE in
    let id := protectID id in
    buf <- Mem.store (bufTx s) 0 0x00 ;;
    buf <- Mem.store buf 1 0x55 ;;
    buf <- Mem.store buf 2 id ;;
    let s := set_bufTx s buf in
    let s := set_lenTx s 3 in
    let s := set_lenRx s (uint8 (4 + numData)) in
    let b := Serial.drain b in
    let b := Serial.begin b (baudrate s / 2) in
    let s := set_rx_handler s Rx_handler in
    c0 <- Mem.load (bufTx s) 0 ;;
    let b := Serial.write b c0 in
    let s := set_state s LIN_STATE_BREAK in
    if background s then
      Ok (None, s, Tasks_Add wrapperSend 0 (durationBreak s) b)
    else
      b <- flush b ;;
      ' (s, b) <- handlerSend s b ;;
      b <- response_wait (lenRx s) (durationFrame s) b ;;
      ' (s, b) <- handlerReceive s b ;;
      Ok (None, s, b).

(** [LIN_Master::receiveSlaveResponse] with a buffer to copy to: stores
    the array in [dataPtr], calls the other overload and drops its value
    (the body has no [return] statement). *)
Definition receiveSlaveResponse_copy (id numData : Z) (data : list Z)
  (s : LIN_Master) (b : Board) : res (option Z * LIN_Master * Board) :=
  let s := set_dataPtr s data in
  ' (_, s, b) <- receiveSlaveResponse id numData wrapperDefaultCallback s b ;;
  Ok (None, s, b).

End Engine.

(** ** The scheduler and whole transactions *)

Module Scheduler.

Import Engine.

Definition delay_pending (delay tStart : Z) (b : Board) : bool :=
  uint32 (millis b - tStart) <? delay.

(** Modelled from the spec: the Task Scheduler library (Tasks.h, not part
    of this repository) behind the "Deferred Call" capability, which
    invokes a registered handler after at least its delay.  [dispatch]
    takes the oldest request, lets the delay pass and calls the wrapper,
    which forwards to the method of the engine. *)
Definition dispatch (s : LIN_Master) (b : Board) : res (LIN_Master * Board) :=
  match tasks b with
  | [] => Ok (s, b)
  | (t, _, delay) :: rest =>
      let b := set_tasks b rest in
      let tStart := millis b in
      b <- busy_wait (delay_pending delay tStart) (line b) b ;;
      match t with
      | wrapperSend => handlerSend s b
      | wrapperReceive => handlerReceive s b
      end
  end.

(** A transaction: the request, then the two deferred calls it leads to.
    In blocking operation the request runs both handlers itself and
    registers nothing, so that the two dispatches find no task. *)
Definition master_request (id numData : Z) (data : list Z)
  (s : LIN_Master) (b : Board) : res (LIN_Master * Board) :=
  ' (_, s, b) <- sendMasterRequest id numData data s b ;;
  ' (s, b) <- dispatch s b ;;
  dispatch s b.

Definition slave_response (id numData : Z) (Rx_handler : decoder_t)
  (s : LIN_Master) (b : Board) : res (LIN_Master * Board) :=
  ' (_, s, b) <- receiveSlaveResponse id numData Rx_handler s b ;;
  ' (s, b) <- dispatch s b ;;
  dispatch s b.

End Scheduler.

(** ** What the specification says, in its own words

    The definitions of this module follow the specification, not the
    source; the theorems compare them with the code above. *)

Module Spec.

Import Codec Engine.

(** "sums ... into a 16-bit accumulator with end-around carry
    (if sum > 255: sum -= 255)" *)
Definition end_around_add (sum d : Z) : Z :=
  let sum := (sum + d) mod 2 ^ 16 in
  if sum >? 255 then sum - 255 else sum.

(** "the one's complement of the low byte" *)
Definition ones_complement_low_byte (sum : Z) : Z :=
  Z.lxor (Z.land sum 0xFF) 0xFF.

(** "for version 2 frames whose protected ID is not 0x3C or 0x7D, the
    protected ID itself" is part of the sum. *)
Definition seeded (version : LIN_version_t) (pid : Z) : bool :=
  version_eqb version LIN_V2 && negb (pid =? 0x3C) && negb (pid =? 0x7D).

Definition frame_checksum (version : LIN_version_t) (pid : Z) (payload : list Z) : Z :=
  let seed := if seeded version pid then pid else 0 in
  ones_complement_low_byte (fold_left end_around_add payload seed).

(** The "classic" checksum: data bytes only. *)
Definition classic_checksum (payload : list Z) : Z :=
  ones_complement_low_byte (fold_left end_around_add payload 0).

(** A payload with the byte at index [i] replaced by [b]. *)
Definition corrupt_at (i : nat) (b : Z) (data : list Z) : list Z :=
  firstn i data ++ b :: skipn (S i) data.

Definition numData_of (payload : list Z) : Z := Z.of_nat (length payload).

(** The board at the moment [handlerSend] looks for the echo of the break:
    after its wait when the engine is in [LIN_STATE_BREAK]. *)
Definition send_observed (s : LIN_Master) (b : Board) : res Board :=
  if status_eqb (state s) LIN_STATE_BREAK then break_wait b else Ok b.

(** The failure paths of the send phase: wrong state, no echo of the break
    in time, echo of the break not 0x00.  [None]: no failure. *)
Definition send_verdict (s : LIN_Master) (b1 : Board) : option Z :=
  if negb (status_eqb (state s) LIN_STATE_BREAK) then Some LIN_ERROR_STATE
  else match rx_fifo b1 with
       | [] => Some LIN_ERROR_TIMEOUT
       | c :: _ => if uint8 c =? 0x00 then None else Some LIN_ERROR_ECHO
       end.

(** The board at the moment [handlerReceive] counts the bytes received. *)
Definition receive_observed (s : LIN_Master) (b : Board) : res Board :=
  if status_eqb (state s) LIN_STATE_FRAME then frame_wait (lenRx s) b else Ok b.

(** The frame as received: the echo of the break, kept in [bufRx[0]] by
    the send phase, and the bytes waiting in the port. *)
Definition received_frame (s : LIN_Master) (b1 : Board) : list Z :=
  nth 0 (bufRx s) 0 :: map uint8 (rx_fifo b1).

(** The data bytes of a received frame: after break, sync and protected
    ID, without the checksum at the end. *)
Definition received_payload (s : LIN_Master) (b1 : Board) : list Z :=
  firstn (Z.to_nat (lenRx s - 4)) (skipn 3 (received_frame s b1)).

(** The failure paths of the receive phase: wrong state; byte count not
    reached in time; for a master request an echo that differs from the
    frame written; for a slave response a header echo that differs from
    the header written, or a checksum that differs from the one
    recomputed over the received protected ID and data. *)
Definition receive_verdict (s : LIN_Master) (b1 : Board) : option Z :=
  if negb (status_eqb (state s) LIN_STATE_FRAME) then Some LIN_ERROR_STATE
  else if negb (Serial.available b1 =? lenRx s - 1) then Some LIN_ERROR_TIMEOUT
  else
    let frame := received_frame s b1 in
    match frameType s with
    | LIN_MASTER_REQUEST =>
        if Mem.bytes_eqb (firstn (Z.to_nat (lenTx s)) frame)
                         (firstn (Z.to_nat (lenTx s)) (bufTx s))
        then None else Some LIN_ERROR_ECHO
    | LIN_SLAVE_RESPONSE =>
        if negb (Mem.bytes_eqb (firstn 3 frame) (firstn 3 (bufTx s)))
        then Some LIN_ERROR_ECHO
        else if nth (Z.to_nat (lenRx s - 1)) frame 0
                =? checksum (version s) (nth 2 frame 0) (lenRx s - 4)
                            (received_payload s b1)
             then None else Some LIN_ERROR_CHK
    end.

(** The bit-set [error s'] contains the bit-set [error s]. *)
Definition flags_kept (s s' : LIN_Master) : Prop :=
  forall i : Z, Z.testbit (error s) i = true -> Z.testbit (error s') i = true.

(** "correct state, matching break and header echo, full byte count
    received in time, and matching checksum" of a slave response, on the
    board as the receive phase finds it after its wait. *)
Definition response_accepted (s : LIN_Master) (b1 : Board) : bool :=
  let frame := received_frame s b1 in
  status_eqb (state s) LIN_STATE_FRAME
  && Mem.bytes_eqb (firstn 3 frame) (firstn 3 (bufTx s))
  && (Serial.available b1 =? lenRx s - 1)
  && (nth (Z.to_nat (lenRx s - 1)) frame 0
      =? checksum (version s) (nth 2 frame 0) (lenRx s - 4) (received_payload s b1)).

Definition is_slave_response (s : LIN_Master) : bool :=
  match frameType s with
  | LIN_SLAVE_RESPONSE => true
  | LIN_MASTER_REQUEST => false
  end.

End Spec.

(** What an error exit of the code leaves, [s'] being [s] after a failure
    classified [flag]: the flag is added to the error, the state is Idle,
    and [memset(bufRx, 0, lenRx)] has set the first [lenRx] bytes of
    [bufRx] to zero; [lenRx] itself and the bytes of [bufRx] from index
    [lenRx] on are those of [s]. *)
Definition failed (flag : Z) (s s' : LIN_Master) : Prop :=
  error s' = Z.lor (error s) flag /\ state s' = LIN_STATE_IDLE /\
  lenRx s' = lenRx s /\
  bufRx s' = repeat 0 (Z.to_nat (lenRx s)) ++ skipn (Z.to_nat (lenRx s)) (bufRx s).

(** ** Well-formed engines and boards *)

(** [rx_handler] can be called with [numData] bytes: a function of the
    user program, or the copy into an array of the caller that is large
    enough. *)
Definition callable (h : decoder_t) (numData : Z) (s : LIN_Master) : Prop :=
  match h with
  | null_decoder => False
  | user_decoder _ => True
  | wrapperDefaultCallback => numData <= Z.of_nat (length (dataPtr s))
  end.

Definition in_flight (s : LIN_Master) : Prop :=
  state s = LIN_STATE_BREAK \/ state s = LIN_STATE_FRAME.

(** The class invariant: the arrays have their declared 12 bytes, the
    lengths stay inside them, [error] and the durations are values of
    their 8 bit types, and while a frame is in flight the lengths are
    those of a frame with 0 to 8 data bytes and the handler of a slave
    response can be called. *)
Record consistent (s : LIN_Master) : Prop := {
  bufTx_size : length (bufTx s) = 12%nat;
  bufRx_size : length (bufRx s) = 12%nat;
  lenTx_range : 0 <= lenTx s <= 12;
  lenRx_range : 0 <= lenRx s <= 12;
  error_range : is_byte (error s);
  duration_range : is_byte (durationBreak s) /\ is_byte (durationFrame s);
  frame_lengths : in_flight s -> 3 <= lenTx s <= lenRx s /\ 4 <= lenRx s;
  handler_ready :
    in_flight s -> frameType s = LIN_SLAVE_RESPONSE ->
    callable (rx_handler s) (lenRx s - 4) s
}.

(** The outside world keeps moving: every recorded [poll] takes at least
    one microsecond and less than the 32 bit counters can tell apart, and
    at least [n] of them are left. *)
Definition tickb (p : poll) : bool := (1 <=? dt p) && (dt p <=? 2147483648).

Definition liveb (n : Z) (sched : list poll) : bool :=
  (n <=? Z.of_nat (length sched)) && forallb tickb sched.

(** The polls a whole transaction may need: flushes, the waits of both
    handlers and the delays of the scheduler. *)
Definition polls_needed (s : LIN_Master) : Z :=
  1002 + 1000 * (durationBreak s + durationFrame s).

(** The engine after the statements of an error exit. *)
Definition reverted (flag : Z) (s : LIN_Master) : LIN_Master :=
  set_bufRx
    (set_state (set_error s (Z.lor (uint8 (error s)) (uint8 flag))) LIN_STATE_IDLE)
    (repeat 0 (Z.to_nat (lenRx s)) ++ skipn (Z.to_nat (lenRx s)) (bufRx s)).

(** What a wait leaves alone on the board. *)
Definition same_port (b b' : Board) : Prop :=
  tx_log b' = tx_log b /\ rate b' = rate b /\ port_open b' = port_open b /\
  port_timeout b' = port_timeout b /\ tasks b' = tasks b /\ decoded b' = decoded b.

(** The members a handler leaves alone. *)
Definition same_frame (s s' : LIN_Master) : Prop :=
  baudrate s' = baudrate s /\ version s' = version s /\
  background s' = background s /\ durationBreak s' = durationBreak s /\
  durationFrame s' = durationFrame s /\ frameType s' = frameType s /\
  bufTx s' = bufTx s /\ lenTx s' = lenTx s /\ lenRx s' = lenRx s /\
  rx_handler s' = rx_handler s.

Import Codec Engine.

(** ** Auxiliary definitions of the proofs *)

(** The plain sum of the bytes of a payload. *)
Definition sum_bytes (l : list Z) : Z := fold_right Z.add 0 l.

(** The value the accumulator of [checksum] starts from. *)
Definition checksum_seed (v : LIN_version_t) (id : Z) : Z :=
  if Spec.seeded v (protectID id) then protectID id else 0.

(** The properties of [protectID] at one identifier, as a test that can
    be run on all 256 of them. *)
Definition protectID_check (id : Z) : bool :=
  let p := protectID id in
  (Z.land p 0x3F =? Z.land id 0x3F)
  && Bool.eqb (Z.testbit p 6)
       (xorb (xorb (xorb (Z.testbit id 0) (Z.testbit id 1)) (Z.testbit id 2)) (Z.testbit id 4))
  && Bool.eqb (Z.testbit p 7)
       (negb (xorb (xorb (xorb (Z.testbit id 1) (Z.testbit id 3)) (Z.testbit id 4)) (Z.testbit id 5)))
  && is_byteb p
  && (protectID p =? p).

(** The frame a request leaves in [bufTx]. *)
Definition request_frame (v : LIN_version_t) (id numData : Z) (data : list Z) : list Z :=
  0x00 :: 0x55 :: protectID id
  :: firstn (Z.to_nat numData) data
  ++ [checksum v (protectID id) numData data].

(** The header a slave-response request leaves in [bufTx]. *)
Definition header_frame (id : Z) : list Z := [0x00; 0x55; protectID id].

(** The engine when a master request has been accepted and the break
    written. *)
Definition master_request_started (id numData : Z) (data : list Z) (s : LIN_Master)
  : LIN_Master :=
  set_state
    (set_lenRx
       (set_lenTx
          (set_bufTx (set_frameType s LIN_MASTER_REQUEST)
             (request_frame (version s) id numData data
                ++ skipn (Z.to_nat (numData + 4)) (bufTx s)))
          (numData + 4))
       (numData + 4))
    LIN_STATE_BREAK.

(** The engine when a slave-response request has been accepted and the
    break written. *)
Definition slave_response_started (id numData : Z) (h : decoder_t) (s : LIN_Master)
  : LIN_Master :=
  set_state
    (set_rx_handler
       (set_lenRx
          (set_lenTx
             (set_bufTx (set_frameType s LIN_SLAVE_RESPONSE)
                (header_frame id ++ skipn 3 (bufTx s)))
             3)
          (4 + numData))
       h)
    LIN_STATE_BREAK.

(** The board when the break has been written. *)
Definition break_written (s : LIN_Master) (b : Board) : Board :=
  Serial.write (Serial.begin (set_rx_fifo b []) (baudrate s / 2)) 0x00.

(** One of the four flags the engine raises. *)
Definition is_flag (f : Z) : Prop :=
  f = LIN_ERROR_STATE \/ f = LIN_ERROR_ECHO \/ f = LIN_ERROR_TIMEOUT \/ f = LIN_ERROR_CHK.

(** How a transaction that started from [s1] (the engine as the accepted
    or rejected request left it) and [b1] ends: the engine is idle again,
    and either no flag was raised and, for a slave response, the handler
    was called once with the data bytes, or some flag was raised and the
    handler was not called. *)
Definition transaction_outcome (s1 : LIN_Master) (b1 : Board)
  (s' : LIN_Master) (b' : Board) : Prop :=
  consistent s' /\ same_frame s1 s' /\ state s' = LIN_STATE_IDLE /\
  ((error s' = error s1 /\
    exists payload,
      Z.of_nat (length payload) = lenRx s1 - 4 /\
      decoded b' =
      decoded b1 ++
      match frameType s1 with
      | LIN_MASTER_REQUEST => []
      | LIN_SLAVE_RESPONSE => [(rx_handler s1, lenRx s1 - 4, payload)]
      end)
   \/ (exists raised,
         raised <> 0 /\ is_byte raised /\
         error s' = Z.lor (error s1) raised /\ decoded b' = decoded b1)).

(** How a whole transaction ends, from the engine and board before the
    request. *)
Definition transaction_result (frame : LIN_frame_t) (h : decoder_t) (numData : Z)
  (s : LIN_Master) (b : Board) (s' : LIN_Master) (b' : Board) : Prop :=
  consistent s' /\ state s' = LIN_STATE_IDLE /\ tasks b' = [] /\
  ((error s' = error s /\
    exists payload,
      Z.of_nat (length payload) = numData /\
      decoded b' =
      decoded b ++
      match frame with
      | LIN_MASTER_REQUEST => []
      | LIN_SLAVE_RESPONSE => [(h, numData, payload)]
      end)
   \/ (exists raised,
         raised <> 0 /\ is_byte raised /\
         error s' = Z.lor (error s) raised /\ decoded b' = decoded b)).

(** ** The claims that do not hold as they are stated *)

Module Claims.

(** "corrupting any single payload byte or the protected ID must change
    the computed checksum", for the frames of one protocol version. *)
Definition detects_single_byte_corruption (v : LIN_version_t) : Prop :=
  forall (id : Z) (payload : list Z),
    is_byte id -> Forall is_byte payload -> (length payload <= 8)%nat ->
    let pid := protectID id in
    (forall (i : nat) (b : Z),
        (i < length payload)%nat -> is_byte b -> b <> nth i payload 0 ->
        checksum v pid (Spec.numData_of payload) (Spec.corrupt_at i b payload)
        <> checksum v pid (Spec.numData_of payload) payload) /\
    (forall pid' : Z,
        is_byte pid' -> pid' <> pid ->
        checksum v pid' (Spec.numData_of payload) payload
        <> checksum v pid (Spec.numData_of payload) payload).

(** "issuing a second request while the engine is not Idle must always
    return StateError and must never alter the in-flight transaction's
    buffers" *)
Definition rejected_request_keeps_buffers : Prop :=
  forall (s : LIN_Master) (b : Board) (id numData : Z) (data : list Z) (h : decoder_t),
    consistent s -> state s <> LIN_STATE_IDLE ->
    (exists s' b',
        sendMasterRequest id numData data s b = Ok (Some LIN_ERROR_STATE, s', b') /\
        bufTx s' = bufTx s /\ bufRx s' = bufRx s /\
        lenTx s' = lenTx s /\ lenRx s' = lenRx s) /\
    (exists s' b',
        receiveSlaveResponse id numData h s b = Ok (Some LIN_ERROR_STATE, s', b') /\
        bufTx s' = bufTx s /\ bufRx s' = bufRx s /\
        lenTx s' = lenTx s /\ lenRx s' = lenRx s).

(** "for every request accepted by sendMasterRequest or
    receiveSlaveResponse, the computed lenTx and lenRx never exceed 12 ...
    and all buffer writes stay within these bounds": the request is
    accepted in [LIN_STATE_IDLE], [numData] is any value of its type. *)
Definition every_request_fits : Prop :=
  forall (s : LIN_Master) (b : Board) (id numData : Z) (data : list Z) (h : decoder_t),
    consistent s -> state s = LIN_STATE_IDLE -> background s = true ->
    is_byte numData -> numData <= Z.of_nat (length data) -> callable h numData s ->
    (exists r s' b',
        sendMasterRequest id numData data s b = Ok (r, s', b') /\
        lenTx s' <= 12 /\ lenRx s' <= 12) /\
    (exists r s' b',
        receiveSlaveResponse id numData h s b = Ok (r, s', b') /\
        lenTx s' <= 12 /\ lenRx s' <= 12).

(** "the engine always reverts to Idle, zeroes its receive buffer, sets
    the relevant flag": [s'] is [s] after a failure classified [flag],
    the receive buffer being the array [bufRx]. *)
Definition failed_zeroed (flag : Z) (s s' : LIN_Master) : Prop :=
  error s' = Z.lor (error s) flag /\ state s' = LIN_STATE_IDLE /\
  bufRx s' = repeat 0 (length (bufRx s')).

(** "On every failure path of a transaction ... the engine sets the
    corresponding error flag, reverts its state to Idle, and zeroes its
    receive buffer; in particular, when too few bytes arrive before the
    timing budget elapses it ends in Idle with TimeoutError set and a
    zeroed receive buffer rather than waiting indefinitely" *)
Definition failure_zeroes_receive_buffer : Prop :=
  forall (s : LIN_Master) (b : Board),
    consistent s -> liveb 500 (line b) = true ->
    (exists b1 s' b',
        Spec.send_observed s b = Ok b1 /\ handlerSend s b = Ok (s', b') /\
        (forall f, Spec.send_verdict s b1 = Some f -> failed_zeroed f s s') /\
        (state s = LIN_STATE_BREAK -> Serial.available b1 = 0 ->
         failed_zeroed LIN_ERROR_TIMEOUT s s')) /\
    (exists b1 s' b',
        Spec.receive_observed s b = Ok b1 /\ handlerReceive s b = Ok (s', b') /\
        (forall f, Spec.receive_verdict s b1 = Some f -> failed_zeroed f s s') /\
        (state s = LIN_STATE_FRAME -> Serial.available b1 <> lenRx s - 1 ->
         failed_zeroed LIN_ERROR_TIMEOUT s s')) /\
    (state s <> LIN_STATE_IDLE ->
     forall (id numData : Z) (data : list Z) (h : decoder_t),
     exists s',
       sendMasterRequest id numData data s b = Ok (Some LIN_ERROR_STATE, s', b) /\
       receiveSlaveResponse id numData h s b = Ok (Some LIN_ERROR_STATE, s', b) /\
       failed_zeroed LIN_ERROR_STATE s s').

(** "end tears down to Off and discards any in-flight transaction state
    (buffers zeroed)" *)
Definition end_zeroes_buffers : Prop :=
  forall (s : LIN_Master) (b : Board),
    consistent s ->
    let s' := fst (end_ s b) in
    state s' = LIN_STATE_OFF /\
    bufTx s' = repeat 0 12 /\ bufRx s' = repeat 0 12.

End Claims.

(** ** Sample engines and boards *)

Module Sample.

Definition board (l : list poll) : Board := mkBoard 0 [] [] 0 false 0 l [] [].

(** A world in which nothing is ever received: a millisecond per poll. *)
Definition silence : list poll := repeat (mkPoll 1000 []) (Z.to_nat 9002).

(** The engine after [begin(19200, LIN_V2, true)]. *)
Definition fresh : LIN_Master := fst (begin 19200 LIN_V2 true LIN_Master_N (board [])).

(** The engine with a second master request under way, the echo of the
    first one still in [bufRx]. *)
Definition in_flight : LIN_Master :=
  mkLIN 19200 LIN_V2 true 1 LIN_MASTER_REQUEST
        [0x00; 0x55; 0x50; 0x01; 0x02; 0xAC; 0; 0; 0; 0; 0; 0] 6
        [0x00; 0x55; 0x50; 0x01; 0x02; 0xAC; 0; 0; 0; 0; 0; 0] 6
        7 LIN_STATE_BREAK null_decoder [] LIN_SUCCESS.

(** The engine waiting for a slave response of four data bytes. *)
Definition awaiting : LIN_Master :=
  mkLIN 19200 LIN_V2 true 1 LIN_SLAVE_RESPONSE
        [0x00; 0x55; 0x20; 0; 0; 0; 0; 0; 0; 0; 0; 0] 3
        [0x00; 0; 0; 0; 0; 0; 0; 0; 0; 0; 0; 0] 8
        7 LIN_STATE_FRAME (user_decoder 0) [] LIN_SUCCESS.

(** A world in which the slave answers with four data bytes and their
    checksum. *)
Definition answer : list poll :=
  mkPoll 1000 [0x55; 0x20; 0x01; 0x02; 0x03; 0x04; 0xD5] :: silence.

End Sample.

(** ** The two handlers after their waits, and quiet lines

    Definitions for the further properties proved at the end of the
    file. *)

(** The engine and the board as [handlerSend] leaves them in
    [LIN_STATE_BREAK], from the board [b1] on which its wait ended. *)
Definition send_phase (s : LIN_Master) (b1 : Board) : LIN_Master * Board :=
  match rx_fifo b1 with
  | [] => (reverted LIN_ERROR_TIMEOUT s, b1)
  | c :: q =>
      let s1 := set_bufRx s (uint8 c :: skipn 1 (bufRx s)) in
      let b2 := set_rx_fifo b1 q in
      if uint8 c =? 0x00 then
        let b3 := Serial.begin b2 (baudrate s) in
        let b4 := set_tx_log b3 (tx_log b3 ++ firstn (Z.to_nat (lenTx s - 1))
                                                 (skipn 1 (bufTx s))) in
        (set_state s1 LIN_STATE_FRAME,
         if background s then Tasks_Add wrapperReceive 0 (durationFrame s) b4 else b4)
      else (reverted LIN_ERROR_ECHO s1, b2)
  end.

(** The engine and the board as [handlerReceive] leaves them in
    [LIN_STATE_FRAME], from the board [b1] on which its wait ended. *)
Definition receive_phase (s : LIN_Master) (b1 : Board) : LIN_Master * Board :=
  if negb (Serial.available b1 =? lenRx s - 1) then (reverted LIN_ERROR_TIMEOUT s, b1)
  else
    let frame := Spec.received_frame s b1 in
    let s1 := set_bufRx s (frame ++ skipn (Z.to_nat (lenRx s)) (bufRx s)) in
    let b2 := set_rx_fifo b1 (skipn (Z.to_nat (lenRx s - 1)) (rx_fifo b1)) in
    match frameType s with
    | LIN_MASTER_REQUEST =>
        if Mem.bytes_eqb (firstn (Z.to_nat (lenTx s)) frame)
                         (firstn (Z.to_nat (lenTx s)) (bufTx s))
        then (set_state s1 LIN_STATE_IDLE, b2)
        else (reverted LIN_ERROR_ECHO s1, b2)
    | LIN_SLAVE_RESPONSE =>
        if negb (Mem.bytes_eqb (firstn 3 frame) (firstn 3 (bufTx s)))
        then (reverted LIN_ERROR_ECHO s1, b2)
        else if negb (nth (Z.to_nat (lenRx s - 1)) frame 0
                      =? checksum (version s) (nth 2 frame 0) (lenRx s - 4)
                                  (Spec.received_payload s b1))
        then (reverted LIN_ERROR_CHK s1, b2)
        else
          let payload := Spec.received_payload s b1 in
          let s2 :=
            match rx_handler s with
            | wrapperDefaultCallback =>
                set_dataPtr s1 (payload ++ skipn (Z.to_nat (lenRx s - 4)) (dataPtr s))
            | _ => s1
            end in
          (set_state s2 LIN_STATE_IDLE,
           set_decoded b2 (decoded b2 ++ [(rx_handler s, lenRx s - 4, payload)]))
    end.

(** A stretch of the line on which no byte arrives. *)
Definition silentb (sched : list poll) : bool :=
  forallb (fun p => match arrived p with [] => true | _ :: _ => false end) sched.

(** The time a stretch of the line takes. *)
Definition sum_dt (sched : list poll) : Z := fold_right (fun p acc => dt p + acc) 0 sched.

(** The flags the receive phase raises on a frame that was written. *)
Definition is_receive_flag (frame : LIN_frame_t) (f : Z) : Prop :=
  f = LIN_ERROR_ECHO \/ f = LIN_ERROR_TIMEOUT \/
  (frame = LIN_SLAVE_RESPONSE /\ f = LIN_ERROR_CHK).

(** The flags the send phase raises on the echo of the break. *)
Definition is_break_flag (f : Z) : Prop :=
  f = LIN_ERROR_TIMEOUT \/ f = LIN_ERROR_ECHO.

(** How a request in blocking operation ends, from the engine [s1] and
    the board [b1] with the break written: either the rest of the frame
    was written and the receive phase decided, or the break was not read
    back and the call of the receive handler that follows all the same
    adds [LIN_ERROR_STATE]. *)
Definition blocking_outcome (s1 : LIN_Master) (b1 : Board)
  (s' : LIN_Master) (b' : Board) : Prop :=
  state s' = LIN_STATE_IDLE /\
  ((tx_log b' = tx_log b1 ++ firstn (Z.to_nat (lenTx s1 - 1)) (skipn 1 (bufTx s1)) /\
    (error s' = error s1 \/
     exists f, is_receive_flag (frameType s1) f /\
               error s' = Z.lor (error s1) f /\ decoded b' = decoded b1))
   \/ (tx_log b' = tx_log b1 /\ decoded b' = decoded b1 /\
       exists f, is_break_flag f /\
                 error s' = Z.lor (Z.lor (error s1) f) LIN_ERROR_STATE)).

(** What the port of the master receives after the break of a slave
    response: the echo of sync and protected ID, then the data bytes and
    the checksum byte the slave sends. *)
Definition bus_response (id : Z) (payload : list Z) (chk : Z) : list Z :=
  0x55 :: protectID id :: payload ++ [chk].

(** The response of a slave that computes the checksum as [checksum]
    does. *)
Definition response_frame (v : LIN_version_t) (id : Z) (payload : list Z) : list Z :=
  bus_response id payload (checksum v id (Spec.numData_of payload) payload).

(** ** More engines, boards and lines to run the code on *)

Module Fixture.

(** The engine after [begin(19200, LIN_V2, false)]: blocking operation. *)
Definition blocking : LIN_Master :=
  fst (begin 19200 LIN_V2 false LIN_Master_N (Sample.board [])).

(** A bus that echoes the break and then the master request 0x10 with
    the data bytes 1 and 2. *)
Definition loopback : list poll :=
  [mkPoll 1000 [0x00];
   mkPoll 5000 (skipn 1 (request_frame LIN_V2 0x10 2 [0x01; 0x02]))].

(** A bus that echoes the same master request with its second data byte
    changed from 2 to 3. *)
Definition garbled : list poll :=
  [mkPoll 1000 [0x00]; mkPoll 5000 [0x55; 0x50; 0x01; 0x03; 0xAC]].

(** A bus on which a slave answers the header of frame 0x20 with four
    data bytes. *)
Definition answered : list poll :=
  [mkPoll 1000 [0x00];
   mkPoll 5000 (response_frame LIN_V2 0x20 [0x01; 0x02; 0x03; 0x04])].

(** A bus on which the slave sends the same four data bytes with a
    checksum byte that is off by one. *)
Definition misanswered : list poll :=
  [mkPoll 1000 [0x00];
   mkPoll 5000 (bus_response 0x20 [0x01; 0x02; 0x03; 0x04] 0xD4)].

(** The engine waiting for a slave response of four data bytes that it
    is to copy to an array of the caller. *)
Definition copying : LIN_Master :=
  set_rx_handler (set_dataPtr Sample.awaiting [0; 0; 0; 0; 0; 0]) wrapperDefaultCallback.

(** A port in which eight bytes wait where seven are expected. *)
Definition crowded : Board :=
  mkBoard 0 [0x55; 0x20; 0x01; 0x02; 0x03; 0x04; 0xD5; 0x00] [] 0 false 0
          Sample.silence [] [].

(** A board whose microsecond counter is 100 microseconds before its
    wrap-around, on a silent bus looked at every 200 microseconds. *)
Definition wrapping : Board :=
  mkBoard 4294967196 [] [] 0 false 0
          [mkPoll 200 []; mkPoll 200 []; mkPoll 200 []; mkPoll 200 []] [] [].

(** The engine in background operation waiting for a slave response of
    no data bytes, the echo of an earlier master request with two data
    bytes still in [bufRx]. *)
Definition expecting : LIN_Master :=
  mkLIN 19200 LIN_V2 true 1 LIN_SLAVE_RESPONSE
        [0x00; 0x55; 0x20; 0x01; 0x02; 0xAC; 0; 0; 0; 0; 0; 0] 3
        [0x00; 0x55; 0x50; 0x01; 0x02; 0xAC; 0; 0; 0; 0; 0; 0] 4
        7 LIN_STATE_FRAME (user_decoder 0) [] LIN_SUCCESS.

(** The engine in blocking operation after a slave response with a wrong
    checksum byte: Idle, with [LIN_ERROR_CHK] latched. *)
Definition latched : LIN_Master :=
  mkLIN 19200 LIN_V2 false 1 LIN_SLAVE_RESPONSE
        [0x00; 0x55; 0x20; 0; 0; 0; 0; 0; 0; 0; 0; 0] 3
        [0; 0; 0; 0; 0; 0; 0; 0; 0; 0; 0; 0] 8
        7 LIN_STATE_IDLE (user_decoder 0) [] LIN_ERROR_CHK.

(** The bus of [loopback], silent after the echo of the frame. *)
Definition echoing : Board := Sample.board (loopback ++ Sample.silence).

End Fixture.

(** Bounds and well-formedness of the sample engines, by evaluation. *)
Ltac sample_bounds :=
  unfold is_byte; repeat split;
  first [ apply Z.leb_le; vm_compute; reflexivity
        | apply Z.ltb_lt; vm_compute; reflexivity ].

Ltac sample_consistent :=
  constructor;
  first [ reflexivity
        | sample_bounds
        | intros [H|H]; vm_compute in H; discriminate
        | intros _; sample_bounds
        | intros _ H; vm_compute in H; discriminate
        | intros _ _; exact I ].

(** * Theorems *)

(** ** The frame codec *)

Lemma forallb_bytes (P : Z -> bool) :
  forallb P (map Z.of_nat (seq 0 256)) = true ->
  forall x, is_byte x -> P x = true.
Proof.
  intros H x [Hlo Hhi].
  rewrite forallb_forall in H. apply H.
  apply in_map_iff. exists (Z.to_nat x). split; [lia|].
  apply in_seq. lia.
Qed.

Lemma checksum_step_spec chk d :
  0 <= chk < 65536 -> checksum_step chk d = Spec.end_around_add chk d.
Proof.
  intros Hc. unfold checksum_step, Spec.end_around_add, uint16.
  change (2 ^ 16) with 65536.
  rewrite Zplus_mod_idemp_r.
  pose proof (Z.mod_pos_bound (chk + d) 65536 ltac:(lia)) as Hb.
  rewrite Z.gtb_ltb.
  destruct (255 <? (chk + d) mod 65536) eqn:E; [|reflexivity].
  apply Z.ltb_lt in E. apply Z.mod_small. lia.
Qed.

Lemma end_around_add_range sum d :
  0 <= Spec.end_around_add sum d < 65536.
Proof.
  unfold Spec.end_around_add. change (2 ^ 16) with 65536.
  pose proof (Z.mod_pos_bound (sum + d) 65536 ltac:(lia)) as Hb.
  rewrite Z.gtb_ltb.
  destruct (255 <? (sum + d) mod 65536) eqn:E.
  - apply Z.ltb_lt in E. lia.
  - lia.
Qed.

Lemma checksum_loop_fold count : forall i data chk,
  0 <= chk < 65536 ->
  (i + count <= length data)%nat ->
  checksum_loop count i data chk =
  fold_left Spec.end_around_add (firstn count (skipn i data)) chk.
Proof.
  induction count as [|count IH]; intros i data chk Hc Hlen; simpl.
  - reflexivity.
  - destruct (skipn i data) as [|d rest] eqn:E.
    + apply (f_equal (@length Z)) in E. rewrite length_skipn in E. simpl in E. lia.
    + assert (Hd : nth i data 0 = d).
      { rewrite <- (Nat.add_0_r i). rewrite <- nth_skipn. rewrite E. reflexivity. }
      assert (Hr : skipn (S i) data = rest).
      { change (S i) with (1 + i)%nat. rewrite <- skipn_skipn. rewrite E. reflexivity. }
      rewrite IH.
      * rewrite Hd, Hr. simpl. rewrite checksum_step_spec by assumption. reflexivity.
      * rewrite checksum_step_spec by assumption. apply end_around_add_range.
      * lia.
Qed.

Lemma complement_byte x : is_byte x -> 0xFF - x = Z.lxor x 0xFF.
Proof.
  intros H.
  assert (E : (0xFF - x =? Z.lxor x 0xFF) = true).
  { revert x H. apply forallb_bytes. vm_compute. reflexivity. }
  apply Z.eqb_eq in E. exact E.
Qed.

Lemma finish_spec chk :
  uint8 (uint16 (uint8 (0xFF - uint8 chk))) = Spec.ones_complement_low_byte chk.
Proof.
  unfold Spec.ones_complement_low_byte, uint8, uint16.
  change 0xFF with (Z.ones 8) at 2. rewrite Z.land_ones by lia. change (2 ^ 8) with 256.
  pose proof (Z.mod_pos_bound chk 256 ltac:(lia)) as Hb.
  rewrite (Z.mod_small (0xFF - chk mod 256) 256) by lia.
  rewrite (Z.mod_small (0xFF - chk mod 256) 65536) by lia.
  rewrite (Z.mod_small (0xFF - chk mod 256) 256) by lia.
  apply complement_byte. exact Hb.
Qed.

Lemma protectID_byte id : is_byte (protectID id).
Proof. unfold protectID, uint8. cbv zeta. apply Z.mod_pos_bound. lia. Qed.

Lemma checksum_unfold v id numData data :
  0 <= numData <= Z.of_nat (length data) ->
  checksum v id numData data =
  Spec.ones_complement_low_byte
    (fold_left Spec.end_around_add (firstn (Z.to_nat numData) data)
       (if Spec.seeded v (protectID id) then protectID id else 0)).
Proof.
  intros Hn. unfold checksum. cbv zeta.
  rewrite finish_spec. f_equal.
  pose proof (protectID_byte id) as Hp. unfold is_byte in Hp.
  assert (Hseed :
    (if negb (version_eqb v LIN_V1 || (protectID id =? 0x3C) || (protectID id =? 0x7D))
     then uint16 (protectID id) else 0) =
    (if Spec.seeded v (protectID id) then protectID id else 0)).
  { unfold Spec.seeded, uint16. rewrite (Z.mod_small (protectID id)) by lia.
    destruct v; simpl;
      destruct (protectID id =? 0x3C), (protectID id =? 0x7D); reflexivity. }
  rewrite Hseed.
  rewrite checksum_loop_fold.
  - reflexivity.
  - destruct (Spec.seeded v (protectID id)); lia.
  - lia.
Qed.

(** C1, counterexample: under version 2 a payload byte changed from 0x00
    to 0xFF, and the protected ID 0x50 changed to 0x10, leave the checksum
    as it is; under version 1 no change of the ID changes it. *)
Lemma checksum_misses_corruption :
  checksum LIN_V2 0x50 2 [0x01; 0xFF] = checksum LIN_V2 0x50 2 [0x01; 0x00] /\
  checksum LIN_V2 0x10 2 [0x01; 0x02] = checksum LIN_V2 0x50 2 [0x01; 0x02] /\
  checksum LIN_V1 0x51 2 [0x01; 0x02] = checksum LIN_V1 0x50 2 [0x01; 0x02] /\
  ~ Claims.detects_single_byte_corruption LIN_V1 /\
  ~ Claims.detects_single_byte_corruption LIN_V2.
Proof.
  assert (Hb : forall x, 0 <= x < 256 -> is_byte x) by (intros; assumption).
  assert (Hp : Forall is_byte [0x01; 0x00]).
  { repeat constructor; unfold is_byte; lia. }
  split; [reflexivity|]. split; [reflexivity|]. split; [reflexivity|].
  split; intros H.
  - destruct (H 0x10 [0x01; 0x00]) as [_ Hid]; [apply Hb; lia | exact Hp | simpl; lia |].
    apply (Hid 0x51); [apply Hb; lia | vm_compute; discriminate | reflexivity].
  - destruct (H 0x10 [0x01; 0x00]) as [Hpay _]; [apply Hb; lia | exact Hp | simpl; lia |].
    apply (Hpay 1%nat 0xFF); [simpl; lia | apply Hb; lia | simpl; lia | reflexivity].
Qed.

(** The accumulator *)

Lemma end_around_add_small c d :
  0 <= c <= 255 -> is_byte d ->
  Spec.end_around_add c d = if 255 <? c + d then c + d - 255 else c + d.
Proof.
  intros Hc Hd. unfold is_byte in Hd. unfold Spec.end_around_add.
  change (2 ^ 16) with 65536. rewrite Z.mod_small by lia.
  rewrite Z.gtb_ltb. reflexivity.
Qed.

Lemma end_around_add_facts c d :
  0 <= c <= 255 -> is_byte d ->
  0 <= Spec.end_around_add c d <= 255 /\
  Spec.end_around_add c d mod 255 = (c + d) mod 255 /\
  (Spec.end_around_add c d = 0 <-> c = 0 /\ d = 0).
Proof.
  intros Hc Hd. rewrite end_around_add_small by assumption.
  unfold is_byte in Hd.
  destruct (255 <? c + d) eqn:E.
  - apply Z.ltb_lt in E. repeat split; try lia.
    replace (c + d) with (c + d - 255 + 1 * 255) at 2 by lia.
    rewrite Z.mod_add by lia. reflexivity.
  - apply Z.ltb_ge in E. repeat split; try lia.
Qed.

Lemma accumulate_facts l : forall c,
  0 <= c <= 255 -> Forall is_byte l ->
  0 <= fold_left Spec.end_around_add l c <= 255 /\
  fold_left Spec.end_around_add l c mod 255 = (c + sum_bytes l) mod 255 /\
  (fold_left Spec.end_around_add l c = 0 <-> c = 0 /\ Forall (fun x => x = 0) l).
Proof.
  induction l as [|d l IH]; intros c Hc Hl; simpl.
  - rewrite Z.add_0_r. split; [lia|]. split; [reflexivity|]. split; [intros H; split; [exact H | constructor] | intros [H _]; exact H].
  - inversion Hl as [|? ? Hd Hl']; subst.
    destruct (end_around_add_facts c d Hc Hd) as (Hr & Hm & Hz).
    destruct (IH _ Hr Hl') as (Hr' & Hm' & Hz').
    split; [exact Hr'|]. split.
    + rewrite Hm'. rewrite <- Zplus_mod_idemp_l. rewrite Hm.
      rewrite Zplus_mod_idemp_l. f_equal. lia.
    + rewrite Hz', Hz. split.
      * intros [[H1 H2] H3]. split; [exact H1|]. constructor; assumption.
      * intros [H1 H2]. inversion H2; subst. repeat split; assumption.
Qed.

Lemma canonical_residue x y :
  0 <= x <= 255 -> 0 <= y <= 255 ->
  x mod 255 = y mod 255 -> (x = 0 <-> y = 0) -> x = y.
Proof.
  intros Hx Hy Hm Hz.
  destruct (Z.eq_dec x 255) as [->|Nx]; destruct (Z.eq_dec y 255) as [->|Ny].
  - reflexivity.
  - rewrite Z.mod_same in Hm by lia. rewrite Z.mod_small in Hm by lia. lia.
  - rewrite Z.mod_same in Hm by lia. rewrite Z.mod_small in Hm by lia. lia.
  - rewrite !Z.mod_small in Hm by lia. exact Hm.
Qed.

Lemma ones_complement_inj x y :
  0 <= x <= 255 -> 0 <= y <= 255 ->
  Spec.ones_complement_low_byte x = Spec.ones_complement_low_byte y -> x = y.
Proof.
  intros Hx Hy H. unfold Spec.ones_complement_low_byte in H.
  apply (f_equal (fun z => Z.lxor z 0xFF)) in H.
  rewrite !Z.lxor_assoc, !Z.lxor_nilpotent, !Z.lxor_0_r in H.
  change 0xFF with (Z.ones 8) in H. rewrite !Z.land_ones in H by lia.
  change (2 ^ 8) with 256 in H. rewrite !Z.mod_small in H by lia. exact H.
Qed.

Lemma protectID_facts id :
  is_byte id ->
  1 <= protectID id <= 254 /\ Z.land (protectID id) 0x3F = Z.land id 0x3F.
Proof.
  intros H.
  assert (E : ((1 <=? protectID id) && (protectID id <=? 254)
               && (Z.land (protectID id) 0x3F =? Z.land id 0x3F)) = true).
  { revert id H. apply forallb_bytes. vm_compute. reflexivity. }
  rewrite !andb_true_iff in E. destruct E as [[E1 E2] E3].
  apply Z.leb_le in E1, E2. apply Z.eqb_eq in E3. lia.
Qed.

Lemma protectID_low_bits id : protectID id = protectID (Z.land id 0x3F).
Proof.
  unfold protectID. cbv zeta.
  rewrite <- (Z.land_assoc id 0x3F 0x3F). reflexivity.
Qed.

Lemma checksum_seed_range v id : is_byte id -> 0 <= checksum_seed v id <= 254.
Proof.
  intros H. unfold checksum_seed. pose proof (protectID_facts id H) as [Hr _].
  destruct (Spec.seeded v (protectID id)); lia.
Qed.

Lemma checksum_seed_zero v id :
  is_byte id -> (checksum_seed v id = 0 <-> Spec.seeded v (protectID id) = false).
Proof.
  intros H. unfold checksum_seed. pose proof (protectID_facts id H) as [Hr _].
  destruct (Spec.seeded v (protectID id)); split; intros; try reflexivity; try discriminate; lia.
Qed.

Lemma checksum_eq_iff v id id' payload payload' :
  is_byte id -> is_byte id' -> Forall is_byte payload -> Forall is_byte payload' ->
  (checksum v id' (Spec.numData_of payload') payload' = checksum v id (Spec.numData_of payload) payload
   <-> fold_left Spec.end_around_add payload' (checksum_seed v id')
       = fold_left Spec.end_around_add payload (checksum_seed v id)).
Proof.
  intros Hid Hid' Hp Hp'. unfold Spec.numData_of.
  rewrite !checksum_unfold by lia. rewrite !Nat2Z.id, !firstn_all. fold (checksum_seed v id) (checksum_seed v id').
  pose proof (checksum_seed_range v id Hid) as Hs. pose proof (checksum_seed_range v id' Hid') as Hs'.
  destruct (accumulate_facts payload (checksum_seed v id) ltac:(lia) Hp) as (Hr & _).
  destruct (accumulate_facts payload' (checksum_seed v id') ltac:(lia) Hp') as (Hr' & _).
  split.
  - apply ones_complement_inj; assumption.
  - intros ->. reflexivity.
Qed.

Lemma mod255_cancel a x y :
  (a + x) mod 255 = (a + y) mod 255 <-> x mod 255 = y mod 255.
Proof.
  split; intros H.
  - assert (E : ((a + x) - a) mod 255 = ((a + y) - a) mod 255).
    { rewrite Zminus_mod, H, <- Zminus_mod. reflexivity. }
    replace (a + x - a) with x in E by lia. replace (a + y - a) with y in E by lia. exact E.
  - rewrite <- Zplus_mod_idemp_r, H, Zplus_mod_idemp_r. reflexivity.
Qed.

Lemma byte_residue x y :
  is_byte x -> is_byte y -> x <> y ->
  (x mod 255 = y mod 255 <-> (x = 0 /\ y = 255) \/ (x = 255 /\ y = 0)).
Proof.
  unfold is_byte. intros Hx Hy Hne. split.
  - intros H.
    destruct (Z.eq_dec x 255) as [->|Nx]; destruct (Z.eq_dec y 255) as [->|Ny];
      try lia.
    + rewrite Z.mod_same, Z.mod_small in H by lia. lia.
    + rewrite Z.mod_same, Z.mod_small in H by lia. lia.
    + rewrite !Z.mod_small in H by lia. lia.
  - intros [[-> ->] | [-> ->]]; reflexivity.
Qed.

Lemma Forall_app_cons_zero (pre post : list Z) (d : Z) :
  Forall (fun x => x = 0) (pre ++ d :: post) <->
  d = 0 /\ Forall (fun x => x = 0) (pre ++ post).
Proof.
  rewrite !Forall_app, Forall_cons_iff. tauto.
Qed.

Lemma sum_bytes_app l1 l2 : sum_bytes (l1 ++ l2) = sum_bytes l1 + sum_bytes l2.
Proof. induction l1 as [|x l1 IH]; simpl; [reflexivity | rewrite IH; lia]. Qed.

Lemma corrupt_at_split (i : nat) (payload : list Z) :
  (i < length payload)%nat ->
  payload = firstn i payload ++ nth i payload 0 :: skipn (S i) payload.
Proof.
  revert payload. induction i as [|i IH]; intros [|x l] H; simpl in *; try lia.
  - reflexivity.
  - f_equal. apply IH. lia.
Qed.

(** C1, amended: for every payload, replacing one byte by a different
    one leaves the checksum unchanged exactly when the two values are
    0x00 and 0xFF and something else in the sum (the protected ID, when it
    is part of the sum, or another payload byte) is not zero; replacing
    the ID leaves it unchanged exactly when the two IDs have the same low
    six bits or neither is part of the sum (version 1, or both
    diagnostic).  Every other single-byte corruption changes it. *)
Theorem checksum_single_byte_corruption
  (v : LIN_version_t) (id : Z) (payload : list Z)
  (Hid : is_byte id) (Hp : Forall is_byte payload) :
  (forall (i : nat) (b : Z),
      (i < length payload)%nat -> is_byte b -> b <> nth i payload 0 ->
      (checksum v id (Spec.numData_of payload) (Spec.corrupt_at i b payload)
       = checksum v id (Spec.numData_of payload) payload
       <->
       ((nth i payload 0 = 0x00 /\ b = 0xFF) \/ (nth i payload 0 = 0xFF /\ b = 0x00))
       /\ ~ (Spec.seeded v (protectID id) = false
             /\ Forall (fun x => x = 0) (firstn i payload ++ skipn (S i) payload))))
  /\
  (forall id' : Z,
      is_byte id' ->
      (checksum v id' (Spec.numData_of payload) payload
       = checksum v id (Spec.numData_of payload) payload
       <->
       Z.land id' 0x3F = Z.land id 0x3F
       \/ (Spec.seeded v (protectID id') = false
           /\ Spec.seeded v (protectID id) = false))).
Proof.
  split.
  - intros i b Hi Hb Hne.
    set (b0 := nth i payload 0) in *.
    set (pre := firstn i payload). set (post := skipn (S i) payload).
    assert (Hsplit : payload = pre ++ b0 :: post) by (apply corrupt_at_split; exact Hi).
    assert (Hparts : Forall is_byte pre /\ is_byte b0 /\ Forall is_byte post).
    { pose proof Hp as Hp2. rewrite Hsplit in Hp2.
      apply Forall_app in Hp2. destruct Hp2 as [Hpre Hp2].
      inversion Hp2 as [|? ? Hh Ht]. split; [|split]; assumption. }
    destruct Hparts as (Hpre & Hb0 & Hpost).
    assert (Hlen : Spec.numData_of payload = Spec.numData_of (Spec.corrupt_at i b payload)).
    { unfold Spec.numData_of, Spec.corrupt_at. fold pre post. rewrite Hsplit at 1.
      rewrite !length_app. simpl. reflexivity. }
    assert (Hc : Forall is_byte (Spec.corrupt_at i b payload)).
    { unfold Spec.corrupt_at. apply Forall_app. split; [exact Hpre|]. constructor; assumption. }
    rewrite Hlen at 1. rewrite checksum_eq_iff by assumption.
    unfold Spec.corrupt_at. fold pre post. rewrite Hsplit at 1.
    rewrite !fold_left_app. simpl.
    pose proof (checksum_seed_range v id Hid) as Hs.
    destruct (accumulate_facts pre (checksum_seed v id) ltac:(lia) Hpre) as (Ar & Am & Az).
    set (A := fold_left Spec.end_around_add pre (checksum_seed v id)) in *.
    destruct (end_around_add_facts A b Ar Hb) as (Sr & Sm & Sz).
    destruct (end_around_add_facts A b0 Ar Hb0) as (Sr0 & Sm0 & Sz0).
    destruct (accumulate_facts post _ Sr Hpost) as (Rr & Rm & Rz).
    destruct (accumulate_facts post _ Sr0 Hpost) as (Rr0 & Rm0 & Rz0).
    assert (Hres : fold_left Spec.end_around_add post (Spec.end_around_add A b) mod 255
                   = fold_left Spec.end_around_add post (Spec.end_around_add A b0) mod 255
                   <-> b mod 255 = b0 mod 255).
    { rewrite Rm, Rm0.
      rewrite <- (Zplus_mod_idemp_l (Spec.end_around_add A b)), Sm, Zplus_mod_idemp_l.
      rewrite <- (Zplus_mod_idemp_l (Spec.end_around_add A b0)), Sm0, Zplus_mod_idemp_l.
      replace (A + b + sum_bytes post) with ((A + sum_bytes post) + b) by lia.
      replace (A + b0 + sum_bytes post) with ((A + sum_bytes post) + b0) by lia.
      apply mod255_cancel. }
    assert (Hrest : checksum_seed v id = 0 /\ Forall (fun x => x = 0) (pre ++ post)
                    <-> A = 0 /\ Forall (fun x => x = 0) post).
    { rewrite Az, Forall_app. tauto. }
    rewrite <- (checksum_seed_zero v id Hid). rewrite Hrest.
    rewrite <- (byte_residue b0 b Hb0 Hb ltac:(congruence)).
    split.
    + intros E. split.
      * symmetry. apply Hres. rewrite E. reflexivity.
      * intros [HA Hz].
        assert (Hx : b mod 255 = b0 mod 255) by (apply Hres; rewrite E; reflexivity).
        apply (byte_residue b b0 Hb Hb0 Hne) in Hx.
        destruct Hx as [[Hx1 Hx2] | [Hx1 Hx2]].
        -- assert (Z0 : fold_left Spec.end_around_add post (Spec.end_around_add A b) = 0).
           { apply Rz. split; [apply Sz; split; assumption | exact Hz]. }
           rewrite Z0 in E. symmetry in E. apply Rz0 in E. destruct E as [E _].
           apply Sz0 in E. lia.
        -- assert (Z0 : fold_left Spec.end_around_add post (Spec.end_around_add A b0) = 0).
           { apply Rz0. split; [apply Sz0; split; assumption | exact Hz]. }
           rewrite Z0 in E. apply Rz in E. destruct E as [E _].
           apply Sz in E. lia.
    + intros [Hm Hnz].
      apply canonical_residue; try assumption.
      * apply Hres. symmetry. exact Hm.
      * split; intros E.
        -- apply Rz in E. destruct E as [E Hz]. apply Sz in E. exfalso. apply Hnz. tauto.
        -- apply Rz0 in E. destruct E as [E Hz]. apply Sz0 in E. exfalso. apply Hnz. tauto.
  - intros id' Hid'.
    rewrite checksum_eq_iff by assumption.
    pose proof (checksum_seed_range v id Hid) as Hs. pose proof (checksum_seed_range v id' Hid') as Hs'.
    destruct (accumulate_facts payload (checksum_seed v id) ltac:(lia) Hp) as (Rr & Rm & Rz).
    destruct (accumulate_facts payload (checksum_seed v id') ltac:(lia) Hp) as (Rr' & Rm' & Rz').
    destruct (protectID_facts id Hid) as [Pr Pl].
    destruct (protectID_facts id' Hid') as [Pr' Pl'].
    assert (Hseed : fold_left Spec.end_around_add payload (checksum_seed v id')
                    = fold_left Spec.end_around_add payload (checksum_seed v id)
                    <-> checksum_seed v id' = checksum_seed v id).
    { split; [|intros ->; reflexivity].
      intros E. apply (f_equal (fun z => z mod 255)) in E. rewrite Rm, Rm' in E.
      rewrite (Z.add_comm (checksum_seed v id')), (Z.add_comm (checksum_seed v id)) in E.
      apply mod255_cancel in E. rewrite !Z.mod_small in E by lia. exact E. }
    rewrite Hseed. unfold checksum_seed.
    split.
    + intros E.
      destruct (Spec.seeded v (protectID id')) eqn:S';
        destruct (Spec.seeded v (protectID id)) eqn:S0.
      * left. rewrite <- Pl, <- Pl', E. reflexivity.
      * exfalso. lia.
      * exfalso. lia.
      * right. split; reflexivity.
    + intros [E | [-> ->]]; [|reflexivity].
      rewrite (protectID_low_bits id'), (protectID_low_bits id), E. reflexivity.
Qed.

(** C2: [checksum] is the one's complement of the low byte of the
    end-around-carry sum of the payload, started from the protected ID
    exactly under version 2 with a protected ID other than 0x3C and 0x7D;
    under version 1 and for these two IDs it is the classic checksum. *)
Theorem checksum_refines_spec (v : LIN_version_t) (id numData : Z) (data : list Z)
  (Hn : 0 <= numData <= Z.of_nat (length data)) :
  checksum v id numData data =
    Spec.frame_checksum v (protectID id) (firstn (Z.to_nat numData) data) /\
  (v = LIN_V1 \/ protectID id = 0x3C \/ protectID id = 0x7D ->
   checksum v id numData data =
     Spec.classic_checksum (firstn (Z.to_nat numData) data)).
Proof.
  split.
  - apply checksum_unfold. exact Hn.
  - intros Hc. rewrite checksum_unfold by exact Hn.
    unfold Spec.classic_checksum.
    replace (Spec.seeded v (protectID id)) with false; [reflexivity|].
    unfold Spec.seeded.
    destruct Hc as [-> | [-> | ->]]; [reflexivity | |];
      destruct v; reflexivity.
Qed.

Lemma protectID_checked (id : Z) : is_byte id -> protectID_check id = true.
Proof. revert id. apply forallb_bytes. vm_compute. reflexivity. Qed.

Lemma land_6_bits_byte (id : Z) : is_byte (Z.land id 0x3F).
Proof.
  unfold is_byte. change 0x3F with (Z.ones 6). rewrite Z.land_ones by lia.
  pose proof (Z.mod_pos_bound id (2 ^ 6) ltac:(lia)). change (2 ^ 6) with 64 in *. lia.
Qed.

Lemma protectID_idempotent (id : Z) : protectID (protectID id) = protectID id.
Proof.
  rewrite (protectID_low_bits id).
  pose proof (protectID_checked (Z.land id 0x3F) (land_6_bits_byte id)) as H.
  unfold protectID_check in H. cbv zeta in H.
  rewrite !andb_true_iff in H. destruct H as [_ H]. apply Z.eqb_eq in H. exact H.
Qed.

(** C3: for every 8 bit [id], [protectID id] keeps the low six bits, has
    bit 6 equal to id0^id1^id2^id4 and bit 7 equal to the complement of
    id1^id3^id4^id5, fits 8 bits, and is a fixed point of [protectID]. *)
Theorem protectID_parity_idempotent (id : Z) (Hid : is_byte id) :
  Z.land (protectID id) 0x3F = Z.land id 0x3F /\
  Z.testbit (protectID id) 6 =
    xorb (xorb (xorb (Z.testbit id 0) (Z.testbit id 1)) (Z.testbit id 2)) (Z.testbit id 4) /\
  Z.testbit (protectID id) 7 =
    negb (xorb (xorb (xorb (Z.testbit id 1) (Z.testbit id 3)) (Z.testbit id 4)) (Z.testbit id 5)) /\
  is_byte (protectID id) /\
  protectID (protectID id) = protectID id.
Proof.
  pose proof (protectID_checked id Hid) as H.
  unfold protectID_check in H. cbv zeta in H.
  repeat rewrite andb_true_iff in H.
  destruct H as [[[[H1 H2] H3] H4] H5].
  apply Z.eqb_eq in H1, H5. apply eqb_prop in H2, H3.
  unfold is_byteb in H4. apply andb_true_iff in H4. destruct H4 as [H4 H4'].
  unfold is_byte. repeat split; try assumption; lia.
Qed.

Lemma checksum_single_byte_corruption_witness :
  is_byte 0x10 /\ Forall is_byte [0x01; 0x02] /\
  checksum LIN_V2 0x10 (Spec.numData_of [0x01; 0x02]) (Spec.corrupt_at 1 0x07 [0x01; 0x02])
  <> checksum LIN_V2 0x10 (Spec.numData_of [0x01; 0x02]) [0x01; 0x02].
Proof.
  assert (Hid : is_byte 0x10) by (unfold is_byte; lia).
  assert (Hp : Forall is_byte [0x01; 0x02])
    by (repeat constructor; unfold is_byte; lia).
  split; [exact Hid|]. split; [exact Hp|].
  intros E.
  destruct (checksum_single_byte_corruption LIN_V2 0x10 [0x01; 0x02] Hid Hp) as [H _].
  apply (H 1%nat 0x07) in E.
  - destruct E as [[[E _] | [E _]] _]; discriminate E.
  - simpl. lia.
  - unfold is_byte. lia.
  - discriminate.
Defined.

Lemma checksum_refines_spec_witness :
  0 <= 2 <= Z.of_nat (length [0x01; 0x02]) /\
  checksum LIN_V2 0x10 2 [0x01; 0x02]
  = Spec.frame_checksum LIN_V2 (protectID 0x10) (firstn (Z.to_nat 2) [0x01; 0x02]).
Proof.
  assert (Hn : 0 <= 2 <= Z.of_nat (length [0x01; 0x02])) by (simpl; lia).
  split; [exact Hn|].
  exact (proj1 (checksum_refines_spec LIN_V2 0x10 2 [0x01; 0x02] Hn)).
Defined.

Lemma protectID_parity_idempotent_witness :
  is_byte 0x10 /\ protectID (protectID 0x10) = protectID 0x10.
Proof.
  assert (Hid : is_byte 0x10) by (unfold is_byte; lia).
  split; [exact Hid|].
  exact (proj2 (proj2 (proj2 (proj2 (protectID_parity_idempotent 0x10 Hid))))).
Defined.

(** ** The engine: arrays, waits and the send phase *)

Lemma revert_ok flag s :
  0 <= lenRx s <= Z.of_nat (length (bufRx s)) ->
  revert flag s = Ok (reverted flag s).
Proof.
  intros H. unfold revert, Mem.memset. simpl.
  replace ((0 <=? lenRx s) && (lenRx s <=? Z.of_nat (length (bufRx s)))) with true.
  - reflexivity.
  - symmetry. apply andb_true_iff. split; [apply Z.leb_le | apply Z.leb_le]; lia.
Qed.

Lemma consistent_lenRx s :
  consistent s -> 0 <= lenRx s <= Z.of_nat (length (bufRx s)).
Proof. intros C. rewrite (bufRx_size s C). pose proof (lenRx_range s C). lia. Qed.

Lemma uint8_byte x : is_byte x -> uint8 x = x.
Proof. intros H. unfold uint8. apply Z.mod_small. exact H. Qed.

Lemma lor_byte x y : is_byte x -> is_byte y -> is_byte (Z.lor x y).
Proof.
  unfold is_byte. intros Hx Hy.
  split.
  - apply Z.lor_nonneg. lia.
  - change 256 with (2 ^ 8).
    destruct (Z.eq_dec (Z.lor x y) 0) as [->|Hne]; [lia|].
    apply Z.log2_lt_pow2; [pose proof (proj2 (Z.lor_nonneg x y) ltac:(lia)); lia|].
    rewrite Z.log2_lor by lia.
    apply Z.max_lub_lt.
    + destruct (Z.eq_dec x 0) as [->|Hx0]; [simpl; lia|]. apply Z.log2_lt_pow2; lia.
    + destruct (Z.eq_dec y 0) as [->|Hy0]; [simpl; lia|]. apply Z.log2_lt_pow2; lia.
Qed.

Lemma reverted_consistent flag s :
  is_byte flag -> consistent s -> consistent (reverted flag s).
Proof.
  intros Hf C. destruct C as [H1 H2 H3 H4 H5 HD H6 H7].
  constructor; simpl; try assumption.
  - rewrite length_app, repeat_length, length_skipn. lia.
  - rewrite !uint8_byte by assumption. apply lor_byte; assumption.
  - unfold in_flight. simpl. intros [H|H]; discriminate.
  - unfold in_flight. simpl. intros [H|H]; discriminate.
Qed.

(** Waiting *)

(** What a wait leaves alone. *)
(** The invariant holds for the object as constructed and is kept by
    [begin] and [end]. *)
Lemma LIN_Master_N_consistent : consistent LIN_Master_N.
Proof.
  constructor; try reflexivity.
  - cbn. lia.
  - cbn. lia.
  - unfold is_byte. cbn. unfold LIN_SUCCESS. lia.
  - unfold is_byte. cbn. lia.
  - intros [H|H]; discriminate.
  - intros [H|H]; discriminate.
Qed.

Lemma begin_consistent Baudrate Version Background s b :
  consistent s -> consistent (fst (begin Baudrate Version Background s b)).
Proof.
  intros C. destruct C as [H1 H2 H3 H4 H5 HD H6 H7].
  unfold begin. destruct (uint16 Baudrate <? 12000);
    (constructor; cbn; try assumption;
     [ unfold is_byte, LIN_SUCCESS; lia
     | unfold is_byte; lia
     | unfold in_flight; cbn; intros [H|H]; discriminate
     | unfold in_flight; cbn; intros [H|H]; discriminate ]).
Qed.

Lemma end_consistent s b : consistent s -> consistent (fst (end_ s b)).
Proof.
  intros C. destruct C as [H1 H2 H3 H4 H5 HD H6 H7].
  constructor; cbn; try assumption.
  - unfold is_byte, LIN_SUCCESS. lia.
  - unfold in_flight. cbn. intros [H|H]; discriminate.
  - unfold in_flight. cbn. intros [H|H]; discriminate.
Qed.

Lemma same_port_refl b : same_port b b.
Proof. unfold same_port. tauto. Qed.

Lemma same_port_trans b1 b2 b3 : same_port b1 b2 -> same_port b2 b3 -> same_port b1 b3.
Proof. unfold same_port. intuition congruence. Qed.

Lemma busy_wait_same_port cond sched : forall b b',
  busy_wait cond sched b = Ok b' -> same_port b b' /\ cond b' = false.
Proof.
  induction sched as [|p rest IH]; intros b b' H; simpl in H.
  - destruct (cond b) eqn:E; [discriminate|]. injection H as <-.
    split; [apply same_port_refl | exact E].
  - destruct (cond b) eqn:E.
    + apply IH in H. destruct H as [H1 H2]. split; [|exact H2].
      eapply same_port_trans; [|exact H1]. unfold same_port. simpl. tauto.
    + injection H as <-. split; [apply same_port_refl | exact E].
Qed.

Lemma liveb_spec n sched :
  liveb n sched = true <-> n <= Z.of_nat (length sched) /\ forallb tickb sched = true.
Proof. unfold liveb. rewrite andb_true_iff, Z.leb_le. tauto. Qed.

Lemma liveb_weaken n m sched : m <= n -> liveb n sched = true -> liveb m sched = true.
Proof. rewrite !liveb_spec. intros; intuition lia. Qed.

Section Waiting.

Variable cond : Board -> bool.
Variables c0 B : Z.

(** While [cond] holds, less than [B] microseconds have passed since
    [c0], as far as a 32 bit counter can tell. *)
Hypothesis cond_bound :
  forall b, 0 <= clock b - c0 < B + 2147483648 -> cond b = true -> clock b - c0 < B.

Lemma busy_wait_terminates :
  forall sched b n,
    line b = sched ->
    0 <= clock b - c0 < B + 2147483648 ->
    liveb n sched = true -> B - (clock b - c0) <= n ->
    exists b', busy_wait cond sched b = Ok b' /\
               liveb (n - Z.max 0 (B - (clock b - c0))) (line b') = true.
Proof.
  induction sched as [|p rest IH]; intros b n Hline Hc Hl Hn; simpl.
  - destruct (cond b) eqn:E.
    + apply cond_bound in E; [|exact Hc]. apply liveb_spec in Hl. simpl in Hl. lia.
    + exists b. split; [reflexivity|]. rewrite Hline.
      eapply liveb_weaken; [|exact Hl]. lia.
  - destruct (cond b) eqn:E.
    + apply cond_bound in E; [|exact Hc].
      apply liveb_spec in Hl. destruct Hl as [Hlen Hall]. simpl in Hall.
      apply andb_true_iff in Hall. destruct Hall as [Hp Hall].
      unfold tickb in Hp. apply andb_true_iff in Hp. destruct Hp as [Hp1 Hp2].
      apply Z.leb_le in Hp1, Hp2.
      destruct (IH (set_line (elapse p b) rest) (n - 1)) as (b' & Hb' & Hl').
      * reflexivity.
      * simpl. lia.
      * apply liveb_spec. split; [|exact Hall].
        change (length (p :: rest)) with (S (length rest)) in Hlen. lia.
      * simpl. lia.
      * exists b'. split; [exact Hb'|]. eapply liveb_weaken; [|exact Hl'].
        simpl. lia.
    + exists b. split; [reflexivity|]. rewrite Hline.
      eapply liveb_weaken; [|exact Hl]. lia.
Qed.

End Waiting.

Lemma uint32_sub a b : uint32 (uint32 a - uint32 b) = uint32 (a - b).
Proof. unfold uint32. rewrite Zminus_mod_idemp_l, Zminus_mod_idemp_r. reflexivity. Qed.

Lemma micros_elapsed_bound (b0 b : Board) :
  0 <= clock b - clock b0 < 500 + 2147483648 ->
  (uint32 (micros b - micros b0) <? 500) = true -> clock b - clock b0 < 500.
Proof.
  intros Hc H. apply Z.ltb_lt in H. unfold micros in H. rewrite uint32_sub in H.
  unfold uint32 in H. rewrite Z.mod_small in H by lia. exact H.
Qed.

Lemma millis_elapsed_bound (b0 b : Board) (d : Z) :
  0 <= d <= 255 ->
  0 <= clock b - clock b0 < 1000 * d + 2147483648 ->
  (uint32 (millis b - millis b0) <? d) = true -> clock b - clock b0 < 1000 * d.
Proof.
  intros Hd Hc H. apply Z.ltb_lt in H. unfold millis in H. rewrite uint32_sub in H.
  pose proof (Z.div_mod (clock b) 1000 ltac:(lia)) as E1.
  pose proof (Z.div_mod (clock b0) 1000 ltac:(lia)) as E0.
  pose proof (Z.mod_pos_bound (clock b) 1000 ltac:(lia)) as R1.
  pose proof (Z.mod_pos_bound (clock b0) 1000 ltac:(lia)) as R0.
  unfold uint32 in H. rewrite Z.mod_small in H by lia. lia.
Qed.

Lemma wait_break_ok (b : Board) (n : Z) :
  liveb n (line b) = true -> 500 <= n ->
  exists b', break_wait b = Ok b' /\
             liveb (n - 500) (line b') = true /\ same_port b b' /\
             break_pending (micros b) b' = false.
Proof.
  intros Hl Hn.
  destruct (busy_wait_terminates (break_pending (micros b)) (clock b) 500) with
    (sched := line b) (b := b) (n := n) as (b' & Hb' & Hl'); try assumption; try reflexivity; try lia.
  - intros x Hx E. unfold break_pending in E. apply andb_true_iff in E.
    apply (micros_elapsed_bound b x Hx). apply E.
  - exists b'. split; [exact Hb'|]. split.
    + eapply liveb_weaken; [|exact Hl']. lia.
    + apply busy_wait_same_port in Hb'. exact Hb'.
Qed.

Lemma wait_frame_ok (len : Z) (b : Board) (n : Z) :
  liveb n (line b) = true -> 500 <= n ->
  exists b', frame_wait len b = Ok b' /\
             liveb (n - 500) (line b') = true /\ same_port b b' /\
             frame_pending len (micros b) b' = false.
Proof.
  intros Hl Hn.
  destruct (busy_wait_terminates (frame_pending len (micros b)) (clock b) 500) with
    (sched := line b) (b := b) (n := n) as (b' & Hb' & Hl'); try assumption; try reflexivity; try lia.
  - intros x Hx E. unfold frame_pending in E. apply andb_true_iff in E.
    apply (micros_elapsed_bound b x Hx). apply E.
  - exists b'. split; [exact Hb'|]. split.
    + eapply liveb_weaken; [|exact Hl']. lia.
    + apply busy_wait_same_port in Hb'. exact Hb'.
Qed.

Lemma wait_response_ok (len d : Z) (b : Board) (n : Z) :
  0 <= d <= 255 ->
  liveb n (line b) = true -> 1000 * d <= n ->
  exists b', response_wait len d b = Ok b' /\
             liveb (n - 1000 * d) (line b') = true /\ same_port b b' /\
             response_pending len d (millis b) b' = false.
Proof.
  intros Hd Hl Hn.
  destruct (busy_wait_terminates (response_pending len d (millis b)) (clock b) (1000 * d)) with
    (sched := line b) (b := b) (n := n) as (b' & Hb' & Hl'); try assumption; try reflexivity; try lia.
  - intros x Hx E. unfold response_pending in E. apply andb_true_iff in E.
    apply (millis_elapsed_bound b x d Hd Hx). apply E.
  - exists b'. split; [exact Hb'|]. split.
    + eapply liveb_weaken; [|exact Hl']. lia.
    + apply busy_wait_same_port in Hb'. exact Hb'.
Qed.

Lemma flush_ok (b : Board) (n : Z) :
  liveb n (line b) = true -> 1 <= n ->
  exists b', flush b = Ok b' /\ liveb (n - 1) (line b') = true /\ same_port b b'.
Proof.
  intros Hl Hn. unfold flush. apply liveb_spec in Hl. destruct Hl as [Hlen Hall].
  destruct (line b) as [|p rest] eqn:E.
  - simpl in Hlen. lia.
  - eexists. split; [reflexivity|]. split.
    + simpl. apply liveb_spec. simpl in Hall. apply andb_true_iff in Hall.
      change (length (p :: rest)) with (S (length rest)) in Hlen. split; [lia | apply Hall].
    + unfold same_port. simpl. tauto.
Qed.

(** Array accesses inside the bounds *)

Lemma store_ok a i v :
  0 <= i < Z.of_nat (length a) ->
  Mem.store a i v = Ok (firstn (Z.to_nat i) a ++ uint8 v :: skipn (S (Z.to_nat i)) a).
Proof.
  intros H. unfold Mem.store.
  replace ((0 <=? i) && (i <? Z.of_nat (length a))) with true; [reflexivity|].
  symmetry. apply andb_true_iff. split; [apply Z.leb_le | apply Z.ltb_lt]; lia.
Qed.

Lemma load_ok a i :
  0 <= i < Z.of_nat (length a) -> Mem.load a i = Ok (nth (Z.to_nat i) a 0).
Proof.
  intros H. unfold Mem.load.
  replace ((0 <=? i) && (i <? Z.of_nat (length a))) with true; [reflexivity|].
  symmetry. apply andb_true_iff. split; [apply Z.leb_le | apply Z.ltb_lt]; lia.
Qed.

Lemma memcpy_ok dst off src n :
  0 <= off -> 0 <= n -> off + n <= Z.of_nat (length dst) -> n <= Z.of_nat (length src) ->
  Mem.memcpy dst off src n =
  Ok (firstn (Z.to_nat off) dst ++ firstn (Z.to_nat n) src ++ skipn (Z.to_nat (off + n)) dst).
Proof.
  intros H1 H2 H3 H4. unfold Mem.memcpy.
  replace ((0 <=? off) && (0 <=? n) && (off + n <=? Z.of_nat (length dst))
           && (n <=? Z.of_nat (length src))) with true; [reflexivity|].
  symmetry. rewrite !andb_true_iff, !Z.leb_le. lia.
Qed.

Lemma memcmp_ok a b n :
  0 <= n -> n <= Z.of_nat (length a) -> n <= Z.of_nat (length b) ->
  Mem.memcmp_ne a b n =
  Ok (negb (Mem.bytes_eqb (firstn (Z.to_nat n) a) (firstn (Z.to_nat n) b))).
Proof.
  intros H1 H2 H3. unfold Mem.memcmp_ne.
  replace ((0 <=? n) && (n <=? Z.of_nat (length a)) && (n <=? Z.of_nat (length b)))
    with true; [reflexivity|].
  symmetry. rewrite !andb_true_iff, !Z.leb_le. lia.
Qed.

Lemma write_buf_ok b buf off n :
  0 <= off -> 0 <= n -> off + n <= Z.of_nat (length buf) ->
  Serial.write_buf b buf off n =
  Ok (set_tx_log b (tx_log b ++ firstn (Z.to_nat n) (skipn (Z.to_nat off) buf))).
Proof.
  intros H1 H2 H3. unfold Serial.write_buf.
  replace ((0 <=? off) && (0 <=? n) && (off + n <=? Z.of_nat (length buf)))
    with true; [reflexivity|].
  symmetry. rewrite !andb_true_iff, !Z.leb_le. lia.
Qed.

Lemma bytes_eqb_eq x y : Mem.bytes_eqb x y = true <-> x = y.
Proof.
  unfold Mem.bytes_eqb. destruct (list_eq_dec Z.eq_dec x y); split; intros;
    try reflexivity; try assumption; try discriminate; contradiction.
Qed.

(** handlerSend *)

Lemma same_frame_refl s : same_frame s s.
Proof. unfold same_frame. tauto. Qed.

Lemma reverted_same_frame flag s : same_frame s (reverted flag s).
Proof. unfold same_frame. simpl. tauto. Qed.

Lemma reverted_failed flag s :
  is_byte flag -> is_byte (error s) -> failed flag s (reverted flag s).
Proof.
  intros Hf He. unfold failed. simpl. rewrite !uint8_byte by assumption.
  repeat split.
Qed.

Lemma flag_bytes :
  is_byte LIN_ERROR_STATE /\ is_byte LIN_ERROR_ECHO /\ is_byte LIN_ERROR_TIMEOUT /\
  is_byte LIN_ERROR_CHK.
Proof. unfold is_byte; cbv; repeat split; discriminate. Qed.

Lemma failed_after_read flag s buf :
  is_byte flag -> is_byte (error s) ->
  skipn (Z.to_nat (lenRx s)) buf = skipn (Z.to_nat (lenRx s)) (bufRx s) ->
  failed flag s (reverted flag (set_bufRx s buf)).
Proof.
  intros Hf He Hk. unfold failed. simpl. rewrite !uint8_byte by assumption.
  rewrite Hk. repeat split.
Qed.

Lemma handlerSend_spec (s : LIN_Master) (b : Board) (n : Z) :
  consistent s -> liveb n (line b) = true -> 500 <= n ->
  exists b1 s' b',
    Spec.send_observed s b = Ok b1 /\
    handlerSend s b = Ok (s', b') /\
    consistent s' /\ same_frame s s' /\ dataPtr s' = dataPtr s /\
    liveb (n - 500) (line b') = true /\ decoded b' = decoded b /\
    match Spec.send_verdict s b1 with
    | Some f => failed f s s' /\ tasks b' = tasks b
    | None =>
        state s' = LIN_STATE_FRAME /\ error s' = error s /\
        nth 0 (bufRx s') 0 = 0 /\
        tasks b' = tasks b ++
                   (if background s then [(wrapperReceive, 0, durationFrame s)] else [])
    end.
Proof.
  intros C Hl Hn.
  destruct flag_bytes as (FS & FE & FT & FC).
  pose proof (error_range s C) as He.
  unfold handlerSend, Spec.send_observed, Spec.send_verdict.
  destruct (status_eqb (state s) LIN_STATE_BREAK) eqn:Est; simpl negb; cbv iota.
  - (* state is BREAK *)
    assert (Hst : state s = LIN_STATE_BREAK) by (destruct (state s); try discriminate; reflexivity).
    destruct (wait_break_ok b n Hl Hn) as (b1 & Hw & Hl1 & Hp1 & Hc1).
    rewrite Hw. simpl bind.
    exists b1.
    destruct Hp1 as (P1 & P2 & P3 & P4 & P5 & P6).
    unfold Serial.available.
    destruct (rx_fifo b1) as [|c q] eqn:Eq.
    + (* timeout *)
      simpl. rewrite revert_ok by (apply consistent_lenRx; exact C). simpl.
      eexists. eexists. split; [reflexivity|]. split; [reflexivity|].
      split; [apply reverted_consistent; assumption|].
      split; [apply reverted_same_frame|]. split; [reflexivity|].
      split; [exact Hl1|]. split; [exact P6|].
      split; [apply reverted_failed; assumption | exact P5].
    + (* a byte is there *)
      change (Z.of_nat (length (c :: q)) =? 0) with false. cbv iota.
      unfold Serial.read. rewrite Eq.
      pose proof (bufRx_size s C) as Hsz.
      rewrite store_ok by lia. cbn [bind Z.to_nat firstn app].
      assert (Cb : consistent (set_bufRx s (uint8 c :: skipn 1 (bufRx s)))).
      { destruct C as [H1 H2 H3 H4 H5 HD H6 H7]. constructor; try assumption.
        change (S (length (skipn 1 (bufRx s))) = 12%nat). rewrite length_skipn. lia. }
      set (s1 := set_bufRx s (uint8 c :: skipn 1 (bufRx s))) in *.
      rewrite load_ok by (cbn [length]; lia).
      cbn [bind Z.to_nat nth].
      destruct (uint8 c =? 0) eqn:Ec; cbn [negb].
      * (* echo of the break is 0x00 *)
        apply Z.eqb_eq in Ec.
        destruct (frame_lengths s C (or_introl Hst)) as [HlenTx HlenRx].
        pose proof (lenTx_range s C) as HrTx. pose proof (bufTx_size s C) as HszTx.
        rewrite write_buf_ok by lia. cbn [bind].
        assert (Cf : consistent (set_state s1 LIN_STATE_FRAME)).
        { destruct Cb as [H1 H2 H3 H4 H5 HD H6 H7]. constructor; simpl in *; try assumption.
          - intros _. apply H6. left. exact Hst.
          - intros _. apply H7. left. exact Hst. }
        destruct (background s) eqn:Ebg;
          eexists; eexists; (split; [reflexivity|]); (split; [reflexivity|]);
          (split; [exact Cf|]); (split; [unfold same_frame; simpl; tauto|]);
          (split; [reflexivity|]); (split; [exact Hl1|]); (split; [exact P6|]);
          (split; [reflexivity|]); (split; [reflexivity|]); (split; [exact Ec|]).
        -- unfold Tasks_Add. simpl. rewrite P5. reflexivity.
        -- simpl. rewrite P5, app_nil_r. reflexivity.
      * (* wrong echo *)
        rewrite revert_ok by (apply consistent_lenRx; exact Cb). cbn [bind].
        eexists. eexists. split; [reflexivity|]. split; [reflexivity|].
        split; [apply reverted_consistent; assumption|].
        split; [apply (reverted_same_frame LIN_ERROR_ECHO s1)|].
        split; [reflexivity|].
        split; [exact Hl1|]. split; [exact P6|].
        split; [|exact P5].
        apply failed_after_read; [assumption | assumption |].
        destruct (frame_lengths s C (or_introl Hst)) as [_ HlenRx].
        destruct (Z.to_nat (lenRx s)) as [|k] eqn:Ek; [lia|].
        change (skipn (S k) (uint8 c :: skipn 1 (bufRx s)))
          with (skipn k (skipn 1 (bufRx s))).
        rewrite skipn_skipn. f_equal. lia.
  - (* wrong state *)
    rewrite revert_ok by (apply consistent_lenRx; exact C). simpl.
    exists b. eexists. eexists. split; [reflexivity|]. split; [reflexivity|].
    split; [apply reverted_consistent; assumption|].
    split; [apply reverted_same_frame|]. split; [reflexivity|].
    split; [eapply liveb_weaken; [|exact Hl]; lia|]. split; [reflexivity|].
    split; [apply reverted_failed; assumption | reflexivity].
Qed.

(** ** The receive phase *)

Lemma firstn_app_exact {A} (l1 l2 : list A) n :
  n = length l1 -> firstn n (l1 ++ l2) = l1.
Proof.
  intros ->. rewrite firstn_app, Nat.sub_diag, firstn_all. simpl. apply app_nil_r.
Qed.

Lemma skipn_app_exact {A} (l1 l2 : list A) n :
  n = length l1 -> skipn n (l1 ++ l2) = l2.
Proof.
  intros ->. rewrite skipn_app, Nat.sub_diag, skipn_all. reflexivity.
Qed.

Lemma read_frame_ok count : forall (i : nat) (buf : list Z) (b : Board),
  (i + count <= length buf)%nat -> (count <= length (rx_fifo b))%nat ->
  read_frame count (Z.of_nat i) buf b =
  Ok (firstn i buf ++ map uint8 (firstn count (rx_fifo b)) ++ skipn (i + count) buf,
      set_rx_fifo b (skipn count (rx_fifo b))).
Proof.
  induction count as [|count IH]; intros i buf b Hi Hq.
  - simpl. rewrite Nat.add_0_r, firstn_skipn. destruct b; reflexivity.
  - cbn [read_frame]. unfold Serial.read.
    destruct (rx_fifo b) as [|c q] eqn:Eq; [simpl in Hq; lia|].
    rewrite store_ok by lia. cbn [bind]. rewrite Nat2Z.id.
    replace (Z.of_nat i + 1) with (Z.of_nat (S i)) by lia.
    assert (Hlen : length (firstn i buf) = i) by (rewrite length_firstn; lia).
    rewrite IH.
    + f_equal. f_equal.
      * replace (firstn i buf ++ uint8 c :: skipn (S i) buf)
          with ((firstn i buf ++ [uint8 c]) ++ skipn (S i) buf)
          by (rewrite <- app_assoc; reflexivity).
        rewrite firstn_app_exact by (rewrite length_app, Hlen; simpl; lia).
        rewrite skipn_app, (skipn_all2 (firstn i buf ++ [uint8 c]))
          by (rewrite length_app, Hlen; simpl; lia).
        rewrite length_app, Hlen. simpl length.
        rewrite skipn_skipn. cbn [rx_fifo set_rx_fifo firstn map].
        rewrite <- app_assoc. cbn [app].
        replace (S i + count - (i + 1) + S i)%nat with (i + S count)%nat by lia.
        reflexivity.
    + rewrite !length_app, Hlen. cbn [length]. rewrite length_skipn. lia.
    + simpl in *. lia.
Qed.

Lemma firstn_app_le {A} (l1 l2 : list A) n :
  (n <= length l1)%nat -> firstn n (l1 ++ l2) = firstn n l1.
Proof.
  intros H. rewrite firstn_app. replace (n - length l1)%nat with 0%nat by lia.
  simpl. apply app_nil_r.
Qed.

Lemma skipn_app_le {A} (l1 l2 : list A) n :
  (n <= length l1)%nat -> skipn n (l1 ++ l2) = skipn n l1 ++ l2.
Proof.
  intros H. rewrite skipn_app. replace (n - length l1)%nat with 0%nat by lia.
  reflexivity.
Qed.

Lemma checksum_firstn v id n data :
  0 <= n <= Z.of_nat (length data) ->
  checksum v id n data = checksum v id n (firstn (Z.to_nat n) data).
Proof.
  intros H. rewrite (checksum_unfold v id n data) by exact H.
  rewrite (checksum_unfold v id n (firstn (Z.to_nat n) data))
    by (rewrite length_firstn; lia).
  rewrite firstn_firstn, Nat.min_id. reflexivity.
Qed.

Lemma received_frame_length s b1 :
  Z.of_nat (length (rx_fifo b1)) = lenRx s - 1 ->
  length (Spec.received_frame s b1) = Z.to_nat (lenRx s).
Proof.
  intros H. unfold Spec.received_frame. cbn [length]. rewrite length_map. lia.
Qed.

Lemma received_bufRx s b1 :
  consistent s -> Z.of_nat (length (rx_fifo b1)) = lenRx s - 1 ->
  firstn 1 (bufRx s)
    ++ map uint8 (firstn (Z.to_nat (lenRx s - 1)) (rx_fifo b1))
    ++ skipn (1 + Z.to_nat (lenRx s - 1)) (bufRx s)
  = Spec.received_frame s b1 ++ skipn (Z.to_nat (lenRx s)) (bufRx s).
Proof.
  intros C H. pose proof (bufRx_size s C) as Hsz.
  rewrite (firstn_all2 (rx_fifo b1)) by lia.
  replace (1 + Z.to_nat (lenRx s - 1))%nat with (Z.to_nat (lenRx s)) by lia.
  unfold Spec.received_frame.
  destruct (bufRx s) as [|x0 xs]; [discriminate|]. reflexivity.
Qed.

Lemma call_decoder_ok h numData data s b :
  callable h numData s -> 0 <= numData <= Z.of_nat (length data) ->
  exists s',
    call_decoder h numData data s b =
    Ok (s', set_decoded b (decoded b ++ [(h, numData, firstn (Z.to_nat numData) data)])) /\
    (forall v, set_state s' v = set_dataPtr (set_state s v) (dataPtr s')) /\
    length (dataPtr s') = length (dataPtr s) /\
    (h <> wrapperDefaultCallback -> s' = s).
Proof.
  intros Hc Hn. unfold call_decoder. destruct h; simpl in Hc.
  - contradiction.
  - exists s. split; [reflexivity|]. split; [destruct s; reflexivity|].
    split; [reflexivity|]. intros _. reflexivity.
  - unfold defaultCallback. rewrite memcpy_ok by lia. cbn [bind].
    eexists. split; [reflexivity|]. split; [reflexivity|]. split.
    + cbn [dataPtr set_dataPtr Z.to_nat firstn app]. rewrite length_app, length_firstn, length_skipn. lia.
    + intros H. contradiction.
Qed.

Lemma handlerReceive_spec (s : LIN_Master) (b : Board) (n : Z) :
  consistent s -> liveb n (line b) = true -> 500 <= n ->
  exists b1 s' b',
    Spec.receive_observed s b = Ok b1 /\
    handlerReceive s b = Ok (s', b') /\
    consistent s' /\ same_frame s s' /\
    liveb (n - 500) (line b') = true /\ tasks b' = tasks b /\
    match Spec.receive_verdict s b1 with
    | Some f => failed f s s' /\ decoded b' = decoded b /\ dataPtr s' = dataPtr s
    | None =>
        state s' = LIN_STATE_IDLE /\ error s' = error s /\
        bufRx s' = Spec.received_frame s b1 ++ skipn (Z.to_nat (lenRx s)) (bufRx s) /\
        decoded b' =
        decoded b ++
        match frameType s with
        | LIN_MASTER_REQUEST => []
        | LIN_SLAVE_RESPONSE =>
            [(rx_handler s, lenRx s - 4, Spec.received_payload s b1)]
        end
    end.
Proof.
  intros C Hl Hn.
  destruct flag_bytes as (FS & FE & FT & FC).
  pose proof (error_range s C) as He.
  unfold handlerReceive, Spec.receive_observed, Spec.receive_verdict.
  destruct (status_eqb (state s) LIN_STATE_FRAME) eqn:Est; cbn [negb].
  - assert (Hst : state s = LIN_STATE_FRAME) by (destruct (state s); try discriminate; reflexivity).
    destruct (wait_frame_ok (lenRx s) b n Hl Hn) as (b1 & Hw & Hl1 & Hp1 & Hc1).
    rewrite Hw. cbn [bind]. exists b1.
    destruct Hp1 as (P1 & P2 & P3 & P4 & P5 & P6).
    destruct (Serial.available b1 =? lenRx s - 1) eqn:Eav; cbn [negb].
    + (* the expected number of bytes is there *)
      apply Z.eqb_eq in Eav. unfold Serial.available in Eav.
      destruct (frame_lengths s C (or_intror Hst)) as [HlenTx HlenRx].
      pose proof (lenRx_range s C) as HrRx.
      pose proof (bufRx_size s C) as HszRx. pose proof (bufTx_size s C) as HszTx.
      change 1 with (Z.of_nat 1) at 2.
      rewrite read_frame_ok by lia. cbn [bind].
      rewrite (received_bufRx s b1 C Eav).
      pose proof (received_frame_length s b1 Eav) as Hfl.
      set (frame := Spec.received_frame s b1) in *.
      set (tail := skipn (Z.to_nat (lenRx s)) (bufRx s)).
      assert (Htail : length tail = (12 - Z.to_nat (lenRx s))%nat).
      { unfold tail. rewrite length_skipn. lia. }
      set (s1 := set_bufRx s (frame ++ tail)).
      set (b2 := set_rx_fifo b1 (skipn (Z.to_nat (lenRx s - 1)) (rx_fifo b1))).
      assert (C1 : consistent s1).
      { destruct C as [H1 H2 H3 H4 H5 HD H6 H7]. constructor; try assumption.
        change (length (frame ++ tail) = 12%nat). rewrite length_app. lia. }
      assert (Hl2 : liveb (n - 500) (line b2) = true) by exact Hl1.
      change (frameType s1) with (frameType s). change (bufRx s1) with (frame ++ tail).
      change (bufTx s1) with (bufTx s). change (lenTx s1) with (lenTx s).
      change (lenRx s1) with (lenRx s). change (version s1) with (version s).
      change (rx_handler s1) with (rx_handler s).
      destruct (frameType s) eqn:Eft.
      * (* master request: the echo of the whole frame *)
        rewrite memcmp_ok by (rewrite ?length_app; lia). cbn [bind].
        rewrite firstn_app_le by lia.
        destruct (Mem.bytes_eqb (firstn (Z.to_nat (lenTx s)) frame)
                                (firstn (Z.to_nat (lenTx s)) (bufTx s))) eqn:Eeq;
          cbn [negb].
        -- eexists. eexists. split; [reflexivity|]. split; [reflexivity|].
           split.
           { destruct C1 as [H1 H2 H3 H4 H5 HD H6 H7]. constructor; try assumption;
               unfold in_flight; simpl; intros [H|H]; discriminate. }
           split; [unfold same_frame; simpl; tauto|].
           split; [exact Hl2|]. split; [exact P5|].
           split; [reflexivity|]. split; [reflexivity|]. split; [reflexivity|].
           rewrite app_nil_r. exact P6.
        -- rewrite revert_ok by (apply consistent_lenRx; exact C1). cbn [bind].
           eexists. eexists. split; [reflexivity|]. split; [reflexivity|].
           split; [apply reverted_consistent; assumption|].
           split; [apply (reverted_same_frame LIN_ERROR_ECHO s1)|].
           split; [exact Hl2|]. split; [exact P5|].
           split; [|split; [exact P6 | reflexivity]].
           apply failed_after_read; [assumption | assumption |].
           apply skipn_app_exact. symmetry. exact Hfl.
      * (* slave response: header echo, then checksum *)
        rewrite memcmp_ok by (rewrite ?length_app; lia). cbn [bind].
        change (Z.to_nat 3) with 3%nat.
        rewrite (firstn_app_le frame tail 3) by lia.
        destruct (Mem.bytes_eqb (firstn 3 frame) (firstn 3 (bufTx s))) eqn:Eeq;
          cbn [negb].
        -- rewrite load_ok by (rewrite length_app; lia). cbn [bind].
           rewrite load_ok by (rewrite length_app; lia). cbn [bind].
           change (Z.to_nat 2) with 2%nat.
           rewrite !app_nth1 by lia.
           assert (Hu : uint8 (lenRx s - 4) = lenRx s - 4)
             by (apply uint8_byte; unfold is_byte; lia).
           rewrite Hu.
           assert (Hdata : skipn 3 (frame ++ tail) = skipn 3 frame ++ tail)
             by (apply skipn_app_le; lia).
           rewrite Hdata.
           assert (Hdl : length (skipn 3 frame ++ tail) = 9%nat)
             by (rewrite length_app, length_skipn; lia).
           assert (Hpay : firstn (Z.to_nat (lenRx s - 4)) (skipn 3 frame ++ tail)
                          = Spec.received_payload s b1).
           { unfold Spec.received_payload. fold frame.
             apply firstn_app_le. rewrite length_skipn. lia. }
           unfold checksum_of. rewrite Hdl.
           replace (lenRx s - 4 <=? Z.of_nat 9) with true
             by (symmetry; apply Z.leb_le; lia).
           cbn [bind].
           rewrite (checksum_firstn _ _ _ (skipn 3 frame ++ tail)) by (rewrite Hdl; lia).
           rewrite Hpay.
           destruct (nth (Z.to_nat (lenRx s - 1)) frame 0
                     =? checksum (version s) (nth 2 frame 0) (lenRx s - 4)
                                 (Spec.received_payload s b1)) eqn:Echk;
             cbn [negb].
           ++ (* accepted: the handler is called *)
              assert (Hcall : callable (rx_handler s) (lenRx s - 4) s1).
              { pose proof (handler_ready s C (or_intror Hst) Eft) as Hr.
                destruct (rx_handler s); exact Hr. }
              destruct (call_decoder_ok (rx_handler s) (lenRx s - 4)
                          (skipn 3 frame ++ tail) s1 b2 Hcall ltac:(rewrite Hdl; lia))
                as (s2 & Hcd & Hs2 & Hdp & _).
              rewrite Hcd. cbn [bind]. rewrite Hpay. rewrite Hs2.
              eexists. eexists. split; [reflexivity|]. split; [reflexivity|].
              split.
              { destruct C1 as [H1 H2 H3 H4 H5 HD H6 H7]. constructor; try assumption;
                  unfold in_flight; simpl; intros [H|H]; discriminate. }
              split; [unfold same_frame; simpl; tauto|].
              split; [exact Hl2|]. split; [exact P5|].
              split; [reflexivity|]. split; [reflexivity|]. split; [reflexivity|].
              simpl. rewrite P6. reflexivity.
           ++ rewrite revert_ok by (apply consistent_lenRx; exact C1). cbn [bind].
              eexists. eexists. split; [reflexivity|]. split; [reflexivity|].
              split; [apply reverted_consistent; assumption|].
              split; [apply (reverted_same_frame LIN_ERROR_CHK s1)|].
              split; [exact Hl2|]. split; [exact P5|].
              split; [|split; [exact P6 | reflexivity]].
              apply failed_after_read; [assumption | assumption |].
           apply skipn_app_exact. symmetry. exact Hfl.
        -- rewrite revert_ok by (apply consistent_lenRx; exact C1). cbn [bind].
           eexists. eexists. split; [reflexivity|]. split; [reflexivity|].
           split; [apply reverted_consistent; assumption|].
           split; [apply (reverted_same_frame LIN_ERROR_ECHO s1)|].
           split; [exact Hl2|]. split; [exact P5|].
           split; [|split; [exact P6 | reflexivity]].
           apply failed_after_read; [assumption | assumption |].
           apply skipn_app_exact. symmetry. exact Hfl.
    + (* too few (or too many) bytes when the wait ends *)
      rewrite revert_ok by (apply consistent_lenRx; exact C). cbn [bind].
      eexists. eexists. split; [reflexivity|]. split; [reflexivity|].
      split; [apply reverted_consistent; assumption|].
      split; [apply reverted_same_frame|].
      split; [exact Hl1|]. split; [exact P5|].
      split; [apply reverted_failed; assumption|]. split; [exact P6 | reflexivity].
  - (* wrong state *)
    rewrite revert_ok by (apply consistent_lenRx; exact C). cbn [bind].
    exists b. eexists. eexists. split; [reflexivity|]. split; [reflexivity|].
    split; [apply reverted_consistent; assumption|].
    split; [apply reverted_same_frame|].
    split; [eapply liveb_weaken; [|exact Hl]; lia|]. split; [reflexivity|].
    split; [apply reverted_failed; assumption|]. split; reflexivity.
Qed.

(** ** Requests *)

Lemma discard_all n : forall b,
  (length (rx_fifo b) <= n)%nat -> Serial.discard n b = set_rx_fifo b [].
Proof.
  induction n as [|n IH]; intros b H.
  - destruct b as [c q t r o pt l ts d]. simpl in *.
    destruct q; [reflexivity | simpl in H; lia].
  - cbn [Serial.discard]. unfold Serial.available, Serial.read.
    destruct (rx_fifo b) as [|c q] eqn:Eq.
    + simpl. destruct b; simpl in *; subst; reflexivity.
    + change (Z.of_nat (length (c :: q)) =? 0) with false. cbv iota.
      cbn [snd]. rewrite IH by (simpl in *; lia). reflexivity.
Qed.

Lemma drain_empty b : Serial.drain b = set_rx_fifo b [].
Proof. unfold Serial.drain. apply discard_all. lia. Qed.

Lemma checksum_byte v id n data : is_byte (checksum v id n data).
Proof. unfold checksum, is_byte, uint8. cbv zeta. apply Z.mod_pos_bound. lia. Qed.

Lemma store3_header {A} (buf : list Z) (id : Z) (k : list Z -> res A) :
  length buf = 12%nat ->
  (x <- Mem.store buf 0 0x00 ;; y <- Mem.store x 1 0x55 ;;
   z <- Mem.store y 2 (protectID id) ;; k z)
  = k (header_frame id ++ skipn 3 buf).
Proof.
  intros H.
  do 3 (destruct buf as [|? buf]; [discriminate|]).
  unfold header_frame. pose proof (uint8_byte (protectID id) (protectID_byte id)) as Hp.
  rewrite store_ok by (cbn [length]; lia).
  change (Z.to_nat 0) with 0%nat. cbn [bind firstn skipn app].
  rewrite store_ok by (cbn [length]; lia).
  change (Z.to_nat 1) with 1%nat. cbn [bind firstn skipn app].
  rewrite store_ok by (cbn [length]; lia).
  change (Z.to_nat 2) with 2%nat. cbn [bind firstn skipn app].
  rewrite Hp. reflexivity.
Qed.

Lemma sendMasterRequest_accepted id numData data s b :
  consistent s -> state s = LIN_STATE_IDLE ->
  0 <= numData <= 8 -> numData <= Z.of_nat (length data) ->
  sendMasterRequest id numData data s b =
  let s1 := master_request_started id numData data s in
  let b1 := break_written s b in
  if background s then
    Ok (None, s1, Tasks_Add wrapperSend 0 (durationBreak s) b1)
  else
    b <- flush b1 ;;
    ' (s, b) <- handlerSend s1 b ;;
    b <- flush b ;;
    ' (s, b) <- handlerReceive s b ;;
    Ok (None, s, b).
Proof.
  intros C Hst Hn Hd. unfold sendMasterRequest. rewrite Hst. cbn [status_eqb negb].
  cbv zeta. cbn [bufTx set_frameType].
  rewrite store3_header by (apply (bufTx_size s C)).
  pose proof (bufTx_size s C) as Hsz.
  assert (Hlen : length (header_frame id ++ skipn 3 (bufTx s)) = 12%nat).
  { rewrite length_app, length_skipn. simpl. lia. }
  rewrite memcpy_ok by lia. cbn [bind].
  unfold checksum_of.
  replace (numData <=? Z.of_nat (length data)) with true by (symmetry; apply Z.leb_le; lia).
  cbn [bind].
  set (chk := checksum (version (set_frameType s LIN_MASTER_REQUEST)) (protectID id) numData data).
  assert (Hbuf : forall tl,
    firstn (Z.to_nat 3) (header_frame id ++ tl) = header_frame id).
  { intros tl. apply firstn_app_exact. reflexivity. }
  rewrite Hbuf.
  set (buf1 := header_frame id ++ firstn (Z.to_nat numData) data
               ++ skipn (Z.to_nat (3 + numData)) (header_frame id ++ skipn 3 (bufTx s))).
  assert (Hlen1 : length buf1 = 12%nat).
  { unfold buf1. rewrite !length_app, length_firstn, length_skipn, Hlen.
    change (length (header_frame id)) with 3%nat. lia. }
  rewrite store_ok by lia. cbn [bind].
  assert (Hfinal :
    firstn (Z.to_nat (3 + numData)) buf1 ++ uint8 chk :: skipn (S (Z.to_nat (3 + numData))) buf1
    = request_frame (version s) id numData data ++ skipn (Z.to_nat (numData + 4)) (bufTx s)).
  { unfold buf1, request_frame.
    rewrite app_assoc.
    assert (Hpre : length (header_frame id ++ firstn (Z.to_nat numData) data)
                   = Z.to_nat (3 + numData)).
    { rewrite length_app, length_firstn. change (length (header_frame id)) with 3%nat. lia. }
    rewrite firstn_app_exact by (symmetry; exact Hpre).
    rewrite skipn_app, (skipn_all2 (header_frame id ++ firstn (Z.to_nat numData) data)) by lia.
    rewrite Hpre. cbn [app].
    rewrite skipn_skipn.
    rewrite (uint8_byte chk) by apply checksum_byte.
    unfold header_frame. cbn [app]. rewrite <- app_assoc. cbn [app].
    do 3 f_equal. f_equal.
    replace (S (Z.to_nat (3 + numData)) - Z.to_nat (3 + numData) + Z.to_nat (3 + numData))%nat
      with (3 + Z.to_nat (numData + 1))%nat by lia.
    change (skipn (3 + Z.to_nat (numData + 1)) (0 :: 85 :: protectID id :: skipn 3 (bufTx s)))
      with (skipn (Z.to_nat (numData + 1)) (skipn 3 (bufTx s))).
    rewrite skipn_skipn.
    replace (Z.to_nat (numData + 1) + 3)%nat with (Z.to_nat (numData + 4)) by lia.
    reflexivity. }
  rewrite Hfinal.
  rewrite load_ok by (cbn [bufTx set_lenRx set_lenTx set_bufTx]; rewrite length_app; unfold request_frame; simpl; lia).
  cbn [bind]. rewrite drain_empty.
  assert (Hu : uint8 (numData + 4) = numData + 4) by (apply uint8_byte; unfold is_byte; lia).
  rewrite Hu.
  reflexivity.
Qed.

Lemma receiveSlaveResponse_accepted id numData h s b :
  consistent s -> state s = LIN_STATE_IDLE -> 0 <= numData <= 8 ->
  receiveSlaveResponse id numData h s b =
  let s1 := slave_response_started id numData h s in
  let b1 := break_written s b in
  if background s then
    Ok (None, s1, Tasks_Add wrapperSend 0 (durationBreak s) b1)
  else
    b <- flush b1 ;;
    ' (s, b) <- handlerSend s1 b ;;
    b <- response_wait (lenRx s) (durationFrame s) b ;;
    ' (s, b) <- handlerReceive s b ;;
    Ok (None, s, b).
Proof.
  intros C Hst Hn. unfold receiveSlaveResponse. rewrite Hst. cbn [status_eqb negb].
  cbv zeta. cbn [bufTx set_frameType].
  rewrite store3_header by (apply (bufTx_size s C)).
  pose proof (bufTx_size s C) as Hsz.
  rewrite load_ok
    by (cbn [bufTx set_rx_handler set_lenRx set_lenTx set_bufTx]; rewrite length_app;
        unfold header_frame; simpl; lia).
  cbn [bind]. rewrite drain_empty.
  assert (Hu : uint8 (4 + numData) = 4 + numData) by (apply uint8_byte; unfold is_byte; lia).
  rewrite Hu.
  reflexivity.
Qed.

Lemma request_rejected_send id numData data s b :
  consistent s -> state s <> LIN_STATE_IDLE ->
  sendMasterRequest id numData data s b =
  Ok (Some LIN_ERROR_STATE, reverted LIN_ERROR_STATE s, b).
Proof.
  intros C Hst. unfold sendMasterRequest.
  destruct (status_eqb (state s) LIN_STATE_IDLE) eqn:E.
  - destruct (state s); try discriminate. contradiction.
  - cbn [negb]. rewrite revert_ok by (apply consistent_lenRx; exact C). reflexivity.
Qed.

Lemma request_rejected_receive id numData h s b :
  consistent s -> state s <> LIN_STATE_IDLE ->
  receiveSlaveResponse id numData h s b =
  Ok (Some LIN_ERROR_STATE, reverted LIN_ERROR_STATE s, b).
Proof.
  intros C Hst. unfold receiveSlaveResponse.
  destruct (status_eqb (state s) LIN_STATE_IDLE) eqn:E.
  - destruct (state s); try discriminate. contradiction.
  - cbn [negb]. rewrite revert_ok by (apply consistent_lenRx; exact C). reflexivity.
Qed.

Lemma master_request_started_consistent id numData data s :
  consistent s -> 0 <= numData <= 8 -> numData <= Z.of_nat (length data) ->
  consistent (master_request_started id numData data s).
Proof.
  intros C Hn Hd. destruct C as [H1 H2 H3 H4 H5 HD H6 H7].
  constructor; try assumption.
  - change (length (request_frame (version s) id numData data
                      ++ skipn (Z.to_nat (numData + 4)) (bufTx s)) = 12%nat).
    rewrite length_app, length_skipn. unfold request_frame. cbn [length].
    rewrite length_app, length_firstn. cbn [length]. lia.
  - cbn. lia.
  - cbn. lia.
  - intros _. cbn. lia.
  - intros _ H. discriminate.
Qed.

Lemma slave_response_started_consistent id numData h s :
  consistent s -> 0 <= numData <= 8 -> callable h numData s ->
  consistent (slave_response_started id numData h s).
Proof.
  intros C Hn Hc. destruct C as [H1 H2 H3 H4 H5 HD H6 H7].
  constructor; try assumption.
  - change (length (header_frame id ++ skipn 3 (bufTx s)) = 12%nat).
    rewrite length_app, length_skipn. cbn [length header_frame]. lia.
  - cbn. lia.
  - change (0 <= 4 + numData <= 12). lia.
  - intros _. change (3 <= 3 <= 4 + numData /\ 4 <= 4 + numData). lia.
  - intros _ _. cbn [rx_handler slave_response_started set_state set_rx_handler lenRx set_lenRx].
    replace (4 + numData - 4) with numData by lia.
    destruct h; exact Hc.
Qed.

(** ** Transactions *)

Lemma is_flag_byte f : is_flag f -> is_byte f /\ f <> 0.
Proof.
  intros [-> | [-> | [-> | ->]]]; unfold is_byte; cbv; repeat split; discriminate.
Qed.

Lemma send_verdict_flag s b1 f : Spec.send_verdict s b1 = Some f -> is_flag f.
Proof.
  unfold Spec.send_verdict, is_flag.
  destruct (negb (status_eqb (state s) LIN_STATE_BREAK)).
  - intros H. injection H as <-. tauto.
  - destruct (rx_fifo b1) as [|c q].
    + intros H. injection H as <-. tauto.
    + destruct (uint8 c =? 0); [discriminate|]. intros H. injection H as <-. tauto.
Qed.

Lemma receive_verdict_flag s b1 f : Spec.receive_verdict s b1 = Some f -> is_flag f.
Proof.
  unfold Spec.receive_verdict, is_flag.
  destruct (negb (status_eqb (state s) LIN_STATE_FRAME)).
  - intros H. injection H as <-. tauto.
  - destruct (negb (Serial.available b1 =? lenRx s - 1)).
    + intros H. injection H as <-. tauto.
    + cbv zeta. destruct (frameType s).
      * destruct (Mem.bytes_eqb _ _); [discriminate|]. intros H. injection H as <-. tauto.
      * destruct (negb (Mem.bytes_eqb _ _)).
        -- intros H. injection H as <-. tauto.
        -- destruct (_ =? _); [discriminate|]. intros H. injection H as <-. tauto.
Qed.

Lemma verdict_none_state_send s b1 :
  Spec.send_verdict s b1 = None -> state s = LIN_STATE_BREAK.
Proof.
  unfold Spec.send_verdict. destruct (state s); cbn; try discriminate. reflexivity.
Qed.

Lemma verdict_none_state_receive s b1 :
  Spec.receive_verdict s b1 = None ->
  state s = LIN_STATE_FRAME /\ Serial.available b1 = lenRx s - 1.
Proof.
  unfold Spec.receive_verdict. destruct (state s); cbn [status_eqb negb]; try discriminate.
  destruct (Serial.available b1 =? lenRx s - 1) eqn:E; cbn [negb]; [|discriminate].
  intros _. apply Z.eqb_eq in E. split; [reflexivity | exact E].
Qed.

Lemma handlerSend_summary (s : LIN_Master) (b : Board) (n : Z) :
  consistent s -> liveb n (line b) = true -> 500 <= n ->
  exists s' b',
    handlerSend s b = Ok (s', b') /\
    consistent s' /\ same_frame s s' /\ dataPtr s' = dataPtr s /\
    liveb (n - 500) (line b') = true /\ decoded b' = decoded b /\
    ((state s = LIN_STATE_BREAK /\ state s' = LIN_STATE_FRAME /\ error s' = error s /\
      tasks b' = tasks b ++
                 (if background s then [(wrapperReceive, 0, durationFrame s)] else []))
     \/ (exists f, is_flag f /\ failed f s s' /\ tasks b' = tasks b)).
Proof.
  intros C Hl Hn.
  destruct (handlerSend_spec s b n C Hl Hn)
    as (b1 & s' & b' & _ & Hr & C' & Hf & Hd & Hl' & Hdec & Hv).
  exists s', b'. repeat (split; [assumption|]).
  destruct (Spec.send_verdict s b1) as [f|] eqn:E.
  - right. exists f. split; [eapply send_verdict_flag; exact E | exact Hv].
  - left. split; [eapply verdict_none_state_send; exact E|]. tauto.
Qed.

Lemma received_payload_length s b1 :
  4 <= lenRx s -> Serial.available b1 = lenRx s - 1 ->
  Z.of_nat (length (Spec.received_payload s b1)) = lenRx s - 4.
Proof.
  intros H4 Hav. unfold Spec.received_payload, Serial.available in *.
  rewrite length_firstn, length_skipn, (received_frame_length s b1 Hav). lia.
Qed.

Lemma handlerReceive_summary (s : LIN_Master) (b : Board) (n : Z) :
  consistent s -> liveb n (line b) = true -> 500 <= n ->
  exists s' b',
    handlerReceive s b = Ok (s', b') /\
    consistent s' /\ same_frame s s' /\
    liveb (n - 500) (line b') = true /\ tasks b' = tasks b /\
    state s' = LIN_STATE_IDLE /\
    ((state s = LIN_STATE_FRAME /\ error s' = error s /\
      exists payload,
        Z.of_nat (length payload) = lenRx s - 4 /\
        decoded b' =
        decoded b ++
        match frameType s with
        | LIN_MASTER_REQUEST => []
        | LIN_SLAVE_RESPONSE => [(rx_handler s, lenRx s - 4, payload)]
        end)
     \/ (exists f, is_flag f /\ failed f s s' /\ decoded b' = decoded b)).
Proof.
  intros C Hl Hn.
  destruct (handlerReceive_spec s b n C Hl Hn)
    as (b1 & s' & b' & _ & Hr & C' & Hf & Hl' & Ht & Hv).
  exists s', b'. repeat (split; [assumption|]).
  destruct (Spec.receive_verdict s b1) as [f|] eqn:E.
  - split; [apply Hv|]. right. exists f.
    split; [eapply receive_verdict_flag; exact E | tauto].
  - destruct (verdict_none_state_receive s b1 E) as [Hst Hav].
    split; [apply Hv|]. left. split; [exact Hst|]. split; [apply Hv|].
    exists (Spec.received_payload s b1). split; [|apply Hv].
    apply received_payload_length; [|exact Hav].
    apply (frame_lengths s C). right. exact Hst.
Qed.

(** Whole transactions *)

Lemma same_frame_trans s1 s2 s3 : same_frame s1 s2 -> same_frame s2 s3 -> same_frame s1 s3.
Proof. unfold same_frame. intuition congruence. Qed.

Lemma lor_flags_nonzero f g : f <> 0 -> Z.lor f g <> 0.
Proof. intros Hf H. apply Z.lor_eq_0_iff in H. tauto. Qed.

Lemma finish_transaction (s1 s2 : LIN_Master) (b0 b4 : Board) (n : Z) :
  consistent s2 -> same_frame s1 s2 ->
  ((state s2 = LIN_STATE_FRAME /\ error s2 = error s1)
   \/ (exists f, is_flag f /\ failed f s1 s2)) ->
  decoded b4 = decoded b0 ->
  liveb n (line b4) = true -> 500 <= n ->
  exists s' b',
    handlerReceive s2 b4 = Ok (s', b') /\ transaction_outcome s1 b0 s' b' /\
    tasks b' = tasks b4.
Proof.
  intros C2 Hf Hsend Hdec Hl Hn.
  destruct (handlerReceive_summary s2 b4 n C2 Hl Hn)
    as (s' & b' & Hr & C' & Hf' & Hl' & Ht' & Hidle & Hcases).
  exists s', b'. split; [exact Hr|]. split; [|exact Ht'].
  unfold transaction_outcome.
  split; [exact C'|]. split; [eapply same_frame_trans; eassumption|].
  split; [exact Hidle|].
  destruct Hf as (_ & _ & _ & _ & _ & Eft & _ & _ & ElenRx & Eh).
  destruct Hcases as [(Hst & He & payload & Hpl & Hd) | (f2 & Hf2 & Hfail & Hd)].
  - destruct Hsend as [[_ He1] | (f & _ & _ & Hidle2 & _)]; [|congruence].
    left. split; [congruence|]. exists payload.
    rewrite <- ElenRx, <- Eft, <- Eh, <- Hdec. split; assumption.
  - right. destruct Hfail as (He & _).
    destruct (is_flag_byte f2 Hf2) as [Hb2 Hn2].
    destruct Hsend as [[_ He1] | (f & Hflag & He1 & _)].
    + exists f2. split; [exact Hn2|]. split; [exact Hb2|]. split; congruence.
    + destruct (is_flag_byte f Hflag) as [Hb1 Hn1].
      exists (Z.lor f f2). split; [apply lor_flags_nonzero; exact Hn1|].
      split; [apply lor_byte; assumption|].
      split; [rewrite He, He1, Z.lor_assoc; reflexivity | congruence].
Qed.

Lemma wait_delay_ok (d : Z) (b : Board) (n : Z) :
  is_byte d -> liveb n (line b) = true -> 1000 * d <= n ->
  exists b', busy_wait (Scheduler.delay_pending d (millis b)) (line b) b = Ok b' /\
             liveb (n - 1000 * d) (line b') = true /\ same_port b b'.
Proof.
  intros Hd Hl Hn. unfold is_byte in Hd.
  destruct (busy_wait_terminates (Scheduler.delay_pending d (millis b)) (clock b) (1000 * d)) with
    (sched := line b) (b := b) (n := n) as (b' & Hb' & Hl'); try assumption; try reflexivity; try lia.
  - intros x Hx E. unfold Scheduler.delay_pending in E.
    apply (millis_elapsed_bound b x d); [lia | exact Hx | exact E].
  - exists b'. split; [exact Hb'|]. split.
    + eapply liveb_weaken; [|exact Hl']. lia.
    + apply busy_wait_same_port in Hb'. apply Hb'.
Qed.

Lemma dispatch_idle s b : tasks b = [] -> Scheduler.dispatch s b = Ok (s, b).
Proof. intros H. unfold Scheduler.dispatch. rewrite H. reflexivity. Qed.

(** The two deferred calls of a transaction in background operation. *)
Lemma background_tail (s1 : LIN_Master) (b0 b1 : Board) (n : Z) :
  consistent s1 -> state s1 = LIN_STATE_BREAK -> background s1 = true ->
  tasks b1 = [(wrapperSend, 0, durationBreak s1)] -> decoded b1 = decoded b0 ->
  liveb n (line b1) = true ->
  1000 + 1000 * (durationBreak s1 + durationFrame s1) <= n ->
  exists s' b',
    (' (s, b) <- Scheduler.dispatch s1 b1 ;; Scheduler.dispatch s b) = Ok (s', b') /\
    transaction_outcome s1 b0 s' b' /\ tasks b' = [].
Proof.
  intros C1 Hst Hbg Ht Hdec Hl Hn.
  destruct (duration_range s1 C1) as [HdB HdF].
  pose proof HdB as HdB'. pose proof HdF as HdF'. unfold is_byte in HdB', HdF'.
  unfold Scheduler.dispatch at 1. rewrite Ht.
  destruct (wait_delay_ok (durationBreak s1) (set_tasks b1 []) n HdB Hl ltac:(lia))
    as (b2 & Hw & Hl2 & Hp2).
  cbv zeta. rewrite Hw. cbn [bind].
  destruct Hp2 as (_ & _ & _ & _ & Ht2 & Hd2). cbn in Ht2, Hd2.
  destruct (handlerSend_summary s1 b2 _ C1 Hl2 ltac:(lia))
    as (s2 & b3 & Hr & C2 & Hf & Hdp & Hl3 & Hd3 & Hcases).
  rewrite Hr. cbn [bind].
  destruct Hcases as [(_ & Hst2 & He2 & Ht3) | (f & Hflag & Hfail & Ht3)].
  - (* the frame is on its way: the receive handler has been registered *)
    rewrite Hbg, Ht2 in Ht3. cbn [app] in Ht3.
    unfold Scheduler.dispatch. rewrite Ht3.
    destruct (wait_delay_ok (durationFrame s1) (set_tasks b3 []) _ HdF Hl3 ltac:(lia))
      as (b4 & Hw4 & Hl4 & Hp4).
    cbv zeta. rewrite Hw4. cbn [bind].
    destruct Hp4 as (_ & _ & _ & _ & Ht4 & Hd4). cbn in Ht4, Hd4.
    destruct (finish_transaction s1 s2 b0 b4 _ C2 Hf (or_introl (conj Hst2 He2))
                ltac:(congruence) Hl4 ltac:(lia))
      as (s' & b' & Hr' & Hout & Ht').
    exists s', b'. split; [exact Hr'|]. split; [exact Hout | congruence].
  - (* the send phase failed: nothing else is registered *)
    rewrite Ht2 in Ht3. rewrite dispatch_idle by exact Ht3.
    exists s2, b3. split; [reflexivity|]. split; [|exact Ht3].
    unfold transaction_outcome.
    split; [exact C2|]. split; [exact Hf|]. split; [apply Hfail|].
    right. exists f. destruct (is_flag_byte f Hflag) as [Hb Hnz].
    split; [exact Hnz|]. split; [exact Hb|]. split; [apply Hfail | congruence].
Qed.

(** The rest of a master request in blocking operation. *)
Lemma blocking_tail_send (s1 : LIN_Master) (b0 b1 : Board) (n : Z) :
  consistent s1 -> state s1 = LIN_STATE_BREAK -> background s1 = false ->
  decoded b1 = decoded b0 ->
  liveb n (line b1) = true -> 1002 <= n ->
  exists s' b',
    (b <- flush b1 ;;
     ' (s, b) <- handlerSend s1 b ;;
     b <- flush b ;;
     ' (s, b) <- handlerReceive s b ;;
     Ok (@None Z, s, b)) = Ok (None, s', b') /\
    transaction_outcome s1 b0 s' b' /\ tasks b' = tasks b1.
Proof.
  intros C1 Hst Hbg Hdec Hl Hn.
  destruct (flush_ok b1 n Hl ltac:(lia)) as (b2 & Hfl & Hl2 & Hp2).
  rewrite Hfl. cbn [bind].
  destruct Hp2 as (_ & _ & _ & _ & Ht2 & Hd2).
  destruct (handlerSend_summary s1 b2 _ C1 Hl2 ltac:(lia))
    as (s2 & b3 & Hr & C2 & Hf & Hdp & Hl3 & Hd3 & Hcases).
  rewrite Hr. cbn [bind].
  destruct (flush_ok b3 _ Hl3 ltac:(lia)) as (b4 & Hfl4 & Hl4 & Hp4).
  rewrite Hfl4. cbn [bind].
  destruct Hp4 as (_ & _ & _ & _ & Ht4 & Hd4).
  assert (Ht3 : tasks b3 = tasks b1).
  { destruct Hcases as [(_ & _ & _ & Ht3) | (f & _ & _ & Ht3)].
    - rewrite Hbg, app_nil_r in Ht3. congruence.
    - congruence. }
  assert (Hsend : (state s2 = LIN_STATE_FRAME /\ error s2 = error s1)
                  \/ (exists f, is_flag f /\ failed f s1 s2)).
  { destruct Hcases as [(_ & H1 & H2 & _) | (f & H1 & H2 & _)].
    - left. tauto.
    - right. exists f. tauto. }
  destruct (finish_transaction s1 s2 b0 b4 _ C2 Hf Hsend
              ltac:(congruence) Hl4 ltac:(lia))
    as (s' & b' & Hr' & Hout & Ht').
  rewrite Hr'. cbn [bind]. exists s', b'.
  split; [reflexivity|]. split; [exact Hout | congruence].
Qed.

(** The rest of a slave response in blocking operation. *)
Lemma blocking_tail_receive (s1 : LIN_Master) (b0 b1 : Board) (n : Z) :
  consistent s1 -> state s1 = LIN_STATE_BREAK -> background s1 = false ->
  decoded b1 = decoded b0 ->
  liveb n (line b1) = true -> 1001 + 1000 * durationFrame s1 <= n ->
  exists s' b',
    (b <- flush b1 ;;
     ' (s, b) <- handlerSend s1 b ;;
     b <- response_wait (lenRx s) (durationFrame s) b ;;
     ' (s, b) <- handlerReceive s b ;;
     Ok (@None Z, s, b)) = Ok (None, s', b') /\
    transaction_outcome s1 b0 s' b' /\ tasks b' = tasks b1.
Proof.
  intros C1 Hst Hbg Hdec Hl Hn.
  destruct (duration_range s1 C1) as [HdB HdF].
  pose proof HdF as HdF'. unfold is_byte in HdF'.
  destruct (flush_ok b1 n Hl ltac:(lia)) as (b2 & Hfl & Hl2 & Hp2).
  rewrite Hfl. cbn [bind].
  destruct Hp2 as (_ & _ & _ & _ & Ht2 & Hd2).
  destruct (handlerSend_summary s1 b2 _ C1 Hl2 ltac:(lia))
    as (s2 & b3 & Hr & C2 & Hf & Hdp & Hl3 & Hd3 & Hcases).
  rewrite Hr. cbn [bind].
  assert (EdF : durationFrame s2 = durationFrame s1) by apply Hf.
  rewrite EdF.
  destruct (wait_response_ok (lenRx s2) (durationFrame s1) b3 _ ltac:(lia) Hl3 ltac:(lia))
    as (b4 & Hw4 & Hl4 & Hp4 & _).
  rewrite Hw4. cbn [bind].
  destruct Hp4 as (_ & _ & _ & _ & Ht4 & Hd4).
  assert (Ht3 : tasks b3 = tasks b1).
  { destruct Hcases as [(_ & _ & _ & Ht3) | (f & _ & _ & Ht3)].
    - rewrite Hbg, app_nil_r in Ht3. congruence.
    - congruence. }
  assert (Hsend : (state s2 = LIN_STATE_FRAME /\ error s2 = error s1)
                  \/ (exists f, is_flag f /\ failed f s1 s2)).
  { destruct Hcases as [(_ & H1 & H2 & _) | (f & H1 & H2 & _)].
    - left. tauto.
    - right. exists f. tauto. }
  destruct (finish_transaction s1 s2 b0 b4 _ C2 Hf Hsend
              ltac:(congruence) Hl4 ltac:(lia))
    as (s' & b' & Hr' & Hout & Ht').
  rewrite Hr'. cbn [bind]. exists s', b'.
  split; [reflexivity|]. split; [exact Hout | congruence].
Qed.

Lemma polls_needed_bounds s :
  consistent s ->
  1002 <= polls_needed s /\ 1001 + 1000 * durationFrame s <= polls_needed s /\
  1000 + 1000 * (durationBreak s + durationFrame s) <= polls_needed s.
Proof.
  intros C. destruct (duration_range s C) as [H1 H2]. unfold is_byte in *.
  unfold polls_needed. lia.
Qed.

(** A request in all its cases. *)
Lemma sendMasterRequest_outcome id numData data s b :
  consistent s -> liveb (polls_needed s) (line b) = true ->
  0 <= numData <= 8 -> numData <= Z.of_nat (length data) ->
  exists r s' b',
    sendMasterRequest id numData data s b = Ok (r, s', b') /\
    ((state s <> LIN_STATE_IDLE /\ r = Some LIN_ERROR_STATE /\
      s' = reverted LIN_ERROR_STATE s /\ b' = b)
     \/ (state s = LIN_STATE_IDLE /\ r = None /\ background s = true /\
         s' = master_request_started id numData data s /\
         b' = Tasks_Add wrapperSend 0 (durationBreak s) (break_written s b))
     \/ (state s = LIN_STATE_IDLE /\ r = None /\ background s = false /\
         transaction_outcome (master_request_started id numData data s) b s' b' /\
         tasks b' = tasks b)).
Proof.
  intros C Hl Hn Hd.
  destruct (status_eqb (state s) LIN_STATE_IDLE) eqn:E.
  - assert (Hst : state s = LIN_STATE_IDLE) by (destruct (state s); try discriminate; reflexivity).
    rewrite sendMasterRequest_accepted by assumption. cbv zeta.
    destruct (background s) eqn:Ebg.
    + eexists. eexists. eexists. split; [reflexivity|]. right. left. tauto.
    + destruct (polls_needed_bounds s C) as (Hp & _).
      destruct (blocking_tail_send (master_request_started id numData data s) b
                  (break_written s b) (polls_needed s))
        as (s' & b' & Hr & Hout & Ht); try assumption; try reflexivity.
      * apply master_request_started_consistent; assumption.
      * rewrite Hr. exists None, s', b'. split; [reflexivity|]. right. right. tauto.
  - assert (Hst : state s <> LIN_STATE_IDLE) by (intros H; rewrite H in E; discriminate).
    rewrite request_rejected_send by assumption.
    eexists. eexists. eexists. split; [reflexivity|]. left. tauto.
Qed.

Lemma receiveSlaveResponse_outcome id numData h s b :
  consistent s -> liveb (polls_needed s) (line b) = true ->
  0 <= numData <= 8 -> callable h numData s ->
  exists r s' b',
    receiveSlaveResponse id numData h s b = Ok (r, s', b') /\
    ((state s <> LIN_STATE_IDLE /\ r = Some LIN_ERROR_STATE /\
      s' = reverted LIN_ERROR_STATE s /\ b' = b)
     \/ (state s = LIN_STATE_IDLE /\ r = None /\ background s = true /\
         s' = slave_response_started id numData h s /\
         b' = Tasks_Add wrapperSend 0 (durationBreak s) (break_written s b))
     \/ (state s = LIN_STATE_IDLE /\ r = None /\ background s = false /\
         transaction_outcome (slave_response_started id numData h s) b s' b' /\
         tasks b' = tasks b)).
Proof.
  intros C Hl Hn Hc.
  destruct (status_eqb (state s) LIN_STATE_IDLE) eqn:E.
  - assert (Hst : state s = LIN_STATE_IDLE) by (destruct (state s); try discriminate; reflexivity).
    rewrite receiveSlaveResponse_accepted by assumption. cbv zeta.
    destruct (background s) eqn:Ebg.
    + eexists. eexists. eexists. split; [reflexivity|]. right. left. tauto.
    + destruct (polls_needed_bounds s C) as (_ & Hp & _).
      destruct (blocking_tail_receive (slave_response_started id numData h s) b
                  (break_written s b) (polls_needed s))
        as (s' & b' & Hr & Hout & Ht); try assumption; try reflexivity.
      * apply slave_response_started_consistent; assumption.
      * rewrite Hr. exists None, s', b'. split; [reflexivity|]. right. right. tauto.
  - assert (Hst : state s <> LIN_STATE_IDLE) by (intros H; rewrite H in E; discriminate).
    rewrite request_rejected_receive by assumption.
    eexists. eexists. eexists. split; [reflexivity|]. left. tauto.
Qed.

Lemma rejected_result frame h numData s b :
  consistent s -> tasks b = [] ->
  transaction_result frame h numData s b (reverted LIN_ERROR_STATE s) b.
Proof.
  intros C Ht. destruct flag_bytes as (FS & _).
  unfold transaction_result.
  split; [apply reverted_consistent; assumption|].
  split; [reflexivity|]. split; [exact Ht|].
  right. exists LIN_ERROR_STATE. split; [discriminate|]. split; [exact FS|].
  split; [|reflexivity].
  apply (reverted_failed LIN_ERROR_STATE s FS (error_range s C)).
Qed.

Lemma master_request_transaction id numData data s b :
  consistent s -> tasks b = [] -> liveb (polls_needed s) (line b) = true ->
  0 <= numData <= 8 -> numData <= Z.of_nat (length data) ->
  exists s' b',
    Scheduler.master_request id numData data s b = Ok (s', b') /\
    transaction_result LIN_MASTER_REQUEST null_decoder numData s b s' b'.
Proof.
  intros C Ht Hl Hn Hd. unfold Scheduler.master_request.
  destruct (sendMasterRequest_outcome id numData data s b C Hl Hn Hd)
    as (r & s1 & b1 & Hr & Hcases).
  rewrite Hr. cbn [bind].
  destruct Hcases as [(Hst & _ & -> & ->) | [(Hst & _ & Hbg & -> & ->) | (Hst & _ & Hbg & Hout & Ht')]].
  - rewrite dispatch_idle by exact Ht. cbn [bind]. rewrite dispatch_idle by exact Ht.
    eexists. eexists. split; [reflexivity|]. apply rejected_result; assumption.
  - destruct (polls_needed_bounds s C) as (_ & _ & Hp).
    destruct (background_tail (master_request_started id numData data s) b
                (Tasks_Add wrapperSend 0 (durationBreak s) (break_written s b))
                (polls_needed s))
      as (s' & b' & Hr' & Hout & Ht'); try assumption; try reflexivity.
    + apply master_request_started_consistent; assumption.
    + unfold Tasks_Add. cbn. rewrite Ht. reflexivity.
    + exists s', b'. split; [exact Hr'|].
      destruct Hout as (C' & _ & Hidle & Hres).
      unfold transaction_result. split; [exact C'|]. split; [exact Hidle|]. split; [exact Ht'|].
      cbn in Hres. replace (numData + 4 - 4) with numData in Hres by lia. exact Hres.
  - rewrite dispatch_idle by congruence. cbn [bind]. rewrite dispatch_idle by congruence.
    eexists. eexists. split; [reflexivity|].
    destruct Hout as (C' & _ & Hidle & Hres).
    unfold transaction_result. split; [exact C'|]. split; [exact Hidle|]. split; [congruence|].
    cbn in Hres. replace (numData + 4 - 4) with numData in Hres by lia. exact Hres.
Qed.

Lemma slave_response_transaction id numData h s b :
  consistent s -> tasks b = [] -> liveb (polls_needed s) (line b) = true ->
  0 <= numData <= 8 -> callable h numData s ->
  exists s' b',
    Scheduler.slave_response id numData h s b = Ok (s', b') /\
    transaction_result LIN_SLAVE_RESPONSE h numData s b s' b'.
Proof.
  intros C Ht Hl Hn Hc. unfold Scheduler.slave_response.
  destruct (receiveSlaveResponse_outcome id numData h s b C Hl Hn Hc)
    as (r & s1 & b1 & Hr & Hcases).
  rewrite Hr. cbn [bind].
  destruct Hcases as [(Hst & _ & -> & ->) | [(Hst & _ & Hbg & -> & ->) | (Hst & _ & Hbg & Hout & Ht')]].
  - rewrite dispatch_idle by exact Ht. cbn [bind]. rewrite dispatch_idle by exact Ht.
    eexists. eexists. split; [reflexivity|]. apply rejected_result; assumption.
  - destruct (polls_needed_bounds s C) as (_ & _ & Hp).
    destruct (background_tail (slave_response_started id numData h s) b
                (Tasks_Add wrapperSend 0 (durationBreak s) (break_written s b))
                (polls_needed s))
      as (s' & b' & Hr' & Hout & Ht'); try assumption; try reflexivity.
    + apply slave_response_started_consistent; assumption.
    + unfold Tasks_Add. cbn. rewrite Ht. reflexivity.
    + exists s', b'. split; [exact Hr'|].
      destruct Hout as (C' & _ & Hidle & Hres).
      unfold transaction_result. split; [exact C'|]. split; [exact Hidle|]. split; [exact Ht'|].
      cbn [error lenRx frameType rx_handler slave_response_started set_state set_rx_handler
           set_lenRx set_lenTx set_bufTx set_frameType] in Hres.
      replace (4 + numData - 4) with numData in Hres by lia. exact Hres.
  - rewrite dispatch_idle by congruence. cbn [bind]. rewrite dispatch_idle by congruence.
    eexists. eexists. split; [reflexivity|].
    destruct Hout as (C' & _ & Hidle & Hres).
    unfold transaction_result. split; [exact C'|]. split; [exact Hidle|]. split; [congruence|].
    cbn [error lenRx frameType rx_handler slave_response_started set_state set_rx_handler
         set_lenRx set_lenTx set_bufTx set_frameType] in Hres.
    replace (4 + numData - 4) with numData in Hres by lia. exact Hres.
Qed.

(** ** The claims about the engine *)

(** The four end-to-end scenarios of the specification, in blocking
    operation at 19200 baud under version 2. *)

Example scenario_1_request_echoed :
  (let '(s, b) := begin 19200 LIN_V2 false LIN_Master_N
                    (Sample.board [mkPoll 1000 [0x00];
                                   mkPoll 5000 [0x55; 0x50; 0x01; 0x02; 0xAC]]) in
   ' (_, s, b) <- sendMasterRequest 0x10 2 [0x01; 0x02] s b ;;
   Ok (error s, state s, tx_log b))
  = Ok (LIN_SUCCESS, LIN_STATE_IDLE, [0x00; 0x55; 0x50; 0x01; 0x02; 0xAC]).
Proof. vm_compute. reflexivity. Qed.

Example scenario_2_echo_corrupted :
  (let '(s, b) := begin 19200 LIN_V2 false LIN_Master_N
                    (Sample.board [mkPoll 1000 [0x00];
                                   mkPoll 5000 [0x55; 0x50; 0x01; 0x03; 0xAC]]) in
   ' (_, s, b) <- sendMasterRequest 0x10 2 [0x01; 0x02] s b ;;
   Ok (error s, state s))
  = Ok (LIN_ERROR_ECHO, LIN_STATE_IDLE).
Proof. vm_compute. reflexivity. Qed.

Example scenario_3_response_received :
  (let '(s, b) := begin 19200 LIN_V2 false LIN_Master_N
                    (Sample.board [mkPoll 1000 [0x00];
                                   mkPoll 5000 [0x55; 0x20; 0x01; 0x02; 0x03; 0x04; 0xD5]]) in
   ' (_, s, b) <- receiveSlaveResponse 0x20 4 (user_decoder 0) s b ;;
   Ok (error s, state s, decoded b))
  = Ok (LIN_SUCCESS, LIN_STATE_IDLE, [(user_decoder 0, 4, [0x01; 0x02; 0x03; 0x04])]).
Proof. vm_compute. reflexivity. Qed.

Example scenario_4_checksum_wrong :
  (let '(s, b) := begin 19200 LIN_V2 false LIN_Master_N
                    (Sample.board [mkPoll 1000 [0x00];
                                   mkPoll 5000 [0x55; 0x20; 0x01; 0x02; 0x03; 0x04; 0xD4]]) in
   ' (_, s, b) <- receiveSlaveResponse 0x20 4 (user_decoder 0) s b ;;
   Ok (error s, state s, decoded b))
  = Ok (LIN_ERROR_CHK, LIN_STATE_IDLE, []).
Proof. vm_compute. reflexivity. Qed.

Example in_flight_reachable :
  (let '(s, b) := begin 19200 LIN_V2 true LIN_Master_N
                    (Sample.board [mkPoll 1000 [0x00];
                                   mkPoll 7000 [0x55; 0x50; 0x01; 0x02; 0xAC]]) in
   ' (s, b) <- Scheduler.master_request 0x10 2 [0x01; 0x02] s b ;;
   ' (_, s, _) <- sendMasterRequest 0x10 2 [0x01; 0x02] s b ;;
   Ok s) = Ok Sample.in_flight.
Proof. vm_compute. reflexivity. Qed.

Lemma fresh_consistent : consistent Sample.fresh.
Proof. sample_consistent. Qed.

Lemma in_flight_consistent : consistent Sample.in_flight.
Proof. sample_consistent. Qed.

Lemma awaiting_consistent : consistent Sample.awaiting.
Proof. sample_consistent. Qed.

Example expecting_reachable :
  (let '(s, b) := begin 19200 LIN_V2 true LIN_Master_N
                    (Sample.board [mkPoll 1000 [0x00];
                                   mkPoll 7000 [0x55; 0x50; 0x01; 0x02; 0xAC];
                                   mkPoll 1000 [0x00]]) in
   ' (s, b) <- Scheduler.master_request 0x10 2 [0x01; 0x02] s b ;;
   ' (_, s, b) <- receiveSlaveResponse 0x20 0 (user_decoder 0) s b ;;
   ' (s, _) <- Scheduler.dispatch s b ;;
   Ok s) = Ok Fixture.expecting.
Proof. vm_compute. reflexivity. Qed.

Example latched_reachable :
  (' (_, s, _) <- receiveSlaveResponse 0x20 4 (user_decoder 0) Fixture.blocking
                    (Sample.board Fixture.misanswered) ;;
   Ok s) = Ok Fixture.latched.
Proof. vm_compute. reflexivity. Qed.

Lemma expecting_consistent : consistent Fixture.expecting.
Proof. sample_consistent. Qed.

Lemma latched_consistent : consistent Fixture.latched.
Proof. sample_consistent. Qed.

(** C4, counterexample: a request made while another one is in flight
    returns [LIN_ERROR_STATE] but overwrites [bufRx] with zeros. *)
Lemma rejected_request_clears_bufRx :
  state Sample.in_flight = LIN_STATE_BREAK /\
  (exists s',
      sendMasterRequest 0x11 1 [0x09] Sample.in_flight (Sample.board [])
      = Ok (Some LIN_ERROR_STATE, s', Sample.board []) /\
      bufRx Sample.in_flight = [0x00; 0x55; 0x50; 0x01; 0x02; 0xAC; 0; 0; 0; 0; 0; 0] /\
      bufRx s' = [0; 0; 0; 0; 0; 0; 0; 0; 0; 0; 0; 0]) /\
  ~ Claims.rejected_request_keeps_buffers.
Proof.
  split; [reflexivity|]. split.
  - eexists. split; [vm_compute; reflexivity|]. split; reflexivity.
  - intros H.
    destruct (H Sample.in_flight (Sample.board []) 0x11 1 [0x09] null_decoder
                in_flight_consistent ltac:(discriminate))
      as [(s' & b' & Hr & _ & Hrx & _) _].
    vm_compute in Hr. injection Hr as <- _. vm_compute in Hrx. discriminate.
Qed.

(** C4, amended: in every state other than Idle, [sendMasterRequest] and
    [receiveSlaveResponse] return [LIN_ERROR_STATE] and leave [bufTx],
    [lenTx] and [lenRx] as they are; the first [lenRx] bytes of [bufRx]
    are set to zero, the state becomes Idle, the flag is latched, and
    nothing is done on the board. *)
Theorem rejected_request_effect
  (s : LIN_Master) (b : Board) (id numData : Z) (data : list Z) (h : decoder_t)
  (Hs : consistent s) (Hst : state s <> LIN_STATE_IDLE) :
  exists s',
    sendMasterRequest id numData data s b = Ok (Some LIN_ERROR_STATE, s', b) /\
    receiveSlaveResponse id numData h s b = Ok (Some LIN_ERROR_STATE, s', b) /\
    bufTx s' = bufTx s /\ lenTx s' = lenTx s /\ lenRx s' = lenRx s /\
    bufRx s' = repeat 0 (Z.to_nat (lenRx s)) ++ skipn (Z.to_nat (lenRx s)) (bufRx s) /\
    state s' = LIN_STATE_IDLE /\
    error s' = Z.lor (error s) LIN_ERROR_STATE.
Proof.
  exists (reverted LIN_ERROR_STATE s).
  split; [apply request_rejected_send; assumption|].
  split; [apply request_rejected_receive; assumption|].
  repeat (split; [reflexivity|]).
  cbn. rewrite uint8_byte by (apply (error_range s Hs)). reflexivity.
Qed.

Lemma rejected_request_effect_witness :
  consistent Sample.in_flight /\ state Sample.in_flight <> LIN_STATE_IDLE /\
  exists s',
    sendMasterRequest 0x11 1 [0x09] Sample.in_flight (Sample.board [])
    = Ok (Some LIN_ERROR_STATE, s', Sample.board []) /\
    bufTx s' = bufTx Sample.in_flight /\ state s' = LIN_STATE_IDLE.
Proof.
  split; [exact in_flight_consistent|].
  split; [discriminate|].
  destruct (rejected_request_effect Sample.in_flight (Sample.board []) 0x11 1 [0x09]
              null_decoder in_flight_consistent ltac:(discriminate))
    as (s' & H1 & _ & H2 & _ & _ & _ & H3 & _).
  exists s'. split; [exact H1|]. split; assumption.
Defined.

(** C5, counterexample: [handlerReceive] times out on an engine that
    waits for a frame of four bytes while the echo of an earlier, longer
    frame is in [bufRx]: the flag is set and the state is Idle, but bytes
    4 and 5 of the receive buffer keep their values. *)
Lemma failure_leaves_stale_bytes :
  (exists s' b',
      handlerReceive Fixture.expecting (Sample.board Sample.silence) = Ok (s', b') /\
      error s' = LIN_ERROR_TIMEOUT /\ state s' = LIN_STATE_IDLE /\
      bufRx Fixture.expecting = [0x00; 0x55; 0x50; 0x01; 0x02; 0xAC; 0; 0; 0; 0; 0; 0] /\
      bufRx s' = [0; 0; 0; 0; 0x02; 0xAC; 0; 0; 0; 0; 0; 0]) /\
  ~ Claims.failure_zeroes_receive_buffer.
Proof.
  split.
  - eexists. eexists. split; [vm_compute; reflexivity|]. repeat split.
  - intros H.
    destruct (H Fixture.expecting (Sample.board Sample.silence) expecting_consistent
                ltac:(vm_compute; reflexivity))
      as (_ & (b1 & s' & b' & Ho & Hr & _ & Ht) & _).
    vm_compute in Ho. injection Ho as <-.
    destruct (Ht eq_refl ltac:(vm_compute; discriminate)) as (_ & _ & Hz).
    vm_compute in Hr. injection Hr as <- _. vm_compute in Hz. discriminate.
Qed.

(** C5, amended: every failure path of the two handlers and of the two
    requests latches its flag, returns to Idle and sets the first [lenRx]
    bytes of [bufRx] to zero, [lenRx] and the other bytes of [bufRx]
    staying as they were; with fewer bytes than expected when a wait
    ends, the flag is [LIN_ERROR_TIMEOUT], and the handlers return as
    long as the clock moves on. *)
Theorem failure_paths_revert_to_idle
  (s : LIN_Master) (b : Board)
  (Hs : consistent s) (Hlive : liveb 500 (line b) = true) :
  (exists b1 s' b',
      Spec.send_observed s b = Ok b1 /\ handlerSend s b = Ok (s', b') /\
      (forall f, Spec.send_verdict s b1 = Some f -> failed f s s') /\
      (state s = LIN_STATE_BREAK -> Serial.available b1 = 0 ->
       failed LIN_ERROR_TIMEOUT s s')) /\
  (exists b1 s' b',
      Spec.receive_observed s b = Ok b1 /\ handlerReceive s b = Ok (s', b') /\
      (forall f, Spec.receive_verdict s b1 = Some f -> failed f s s') /\
      (state s = LIN_STATE_FRAME -> Serial.available b1 <> lenRx s - 1 ->
       failed LIN_ERROR_TIMEOUT s s')) /\
  (state s <> LIN_STATE_IDLE ->
   forall (id numData : Z) (data : list Z) (h : decoder_t),
   exists s',
     sendMasterRequest id numData data s b = Ok (Some LIN_ERROR_STATE, s', b) /\
     receiveSlaveResponse id numData h s b = Ok (Some LIN_ERROR_STATE, s', b) /\
     failed LIN_ERROR_STATE s s').
Proof.
  split; [|split].
  - destruct (handlerSend_spec s b 500 Hs Hlive ltac:(lia))
      as (b1 & s' & b' & Ho & Hr & _ & _ & _ & _ & _ & Hv).
    exists b1, s', b'. split; [exact Ho|]. split; [exact Hr|]. split.
    + intros f Hf. rewrite Hf in Hv. apply Hv.
    + intros Hst Hav. unfold Spec.send_verdict in Hv. rewrite Hst in Hv.
      cbn [status_eqb negb] in Hv. unfold Serial.available in Hav.
      destruct (rx_fifo b1); [apply Hv | simpl in Hav; lia].
  - destruct (handlerReceive_spec s b 500 Hs Hlive ltac:(lia))
      as (b1 & s' & b' & Ho & Hr & _ & _ & _ & _ & Hv).
    exists b1, s', b'. split; [exact Ho|]. split; [exact Hr|]. split.
    + intros f Hf. rewrite Hf in Hv. apply Hv.
    + intros Hst Hav. unfold Spec.receive_verdict in Hv. rewrite Hst in Hv.
      cbn [status_eqb negb] in Hv.
      apply Z.eqb_neq in Hav. rewrite Hav in Hv. apply Hv.
  - intros Hst id numData data h. exists (reverted LIN_ERROR_STATE s).
    split; [apply request_rejected_send; assumption|].
    split; [apply request_rejected_receive; assumption|].
    apply reverted_failed; [apply flag_bytes | apply (error_range s Hs)].
Qed.

Lemma failure_paths_revert_to_idle_witness :
  consistent Fixture.expecting /\
  liveb 500 (line (Sample.board Sample.silence)) = true /\
  exists s' b',
    handlerReceive Fixture.expecting (Sample.board Sample.silence) = Ok (s', b') /\
    failed LIN_ERROR_TIMEOUT Fixture.expecting s' /\
    bufRx Fixture.expecting = [0x00; 0x55; 0x50; 0x01; 0x02; 0xAC; 0; 0; 0; 0; 0; 0] /\
    bufRx s' = [0; 0; 0; 0; 0x02; 0xAC; 0; 0; 0; 0; 0; 0].
Proof.
  split; [exact expecting_consistent|].
  split; [vm_compute; reflexivity|].
  destruct (failure_paths_revert_to_idle Fixture.expecting (Sample.board Sample.silence)
              expecting_consistent ltac:(vm_compute; reflexivity))
    as (_ & (b1 & s' & b' & Ho & Hr & _ & Ht) & _).
  exists s', b'. split; [exact Hr|].
  assert (Hf : failed LIN_ERROR_TIMEOUT Fixture.expecting s').
  { apply Ht; [reflexivity|].
    vm_compute in Ho. injection Ho as <-. vm_compute. discriminate. }
  split; [exact Hf|]. split; [reflexivity|].
  destruct Hf as (_ & _ & _ & Hb). rewrite Hb. reflexivity.
Defined.

Lemma flags_kept_lor s s' r :
  error s' = Z.lor (error s) r -> Spec.flags_kept s s'.
Proof.
  intros H i Hi. rewrite H, Z.lor_spec, Hi. reflexivity.
Qed.

Lemma flags_kept_same s s' : error s' = error s -> Spec.flags_kept s s'.
Proof. intros H i Hi. rewrite H. exact Hi. Qed.

Lemma flags_kept_outcome s s1 b s' b' :
  error s1 = error s -> transaction_outcome s1 b s' b' -> Spec.flags_kept s s'.
Proof.
  intros He (_ & _ & _ & [(H & _) | (r & _ & _ & H & _)]).
  - apply flags_kept_same. congruence.
  - apply (flags_kept_lor s s' r). congruence.
Qed.

(** C6: each of the four entry points (and the overload of
    [receiveSlaveResponse] that copies to a buffer) returns with an error
    bit-set that contains the one it was called with, whatever that was
    and whether the call succeeds or fails. *)
Theorem error_flags_only_accumulate
  (s : LIN_Master) (b : Board)
  (Hs : consistent s) (Hlive : liveb (polls_needed s) (line b) = true) :
  (exists s' b', handlerSend s b = Ok (s', b') /\ Spec.flags_kept s s') /\
  (exists s' b', handlerReceive s b = Ok (s', b') /\ Spec.flags_kept s s') /\
  (forall (id numData : Z) (data : list Z),
      0 <= numData <= 8 -> numData <= Z.of_nat (length data) ->
      exists r s' b',
        sendMasterRequest id numData data s b = Ok (r, s', b') /\
        Spec.flags_kept s s') /\
  (forall (id numData : Z) (h : decoder_t),
      0 <= numData <= 8 -> callable h numData s ->
      exists r s' b',
        receiveSlaveResponse id numData h s b = Ok (r, s', b') /\
        Spec.flags_kept s s') /\
  (forall (id numData : Z) (data : list Z),
      0 <= numData <= 8 -> numData <= Z.of_nat (length data) ->
      consistent (set_dataPtr s data) ->
      exists r s' b',
        receiveSlaveResponse_copy id numData data s b = Ok (r, s', b') /\
        Spec.flags_kept s s').
Proof.
  destruct (polls_needed_bounds s Hs) as (Hp & _).
  assert (Hl500 : liveb 500 (line b) = true)
    by (eapply liveb_weaken; [|exact Hlive]; lia).
  assert (Hreceive : forall (s0 : LIN_Master) (id numData : Z) (h : decoder_t),
    consistent s0 -> polls_needed s0 = polls_needed s -> error s0 = error s ->
    0 <= numData <= 8 -> callable h numData s0 ->
    exists r s' b',
      receiveSlaveResponse id numData h s0 b = Ok (r, s', b') /\
      Spec.flags_kept s s').
  { intros s0 id numData h C0 Hp0 He0 Hn Hc.
    destruct (receiveSlaveResponse_outcome id numData h s0 b C0
                ltac:(rewrite Hp0; exact Hlive) Hn Hc)
      as (r & s' & b' & Hr & Hcases).
    exists r, s', b'. split; [exact Hr|].
    destruct Hcases as [(_ & _ & -> & _) | [(_ & _ & _ & -> & _) | (_ & _ & _ & Hout & _)]].
    - eapply flags_kept_lor. rewrite <- He0.
      apply (reverted_failed LIN_ERROR_STATE s0); [apply flag_bytes | apply (error_range s0 C0)].
    - apply flags_kept_same. exact He0.
    - eapply flags_kept_outcome; [|exact Hout]. exact He0. }
  split; [|split; [|split; [|split]]].
  - destruct (handlerSend_summary s b 500 Hs Hl500 ltac:(lia))
      as (s' & b' & Hr & _ & _ & _ & _ & _ & Hcases).
    exists s', b'. split; [exact Hr|].
    destruct Hcases as [(_ & _ & He & _) | (f & _ & (He & _) & _)].
    + apply flags_kept_same. exact He.
    + eapply flags_kept_lor. exact He.
  - destruct (handlerReceive_summary s b 500 Hs Hl500 ltac:(lia))
      as (s' & b' & Hr & _ & _ & _ & _ & _ & Hcases).
    exists s', b'. split; [exact Hr|].
    destruct Hcases as [(_ & He & _) | (f & _ & (He & _) & _)].
    + apply flags_kept_same. exact He.
    + eapply flags_kept_lor. exact He.
  - intros id numData data Hn Hd.
    destruct (sendMasterRequest_outcome id numData data s b Hs Hlive Hn Hd)
      as (r & s' & b' & Hr & Hcases).
    exists r, s', b'. split; [exact Hr|].
    destruct Hcases as [(_ & _ & -> & _) | [(_ & _ & _ & -> & _) | (_ & _ & _ & Hout & _)]].
    + eapply flags_kept_lor.
      apply (reverted_failed LIN_ERROR_STATE s); [apply flag_bytes | apply (error_range s Hs)].
    + apply flags_kept_same. reflexivity.
    + eapply flags_kept_outcome; [|exact Hout]. reflexivity.
  - intros id numData h Hn Hc.
    apply Hreceive; try assumption; reflexivity.
  - intros id numData data Hn Hd C0.
    destruct (Hreceive (set_dataPtr s data) id numData wrapperDefaultCallback
                C0 eq_refl eq_refl Hn Hd)
      as (r & s' & b' & Hr & Hk).
    unfold receiveSlaveResponse_copy. rewrite Hr. cbn [bind].
    exists None, s', b'. split; [reflexivity | exact Hk].
Qed.

Lemma error_flags_only_accumulate_witness :
  consistent Fixture.latched /\
  liveb (polls_needed Fixture.latched) (line Fixture.echoing) = true /\
  error Fixture.latched = LIN_ERROR_CHK /\
  (exists s' b',
      handlerSend Fixture.latched Fixture.echoing = Ok (s', b') /\
      Spec.flags_kept Fixture.latched s' /\
      error s' = Z.lor LIN_ERROR_CHK LIN_ERROR_STATE) /\
  (exists r s' b',
      sendMasterRequest 0x10 2 [0x01; 0x02] Fixture.latched Fixture.echoing
      = Ok (r, s', b') /\
      Spec.flags_kept Fixture.latched s' /\
      state s' = LIN_STATE_IDLE /\ error s' = LIN_ERROR_CHK).
Proof.
  split; [exact latched_consistent|].
  split; [vm_compute; reflexivity|].
  split; [reflexivity|].
  destruct (error_flags_only_accumulate Fixture.latched Fixture.echoing
              latched_consistent ltac:(vm_compute; reflexivity))
    as ((s1 & b1 & H1 & K1) & _ & Hreq & _).
  split.
  - exists s1, b1. split; [exact H1|]. split; [exact K1|].
    vm_compute in H1. injection H1 as <- _. reflexivity.
  - destruct (Hreq 0x10 2 [0x01; 0x02] ltac:(lia) ltac:(simpl; lia))
      as (r & s2 & b2 & H2 & K2).
    exists r, s2, b2. split; [exact H2|]. split; [exact K2|].
    vm_compute in H2. injection H2 as _ <- _. split; reflexivity.
Defined.

Lemma response_accepted_verdict s b1 :
  Spec.is_slave_response s && Spec.response_accepted s b1 = true <->
  frameType s = LIN_SLAVE_RESPONSE /\ Spec.receive_verdict s b1 = None.
Proof.
  unfold Spec.is_slave_response, Spec.response_accepted, Spec.receive_verdict.
  cbv zeta.
  destruct (frameType s); cbn [andb].
  - split; [discriminate | intros [H _]; discriminate].
  - destruct (status_eqb (state s) LIN_STATE_FRAME); cbn [andb negb];
      [|split; [discriminate | intros [_ H]; discriminate]].
    destruct (Serial.available b1 =? lenRx s - 1); cbn [andb negb];
      [|rewrite andb_false_r; split; [discriminate | intros [_ H]; discriminate]].
    rewrite andb_true_r.
    destruct (Mem.bytes_eqb _ _); cbn [andb negb];
      [|split; [discriminate | intros [_ H]; discriminate]].
    destruct (_ =? _); split; try tauto; try discriminate.
    intros [_ H]; discriminate.
Qed.

(** C7: the receive phase calls [rx_handler] once, with the number of
    data bytes and the data bytes received, exactly when the frame is a
    slave response in the right state whose break and header echo match,
    whose byte count is reached in time and whose checksum matches;
    otherwise it does not call it, and the send phase never does.  A whole
    slave-response transaction, in blocking or background operation, ends
    either with no flag raised and one call of the handler, or with a flag
    raised and no call; a master-request transaction makes no call. *)
Theorem handler_called_once_iff_success
  (s : LIN_Master) (b : Board)
  (Hs : consistent s) (Hlive : liveb (polls_needed s) (line b) = true) :
  (exists b1 s' b',
      Spec.receive_observed s b = Ok b1 /\ handlerReceive s b = Ok (s', b') /\
      decoded b' =
      decoded b ++
      (if Spec.is_slave_response s && Spec.response_accepted s b1
       then [(rx_handler s, lenRx s - 4, Spec.received_payload s b1)]
       else [])) /\
  (exists s' b', handlerSend s b = Ok (s', b') /\ decoded b' = decoded b) /\
  (tasks b = [] ->
   (forall (id numData : Z) (h : decoder_t),
       0 <= numData <= 8 -> callable h numData s ->
       exists s' b',
         Scheduler.slave_response id numData h s b = Ok (s', b') /\
         state s' = LIN_STATE_IDLE /\
         ((error s' = error s /\
           exists payload,
             Z.of_nat (length payload) = numData /\
             decoded b' = decoded b ++ [(h, numData, payload)])
          \/ (decoded b' = decoded b /\
              exists raised, raised <> 0 /\ error s' = Z.lor (error s) raised))) /\
   (forall (id numData : Z) (data : list Z),
       0 <= numData <= 8 -> numData <= Z.of_nat (length data) ->
       exists s' b',
         Scheduler.master_request id numData data s b = Ok (s', b') /\
         decoded b' = decoded b)).
Proof.
  destruct (polls_needed_bounds s Hs) as (Hp & _).
  assert (Hl500 : liveb 500 (line b) = true)
    by (eapply liveb_weaken; [|exact Hlive]; lia).
  split; [|split].
  - destruct (handlerReceive_spec s b 500 Hs Hl500 ltac:(lia))
      as (b1 & s' & b' & Ho & Hr & _ & _ & _ & _ & Hv).
    exists b1, s', b'. split; [exact Ho|]. split; [exact Hr|].
    pose proof (response_accepted_verdict s b1) as Hacc.
    destruct (Spec.is_slave_response s && Spec.response_accepted s b1).
    + destruct (proj1 Hacc eq_refl) as [Hft Hnone].
      rewrite Hnone, Hft in Hv. apply Hv.
    + destruct (Spec.receive_verdict s b1) as [f|] eqn:Ev.
      * rewrite app_nil_r. apply Hv.
      * destruct (frameType s) eqn:Eft.
        -- apply Hv.
        -- assert (false = true) by (apply Hacc; split; reflexivity). discriminate.
  - destruct (handlerSend_summary s b 500 Hs Hl500 ltac:(lia))
      as (s' & b' & Hr & _ & _ & _ & _ & Hd & _).
    exists s', b'. split; assumption.
  - intros Ht. split.
    + intros id numData h Hn Hc.
      destruct (slave_response_transaction id numData h s b Hs Ht Hlive Hn Hc)
        as (s' & b' & Hr & _ & Hidle & _ & Hres).
      exists s', b'. split; [exact Hr|]. split; [exact Hidle|].
      destruct Hres as [H | (raised & Hnz & _ & He & Hd)].
      * left. exact H.
      * right. split; [exact Hd|]. exists raised. split; assumption.
    + intros id numData data Hn Hd.
      destruct (master_request_transaction id numData data s b Hs Ht Hlive Hn Hd)
        as (s' & b' & Hr & _ & _ & _ & Hres).
      exists s', b'. split; [exact Hr|].
      destruct Hres as [(_ & _ & _ & H) | (_ & _ & _ & _ & H)].
      * rewrite app_nil_r in H. exact H.
      * exact H.
Qed.

Lemma handler_called_once_iff_success_witness :
  consistent Sample.awaiting /\
  liveb (polls_needed Sample.awaiting) (line (Sample.board Sample.answer)) = true /\
  exists s' b',
    handlerReceive Sample.awaiting (Sample.board Sample.answer) = Ok (s', b') /\
    decoded b' = [(user_decoder 0, 4, [0x01; 0x02; 0x03; 0x04])].
Proof.
  split; [exact awaiting_consistent|].
  split; [vm_compute; reflexivity|].
  destruct (handler_called_once_iff_success Sample.awaiting (Sample.board Sample.answer)
              awaiting_consistent ltac:(vm_compute; reflexivity))
    as ((b1 & s' & b' & Ho & Hr & Hd) & _).
  exists s', b'. split; [exact Hr|].
  vm_compute in Ho. injection Ho as <-. rewrite Hd. vm_compute. reflexivity.
Defined.

(** The wire format: break, sync, protected ID, data, checksum. *)
Lemma checksum_protected v id n data :
  checksum v (protectID id) n data = checksum v id n data.
Proof.
  unfold checksum. cbv zeta. rewrite protectID_idempotent. reflexivity.
Qed.

(** C8, counterexample: with nine data bytes [sendMasterRequest] writes
    the checksum behind the end of [bufTx], and [receiveSlaveResponse]
    sets [lenRx] to 13. *)
Lemma request_of_nine_bytes_overflows :
  sendMasterRequest 0x10 9 [1; 2; 3; 4; 5; 6; 7; 8; 9] Sample.fresh (Sample.board [])
  = Undefined /\
  (exists s' b',
      receiveSlaveResponse 0x10 9 (user_decoder 0) Sample.fresh (Sample.board [])
      = Ok (None, s', b') /\ lenRx s' = 13) /\
  ~ Claims.every_request_fits.
Proof.
  split; [vm_compute; reflexivity|]. split.
  - eexists. eexists. split; [vm_compute; reflexivity | reflexivity].
  - intros H.
    destruct (H Sample.fresh (Sample.board []) 0x10 9 [1; 2; 3; 4; 5; 6; 7; 8; 9]
                (user_decoder 0) fresh_consistent eq_refl eq_refl)
      as [(r & s' & b' & Hr & _) _].
    + unfold is_byte. lia.
    + simpl. lia.
    + exact I.
    + vm_compute in Hr. discriminate.
Qed.

(** C8, amended: a request with at most 8 data bytes (the documented
    range of [numData]) accepted in Idle builds its frame inside the 12
    bytes of [bufTx]: break, sync, protected ID, the data and the
    checksum for a master request, with [lenTx = lenRx = numData + 4];
    break, sync and protected ID for a slave response, with [lenTx = 3]
    and [lenRx = numData + 4]; no access leaves an array, and the engine
    stays well formed, so that the handlers that follow stay inside
    [bufRx] as well. *)
Theorem accepted_request_fits_buffers
  (s : LIN_Master) (b : Board) (id numData : Z) (data : list Z) (h : decoder_t)
  (Hs : consistent s) (Hidle : state s = LIN_STATE_IDLE)
  (Hlive : liveb (polls_needed s) (line b) = true)
  (Hn : 0 <= numData <= 8) (Hd : numData <= Z.of_nat (length data))
  (Hh : callable h numData s) :
  (exists r s' b',
      sendMasterRequest id numData data s b = Ok (r, s', b') /\
      consistent s' /\
      lenTx s' = numData + 4 /\ lenRx s' = numData + 4 /\
      lenTx s' <= 12 /\ lenRx s' <= 12 /\
      firstn (Z.to_nat (lenTx s')) (bufTx s') =
      0x00 :: 0x55 :: protectID id :: firstn (Z.to_nat numData) data
      ++ [checksum (version s) id numData data]) /\
  (exists r s' b',
      receiveSlaveResponse id numData h s b = Ok (r, s', b') /\
      consistent s' /\
      lenTx s' = 3 /\ lenRx s' = numData + 4 /\ lenRx s' <= 12 /\
      firstn (Z.to_nat (lenTx s')) (bufTx s') = [0x00; 0x55; protectID id]) /\
  (forall (s1 : LIN_Master) (b1 : Board),
      consistent s1 -> liveb 500 (line b1) = true ->
      (exists s' b', handlerSend s1 b1 = Ok (s', b') /\ consistent s') /\
      (exists s' b', handlerReceive s1 b1 = Ok (s', b') /\ consistent s')).
Proof.
  assert (Hm : forall s', same_frame (master_request_started id numData data s) s' ->
    lenTx s' = numData + 4 /\ lenRx s' = numData + 4 /\
    lenTx s' <= 12 /\ lenRx s' <= 12 /\
    firstn (Z.to_nat (lenTx s')) (bufTx s') =
    0x00 :: 0x55 :: protectID id :: firstn (Z.to_nat numData) data
    ++ [checksum (version s) id numData data]).
  { intros s' (_ & _ & _ & _ & _ & _ & Hb & Hlt & Hlr & _).
    rewrite Hb, Hlt, Hlr. cbn [bufTx lenTx lenRx master_request_started set_state
      set_lenRx set_lenTx set_bufTx set_frameType].
    split; [reflexivity|]. split; [reflexivity|]. split; [lia|]. split; [lia|].
    rewrite firstn_app_exact.
    - unfold request_frame. rewrite checksum_protected. reflexivity.
    - unfold request_frame. cbn [length]. rewrite length_app, length_firstn.
      cbn [length]. lia. }
  assert (Hr : forall s', same_frame (slave_response_started id numData h s) s' ->
    lenTx s' = 3 /\ lenRx s' = numData + 4 /\ lenRx s' <= 12 /\
    firstn (Z.to_nat (lenTx s')) (bufTx s') = [0x00; 0x55; protectID id]).
  { intros s' (_ & _ & _ & _ & _ & _ & Hb & Hlt & Hlr & _).
    rewrite Hb, Hlt, Hlr. cbn [bufTx lenTx lenRx slave_response_started set_state
      set_rx_handler set_lenRx set_lenTx set_bufTx set_frameType].
    split; [reflexivity|]. split; [lia|]. split; [lia|]. reflexivity. }
  split; [|split].
  - destruct (sendMasterRequest_outcome id numData data s b Hs Hlive Hn Hd)
      as (r & s' & b' & Hres & Hcases).
    exists r, s', b'. split; [exact Hres|].
    destruct Hcases as [(Hst & _) | [(_ & _ & _ & -> & _) | (_ & _ & _ & Hout & _)]].
    + contradiction.
    + split; [apply master_request_started_consistent; assumption|].
      apply Hm. apply same_frame_refl.
    + destruct Hout as (C' & Hf & _). split; [exact C'|]. apply Hm. exact Hf.
  - destruct (receiveSlaveResponse_outcome id numData h s b Hs Hlive Hn Hh)
      as (r & s' & b' & Hres & Hcases).
    exists r, s', b'. split; [exact Hres|].
    destruct Hcases as [(Hst & _) | [(_ & _ & _ & -> & _) | (_ & _ & _ & Hout & _)]].
    + contradiction.
    + split; [apply slave_response_started_consistent; assumption|].
      apply Hr. apply same_frame_refl.
    + destruct Hout as (C' & Hf & _). split; [exact C'|]. apply Hr. exact Hf.
  - intros s1 b1 C1 Hl1. split.
    + destruct (handlerSend_summary s1 b1 500 C1 Hl1 ltac:(lia))
        as (s' & b' & Hres & C' & _).
      exists s', b'. split; assumption.
    + destruct (handlerReceive_summary s1 b1 500 C1 Hl1 ltac:(lia))
        as (s' & b' & Hres & C' & _).
      exists s', b'. split; assumption.
Qed.

Lemma accepted_request_fits_buffers_witness :
  consistent Sample.fresh /\ state Sample.fresh = LIN_STATE_IDLE /\
  liveb (polls_needed Sample.fresh) (line (Sample.board Sample.silence)) = true /\
  0 <= 8 <= 8 /\ 8 <= Z.of_nat (length [1; 2; 3; 4; 5; 6; 7; 8]) /\
  callable (user_decoder 0) 8 Sample.fresh /\
  exists r s' b',
    sendMasterRequest 0x10 8 [1; 2; 3; 4; 5; 6; 7; 8] Sample.fresh
      (Sample.board Sample.silence) = Ok (r, s', b') /\
    consistent s' /\ lenTx s' = 8 + 4.
Proof.
  split; [exact fresh_consistent|]. split; [reflexivity|].
  split; [vm_compute; reflexivity|]. split; [lia|]. split; [simpl; lia|].
  split; [exact I|].
  destruct (accepted_request_fits_buffers Sample.fresh (Sample.board Sample.silence)
              0x10 8 [1; 2; 3; 4; 5; 6; 7; 8] (user_decoder 0)
              fresh_consistent eq_refl ltac:(vm_compute; reflexivity)
              ltac:(lia) ltac:(simpl; lia) I)
    as ((r & s' & b' & Hr & C' & Hl & _) & _).
  exists r, s', b'. split; [exact Hr|]. split; assumption.
Defined.

(** C9, counterexample: [end()] on an engine whose buffers hold a frame
    leaves the frame in them. *)
Lemma end_keeps_buffers :
  (let s' := fst (end_ Sample.in_flight (Sample.board [])) in
   state s' = LIN_STATE_OFF /\
   bufTx s' = [0x00; 0x55; 0x50; 0x01; 0x02; 0xAC; 0; 0; 0; 0; 0; 0] /\
   bufRx s' = [0x00; 0x55; 0x50; 0x01; 0x02; 0xAC; 0; 0; 0; 0; 0; 0]) /\
  ~ Claims.end_zeroes_buffers.
Proof.
  split; [repeat split|].
  intros H. destruct (H Sample.in_flight (Sample.board []) in_flight_consistent)
    as (_ & Htx & _).
  vm_compute in Htx. discriminate.
Qed.

(** C9, amended: after [end()] the state is Off and the error flags are
    cleared; both buffers, their lengths and the requests registered with
    the scheduler are as before, the port is closed and its timeout is
    1000. *)
Theorem end_resets_state_only (s : LIN_Master) (b : Board) :
  let s' := fst (end_ s b) in
  let b' := snd (end_ s b) in
  state s' = LIN_STATE_OFF /\ error s' = LIN_SUCCESS /\
  bufTx s' = bufTx s /\ bufRx s' = bufRx s /\
  lenTx s' = lenTx s /\ lenRx s' = lenRx s /\
  tasks b' = tasks b /\ port_open b' = false /\ port_timeout b' = 1000.
Proof. cbv zeta. repeat split. Qed.

(** C10: [getState()] is the state converted to [bool]: false exactly in
    Off, true in Idle, Break and Frame alike. *)
Theorem getState_only_tells_off (s : LIN_Master) :
  getState s = negb (status_eqb (state s) LIN_STATE_OFF) /\
  (getState s = false <-> state s = LIN_STATE_OFF) /\
  (forall s2 : LIN_Master,
      state s <> LIN_STATE_OFF -> state s2 <> LIN_STATE_OFF ->
      getState s = getState s2).
Proof.
  unfold getState. split; [|split].
  - destruct (state s); reflexivity.
  - destruct (state s); cbn; split; intros H; try discriminate; reflexivity.
  - intros s2 H1 H2. destruct (state s), (state s2); try reflexivity; contradiction.
Qed.

(** * Further properties of the code *)

(** ** The frame codec *)

Lemma Forall_firstn_keep {A} (P : A -> Prop) n : forall l,
  Forall P l -> Forall P (firstn n l).
Proof.
  induction n as [|n IH]; intros [|x l] H; simpl; try constructor.
  - inversion H; assumption.
  - apply IH. inversion H; assumption.
Qed.

Lemma protectID_low_six (id : Z) : Z.land (protectID id) 0x3F = Z.land id 0x3F.
Proof.
  rewrite (protectID_low_bits id).
  destruct (protectID_facts (Z.land id 0x3F) (land_6_bits_byte id)) as [_ H].
  rewrite H. rewrite <- Z.land_assoc. reflexivity.
Qed.

(** X1: a protected ID with any one of its eight bits flipped is never
    a protected ID: [protectID] does not map the damaged byte to itself,
    so that every single-bit error in a protected ID can be told from its
    parity bits. *)
Theorem protectID_detects_single_bit_errors (id k : Z)
  (Hid : is_byte id) (Hk : 0 <= k < 8) :
  let received := Z.lxor (protectID id) (Z.shiftl 1 k) in
  is_byte received /\ protectID received <> received.
Proof.
  assert (E : forallb (fun k =>
                (0 <=? Z.lxor (protectID id) (Z.shiftl 1 k))
                && (Z.lxor (protectID id) (Z.shiftl 1 k) <? 256)
                && negb (protectID (Z.lxor (protectID id) (Z.shiftl 1 k))
                         =? Z.lxor (protectID id) (Z.shiftl 1 k)))
              (map Z.of_nat (seq 0 8)) = true).
  { revert id Hid. apply forallb_bytes. vm_compute. reflexivity. }
  rewrite forallb_forall in E.
  specialize (E k). cbv zeta.
  assert (Hin : In k (map Z.of_nat (seq 0 8))).
  { apply in_map_iff. exists (Z.to_nat k). split; [lia|]. apply in_seq. lia. }
  apply E in Hin. rewrite !andb_true_iff in Hin. destruct Hin as [[H1 H2] H3].
  apply Z.leb_le in H1. apply Z.ltb_lt in H2. apply negb_true_iff in H3.
  apply Z.eqb_neq in H3. unfold is_byte. split; [lia | exact H3].
Qed.

Lemma protectID_detects_single_bit_errors_witness :
  is_byte 0x10 /\ 0 <= 6 < 8 /\
  protectID (Z.lxor (protectID 0x10) (Z.shiftl 1 6)) <> Z.lxor (protectID 0x10) (Z.shiftl 1 6).
Proof.
  assert (Hid : is_byte 0x10) by (unfold is_byte; lia).
  assert (Hk : 0 <= 6 < 8) by lia.
  split; [exact Hid|]. split; [exact Hk|].
  exact (proj2 (protectID_detects_single_bit_errors 0x10 6 Hid Hk)).
Defined.

(** X2: [protectID] depends on the low six bits of its argument only
    and maps different six bit identifiers to different protected IDs;
    no protected ID is 0x00 or 0xFF. *)
Theorem protectID_six_bit_injective (id id' : Z) :
  (protectID id = protectID id' <-> Z.land id 0x3F = Z.land id' 0x3F) /\
  protectID id <> 0x00 /\ protectID id <> 0xFF.
Proof.
  split.
  - split; intros H.
    + rewrite <- (protectID_low_six id), <- (protectID_low_six id'), H. reflexivity.
    + rewrite (protectID_low_bits id), (protectID_low_bits id'), H. reflexivity.
  - rewrite (protectID_low_bits id).
    destruct (protectID_facts (Z.land id 0x3F) (land_6_bits_byte id)) as [H _]. lia.
Qed.

Lemma diagnostic_pid (id : Z) :
  (protectID id = 0x3C <-> Z.land id 0x3F = 0x3C) /\
  (protectID id = 0x7D <-> Z.land id 0x3F = 0x3D).
Proof.
  assert (E : forall x, is_byte x ->
    (Bool.eqb (protectID x =? 0x3C) (x =? 0x3C)
     && Bool.eqb (protectID x =? 0x7D) (x =? 0x3D)
     || negb (x <? 64)) = true).
  { apply forallb_bytes. vm_compute. reflexivity. }
  specialize (E (Z.land id 0x3F) (land_6_bits_byte id)).
  rewrite <- (protectID_low_bits id) in E.
  assert (Hr : Z.land id 0x3F < 64).
  { change 0x3F with (Z.ones 6). rewrite Z.land_ones by lia.
    apply Z.mod_pos_bound. lia. }
  apply orb_true_iff in E. destruct E as [E|E].
  - apply andb_true_iff in E. destruct E as [E1 E2].
    apply eqb_prop in E1, E2. split.
    + rewrite <- !Z.eqb_eq. rewrite E1. tauto.
    + rewrite <- !Z.eqb_eq. rewrite E2. tauto.
  - apply negb_true_iff, Z.ltb_ge in E. lia.
Qed.

(** X3: the two protected IDs that [checksum] excludes from the sum,
    0x3C and 0x7D, are those of the frame identifiers 60 and 61 (in the
    low six bits of [id]); under version 2 the checksum of a frame equals
    its version 1 checksum exactly for these two identifiers.  [numData]
    is a [uint8_t], the data are bytes. *)
Theorem diagnostic_ids_use_classic_checksum (id numData : Z) (data : list Z)
  (Hn : 0 <= numData <= Z.of_nat (length data)) (Hb : is_byte numData)
  (Hd : Forall is_byte data) :
  (protectID id = 0x3C <-> Z.land id 0x3F = 0x3C) /\
  (protectID id = 0x7D <-> Z.land id 0x3F = 0x3D) /\
  (checksum LIN_V2 id numData data = checksum LIN_V1 id numData data
   <-> Z.land id 0x3F = 0x3C \/ Z.land id 0x3F = 0x3D).
Proof.
  destruct (diagnostic_pid id) as [D1 D2].
  split; [exact D1|]. split; [exact D2|].
  rewrite !checksum_unfold by exact Hn.
  set (payload := firstn (Z.to_nat numData) data).
  assert (Hp : Forall is_byte payload) by (apply Forall_firstn_keep; exact Hd).
  change (Spec.seeded LIN_V1 (protectID id)) with false. cbv iota.
  rewrite <- D1, <- D2.
  unfold Spec.seeded. cbn [version_eqb andb].
  destruct (protectID id =? 0x3C) eqn:E1; cbn [negb andb].
  - apply Z.eqb_eq in E1. tauto.
  - destruct (protectID id =? 0x7D) eqn:E2; cbn [negb].
    + apply Z.eqb_eq in E2. tauto.
    + apply Z.eqb_neq in E1, E2. split; [|tauto].
      intros H. exfalso.
      assert (Hpid : 1 <= protectID id <= 254).
      { rewrite (protectID_low_bits id).
        apply (protectID_facts (Z.land id 0x3F) (land_6_bits_byte id)). }
      destruct (accumulate_facts payload (protectID id) ltac:(lia) Hp) as (R1 & M1 & _).
      destruct (accumulate_facts payload 0 ltac:(lia) Hp) as (R0 & M0 & _).
      apply ones_complement_inj in H; [|assumption|assumption].
      rewrite H in M1. rewrite M0 in M1.
      replace (protectID id + sum_bytes payload) with (sum_bytes payload + protectID id) in M1 by lia.
      replace (0 + sum_bytes payload) with (sum_bytes payload + 0) in M1 by lia.
      apply mod255_cancel in M1.
      rewrite Z.mod_0_l, Z.mod_small in M1 by lia. lia.
Qed.

Lemma diagnostic_ids_use_classic_checksum_witness :
  0 <= 2 <= Z.of_nat (length [0x01; 0x02]) /\ is_byte 2 /\
  Forall is_byte [0x01; 0x02] /\
  checksum LIN_V2 0x3C 2 [0x01; 0x02] = checksum LIN_V1 0x3C 2 [0x01; 0x02].
Proof.
  assert (Hn : 0 <= 2 <= Z.of_nat (length [0x01; 0x02])) by (simpl; lia).
  assert (Hb : is_byte 2) by (unfold is_byte; lia).
  assert (Hd : Forall is_byte [0x01; 0x02]) by (repeat constructor; unfold is_byte; lia).
  split; [exact Hn|]. split; [exact Hb|]. split; [exact Hd|].
  apply (proj2 (proj2 (diagnostic_ids_use_classic_checksum 0x3C 2 [0x01; 0x02] Hn Hb Hd))).
  left. reflexivity.
Defined.

(** X4: the checksum checks itself: [checksum] computed over the data
    bytes followed by their own checksum byte is 0x00, for both versions
    and every identifier. *)
Theorem checksum_validates (v : LIN_version_t) (id : Z) (payload : list Z)
  (Hlen : (length payload < 255)%nat) (Hp : Forall is_byte payload) :
  checksum v id (Spec.numData_of payload + 1)
           (payload ++ [checksum v id (Spec.numData_of payload) payload]) = 0x00.
Proof.
  unfold Spec.numData_of.
  rewrite (checksum_unfold v id (Z.of_nat (length payload) + 1))
    by (rewrite length_app; simpl; lia).
  rewrite (checksum_unfold v id (Z.of_nat (length payload)) payload) by lia.
  rewrite Nat2Z.id, firstn_all.
  replace (Z.to_nat (Z.of_nat (length payload) + 1)) with (length payload + 1)%nat by lia.
  rewrite (firstn_all2 (payload ++ _)) by (rewrite length_app; simpl; lia).
  rewrite fold_left_app. cbn [fold_left].
  set (seed := if Spec.seeded v (protectID id) then protectID id else 0).
  assert (Hs : 0 <= seed <= 255).
  { unfold seed. pose proof (protectID_byte id) as H. unfold is_byte in H.
    destruct (Spec.seeded v (protectID id)); lia. }
  destruct (accumulate_facts payload seed Hs Hp) as (Hr & _).
  set (acc := fold_left Spec.end_around_add payload seed) in *.
  assert (Hc : Spec.ones_complement_low_byte acc = 0xFF - acc).
  { unfold Spec.ones_complement_low_byte.
    change 0xFF with (Z.ones 8) at 1. rewrite Z.land_ones by lia.
    change (2 ^ 8) with 256. rewrite Z.mod_small by lia.
    symmetry. apply complement_byte. unfold is_byte. lia. }
  rewrite Hc.
  rewrite end_around_add_small by (unfold is_byte; lia).
  replace (acc + (0xFF - acc)) with 255 by lia.
  reflexivity.
Qed.

Lemma checksum_validates_witness :
  (length [0x01; 0x02] < 255)%nat /\ Forall is_byte [0x01; 0x02] /\
  checksum LIN_V2 0x10 (Spec.numData_of [0x01; 0x02] + 1)
           ([0x01; 0x02] ++ [checksum LIN_V2 0x10 (Spec.numData_of [0x01; 0x02]) [0x01; 0x02]])
  = 0x00.
Proof.
  assert (Hlen : (length [0x01; 0x02] < 255)%nat) by (simpl; lia).
  assert (Hp : Forall is_byte [0x01; 0x02]) by (repeat constructor; unfold is_byte; lia).
  split; [exact Hlen|]. split; [exact Hp|].
  exact (checksum_validates LIN_V2 0x10 [0x01; 0x02] Hlen Hp).
Defined.

Lemma sum_bytes_perm l l' : Permutation l l' -> sum_bytes l = sum_bytes l'.
Proof.
  induction 1; simpl; lia.
Qed.

(** X5: [checksum] does not depend on the order of the data bytes: two
    payloads that are permutations of one another have the same checksum,
    so that swapped bytes are not detected. *)
Theorem checksum_ignores_byte_order (v : LIN_version_t) (id : Z) (payload payload' : list Z)
  (Hlen : (length payload <= 255)%nat)
  (Hp : Forall is_byte payload) (Hperm : Permutation payload payload') :
  checksum v id (Spec.numData_of payload') payload'
  = checksum v id (Spec.numData_of payload) payload.
Proof.
  assert (Hp' : Forall is_byte payload') by (eapply Permutation_Forall; eassumption).
  unfold Spec.numData_of.
  rewrite !checksum_unfold by lia. rewrite !Nat2Z.id, !firstn_all.
  set (seed := if Spec.seeded v (protectID id) then protectID id else 0).
  assert (Hs : 0 <= seed <= 255).
  { unfold seed. pose proof (protectID_byte id) as H. unfold is_byte in H.
    destruct (Spec.seeded v (protectID id)); lia. }
  destruct (accumulate_facts payload seed Hs Hp) as (R & M & Z0).
  destruct (accumulate_facts payload' seed Hs Hp') as (R' & M' & Z0').
  f_equal. apply canonical_residue; try assumption.
  - rewrite M, M'. rewrite (sum_bytes_perm _ _ Hperm). reflexivity.
  - rewrite Z0, Z0'. split; intros [H1 H2]; (split; [exact H1|]).
    + eapply Permutation_Forall; [apply Permutation_sym; exact Hperm | exact H2].
    + eapply Permutation_Forall; [exact Hperm | exact H2].
Qed.

Lemma checksum_ignores_byte_order_witness :
  (length [0x01; 0x02] <= 255)%nat /\
  Forall is_byte [0x01; 0x02] /\ Permutation [0x01; 0x02] [0x02; 0x01] /\
  checksum LIN_V2 0x10 (Spec.numData_of [0x02; 0x01]) [0x02; 0x01]
  = checksum LIN_V2 0x10 (Spec.numData_of [0x01; 0x02]) [0x01; 0x02].
Proof.
  assert (Hp : Forall is_byte [0x01; 0x02]) by (repeat constructor; unfold is_byte; lia).
  assert (Hperm : Permutation [0x01; 0x02] [0x02; 0x01]) by apply perm_swap.
  assert (Hlen : (length [0x01; 0x02] <= 255)%nat) by (simpl; lia).
  split; [exact Hlen|]. split; [exact Hp|]. split; [exact Hperm|].
  exact (checksum_ignores_byte_order LIN_V2 0x10 [0x01; 0x02] [0x02; 0x01] Hlen Hp Hperm).
Defined.

(** ** The handlers after their waits *)

Lemma busy_wait_done cond sched b : cond b = false -> busy_wait cond sched b = Ok b.
Proof. intros H. destruct sched; simpl; rewrite H; reflexivity. Qed.

Lemma status_eqb_eq a b : status_eqb a b = true <-> a = b.
Proof. destruct a, b; simpl; split; intros; try reflexivity; discriminate. Qed.

Lemma handlerSend_exact (s : LIN_Master) (b b1 : Board) :
  consistent s -> state s = LIN_STATE_BREAK -> break_wait b = Ok b1 ->
  handlerSend s b = Ok (send_phase s b1).
Proof.
  intros C Hst Hw. unfold handlerSend, send_phase. rewrite Hst. cbn [status_eqb negb].
  rewrite Hw. cbn [bind]. unfold Serial.available.
  destruct (rx_fifo b1) as [|c q] eqn:Eq.
  - simpl. rewrite revert_ok by (apply consistent_lenRx; exact C). reflexivity.
  - change (Z.of_nat (length (c :: q)) =? 0) with false. cbv iota.
    unfold Serial.read. rewrite Eq.
    pose proof (bufRx_size s C) as Hsz.
    rewrite store_ok by lia. cbn [bind Z.to_nat firstn app].
    assert (Cb : consistent (set_bufRx s (uint8 c :: skipn 1 (bufRx s)))).
    { destruct C as [H1 H2 H3 H4 H5 HD H6 H7]. constructor; try assumption.
      change (S (length (skipn 1 (bufRx s))) = 12%nat). rewrite length_skipn. lia. }
    rewrite load_ok by (cbn [bufRx set_bufRx length]; lia).
    cbn [bind Z.to_nat nth bufRx set_bufRx]. cbv zeta.
    destruct (uint8 c =? 0) eqn:Ec; cbn [negb].
    + destruct (frame_lengths s C (or_introl Hst)) as [HlenTx HlenRx].
      pose proof (lenTx_range s C) as HrTx. pose proof (bufTx_size s C) as HszTx.
      cbn [bufTx set_bufRx lenTx baudrate].
      rewrite write_buf_ok by lia. cbn [bind].
      change (Z.to_nat 1) with 1%nat.
      destruct (background s) eqn:Ebg; cbn [background set_state set_bufRx]; rewrite Ebg; reflexivity.
    + rewrite revert_ok by (apply consistent_lenRx; exact Cb). reflexivity.
Qed.

Lemma handlerSend_wrong_state (s : LIN_Master) (b : Board) :
  consistent s -> state s <> LIN_STATE_BREAK ->
  handlerSend s b = Ok (reverted LIN_ERROR_STATE s, b).
Proof.
  intros C Hst. unfold handlerSend.
  destruct (status_eqb (state s) LIN_STATE_BREAK) eqn:E.
  - apply status_eqb_eq in E. contradiction.
  - cbn [negb]. rewrite revert_ok by (apply consistent_lenRx; exact C). reflexivity.
Qed.

Lemma handlerReceive_wrong_state (s : LIN_Master) (b : Board) :
  consistent s -> state s <> LIN_STATE_FRAME ->
  handlerReceive s b = Ok (reverted LIN_ERROR_STATE s, b).
Proof.
  intros C Hst. unfold handlerReceive.
  destruct (status_eqb (state s) LIN_STATE_FRAME) eqn:E.
  - apply status_eqb_eq in E. contradiction.
  - cbn [negb]. rewrite revert_ok by (apply consistent_lenRx; exact C). reflexivity.
Qed.

Lemma handlerReceive_exact (s : LIN_Master) (b b1 : Board) :
  consistent s -> state s = LIN_STATE_FRAME -> frame_wait (lenRx s) b = Ok b1 ->
  handlerReceive s b = Ok (receive_phase s b1).
Proof.
  intros C Hst Hw. unfold handlerReceive, receive_phase. rewrite Hst. cbn [status_eqb negb].
  rewrite Hw. cbn [bind].
  destruct (Serial.available b1 =? lenRx s - 1) eqn:Eav; cbn [negb].
  - apply Z.eqb_eq in Eav. unfold Serial.available in Eav.
    destruct (frame_lengths s C (or_intror Hst)) as [HlenTx HlenRx].
    pose proof (lenRx_range s C) as HrRx.
    pose proof (bufRx_size s C) as HszRx. pose proof (bufTx_size s C) as HszTx.
    change 1 with (Z.of_nat 1) at 2.
    rewrite read_frame_ok by lia. cbn [bind].
    rewrite (received_bufRx s b1 C Eav).
    pose proof (received_frame_length s b1 Eav) as Hfl.
    cbv zeta.
    set (frame := Spec.received_frame s b1) in *.
    set (tail := skipn (Z.to_nat (lenRx s)) (bufRx s)).
    assert (Htail : length tail = (12 - Z.to_nat (lenRx s))%nat).
    { unfold tail. rewrite length_skipn. lia. }
    set (s1 := set_bufRx s (frame ++ tail)).
    set (b2 := set_rx_fifo b1 (skipn (Z.to_nat (lenRx s - 1)) (rx_fifo b1))).
    assert (C1 : consistent s1).
    { destruct C as [H1 H2 H3 H4 H5 HD H6 H7]. constructor; try assumption.
      change (length (frame ++ tail) = 12%nat). rewrite length_app. lia. }
    change (frameType s1) with (frameType s). change (bufRx s1) with (frame ++ tail).
    change (bufTx s1) with (bufTx s). change (lenTx s1) with (lenTx s).
    change (lenRx s1) with (lenRx s). change (version s1) with (version s).
    change (rx_handler s1) with (rx_handler s).
    destruct (frameType s) eqn:Eft.
    + rewrite memcmp_ok by (rewrite ?length_app; lia). cbn [bind].
      rewrite firstn_app_le by lia.
      destruct (Mem.bytes_eqb (firstn (Z.to_nat (lenTx s)) frame)
                              (firstn (Z.to_nat (lenTx s)) (bufTx s))) eqn:Eeq;
        cbn [negb].
      * reflexivity.
      * rewrite revert_ok by (apply consistent_lenRx; exact C1). reflexivity.
    + rewrite memcmp_ok by (rewrite ?length_app; lia). cbn [bind].
      change (Z.to_nat 3) with 3%nat.
      rewrite (firstn_app_le frame tail 3) by lia.
      destruct (Mem.bytes_eqb (firstn 3 frame) (firstn 3 (bufTx s))) eqn:Eeq;
        cbn [negb].
      * rewrite load_ok by (rewrite length_app; lia). cbn [bind].
        rewrite load_ok by (rewrite length_app; lia). cbn [bind].
        change (Z.to_nat 2) with 2%nat.
        rewrite !app_nth1 by lia.
        assert (Hu : uint8 (lenRx s - 4) = lenRx s - 4)
          by (apply uint8_byte; unfold is_byte; lia).
        rewrite Hu.
        assert (Hdata : skipn 3 (frame ++ tail) = skipn 3 frame ++ tail)
          by (apply skipn_app_le; lia).
        rewrite Hdata.
        assert (Hdl : length (skipn 3 frame ++ tail) = 9%nat)
          by (rewrite length_app, length_skipn; lia).
        assert (Hpay : firstn (Z.to_nat (lenRx s - 4)) (skipn 3 frame ++ tail)
                       = Spec.received_payload s b1).
        { unfold Spec.received_payload. fold frame.
          apply firstn_app_le. rewrite length_skipn. lia. }
        unfold checksum_of. rewrite Hdl.
        replace (lenRx s - 4 <=? Z.of_nat 9) with true
          by (symmetry; apply Z.leb_le; lia).
        cbn [bind].
        rewrite (checksum_firstn _ _ _ (skipn 3 frame ++ tail)) by (rewrite Hdl; lia).
        rewrite Hpay.
        destruct (nth (Z.to_nat (lenRx s - 1)) frame 0
                  =? checksum (version s) (nth 2 frame 0) (lenRx s - 4)
                              (Spec.received_payload s b1)) eqn:Echk;
          cbn [negb].
        -- pose proof (handler_ready s C (or_intror Hst) Eft) as Hr.
           unfold call_decoder. rewrite Hpay.
           destruct (rx_handler s) eqn:Eh; cbn [callable] in Hr.
           ++ contradiction.
           ++ reflexivity.
           ++ unfold defaultCallback. change (dataPtr s1) with (dataPtr s).
              rewrite memcpy_ok by (rewrite ?Hdl; lia).
              cbn [bind Z.to_nat firstn app]. rewrite Hpay.
              replace (0 + (lenRx s - 4)) with (lenRx s - 4) by lia.
              reflexivity.
        -- rewrite revert_ok by (apply consistent_lenRx; exact C1). reflexivity.
      * rewrite revert_ok by (apply consistent_lenRx; exact C1). reflexivity.
  - rewrite revert_ok by (apply consistent_lenRx; exact C). reflexivity.
Qed.

Lemma busy_wait_fifo_grows cond sched : forall b b',
  busy_wait cond sched b = Ok b' ->
  (length (rx_fifo b) <= length (rx_fifo b'))%nat.
Proof.
  induction sched as [|p rest IH]; intros b b' H; simpl in H.
  - destruct (cond b); [discriminate|]. injection H as <-. lia.
  - destruct (cond b).
    + apply IH in H. simpl in H. rewrite length_app in H. lia.
    + injection H as <-. lia.
Qed.

Lemma busy_wait_silent cond sched : forall b b',
  silentb sched = true -> line b = sched ->
  busy_wait cond sched b = Ok b' ->
  rx_fifo b' = rx_fifo b /\ silentb (line b') = true.
Proof.
  induction sched as [|p rest IH]; intros b b' Hs Hline H; simpl in H.
  - destruct (cond b); [discriminate|]. injection H as <-. rewrite Hline. split; reflexivity.
  - simpl in Hs. apply andb_true_iff in Hs. destruct Hs as [Hp Hs].
    destruct (cond b).
    + apply IH in H; [|exact Hs|reflexivity]. destruct H as [H1 H2].
      split; [|exact H2]. rewrite H1. simpl.
      destruct (arrived p); [apply app_nil_r | discriminate].
    + injection H as <-. rewrite Hline. split; [reflexivity|].
      simpl. rewrite Hp, Hs. reflexivity.
Qed.

Lemma flush_silent b b' :
  silentb (line b) = true -> flush b = Ok b' ->
  rx_fifo b' = rx_fifo b /\ silentb (line b') = true.
Proof.
  unfold flush. intros Hs H. destruct (line b) as [|p rest]; [discriminate|].
  injection H as <-. simpl in Hs. apply andb_true_iff in Hs. destruct Hs as [Hp Hs].
  split; [|exact Hs]. simpl. destruct (arrived p); [apply app_nil_r | discriminate].
Qed.

Lemma send_phase_consistent s b1 :
  consistent s -> state s = LIN_STATE_BREAK -> consistent (fst (send_phase s b1)).
Proof.
  intros C Hst. destruct flag_bytes as (FS & FE & FT & FC). unfold send_phase.
  destruct (rx_fifo b1) as [|c q].
  - apply reverted_consistent; assumption.
  - assert (Cb : consistent (set_bufRx s (uint8 c :: skipn 1 (bufRx s)))).
    { pose proof (bufRx_size s C) as Hsz.
      destruct C as [H1 H2 H3 H4 H5 HD H6 H7]. constructor; try assumption.
      change (S (length (skipn 1 (bufRx s))) = 12%nat). rewrite length_skipn. lia. }
    cbv zeta. destruct (uint8 c =? 0).
    + cbn [fst]. destruct Cb as [H1 H2 H3 H4 H5 HD H6 H7].
      constructor; simpl in *; try assumption.
      * intros _. apply H6. left. exact Hst.
      * intros _. apply H7. left. exact Hst.
    + apply reverted_consistent; assumption.
Qed.

Lemma reverted_error flag s :
  is_byte flag -> consistent s -> error (reverted flag s) = Z.lor (error s) flag.
Proof.
  intros Hf C. simpl. rewrite !uint8_byte; [reflexivity | exact Hf | apply (error_range s C)].
Qed.

Lemma blocking_consistent : consistent Fixture.blocking.
Proof. apply begin_consistent. exact LIN_Master_N_consistent. Qed.

Lemma copying_consistent : consistent Fixture.copying.
Proof.
  pose proof awaiting_consistent as C. destruct C as [H1 H2 H3 H4 H5 HD H6 H7].
  constructor; try assumption.
  intros _ _. cbn. lia.
Qed.

Lemma set_dataPtr_consistent s buffer :
  consistent s -> state s = LIN_STATE_IDLE -> consistent (set_dataPtr s buffer).
Proof.
  intros C Hst. destruct C as [H1 H2 H3 H4 H5 HD H6 H7].
  constructor; try assumption.
  intros [H|H] _; cbn in H; rewrite Hst in H; discriminate H.
Qed.

(** X6: [handlerSend] ends in [LIN_STATE_FRAME] exactly when it is
    called in [LIN_STATE_BREAK] and the byte it finds in the port after
    its wait is 0x00.  Then it has written [bufTx[1 .. lenTx-1]], set the
    baud rate back to [baudrate] and, in background operation, registered
    [wrapperReceive] with the delay [durationFrame]; otherwise it ends in
    [LIN_STATE_IDLE], has written nothing, has registered nothing and has
    left the baud rate as it found it. *)
Theorem handlerSend_transmits_iff_break_echoed (s : LIN_Master) (b : Board)
  (Hs : consistent s) (Hlive : liveb 500 (line b) = true) :
  exists b1 s' b',
    Spec.send_observed s b = Ok b1 /\
    handlerSend s b = Ok (s', b') /\
    (state s' = LIN_STATE_FRAME \/ state s' = LIN_STATE_IDLE) /\
    (state s' = LIN_STATE_FRAME <->
     state s = LIN_STATE_BREAK /\ exists c q, rx_fifo b1 = c :: q /\ uint8 c = 0x00) /\
    (state s' = LIN_STATE_FRAME ->
     tx_log b' = tx_log b ++ firstn (Z.to_nat (lenTx s - 1)) (skipn 1 (bufTx s)) /\
     rate b' = baudrate s /\
     tasks b' = tasks b ++
                (if background s then [(wrapperReceive, 0, durationFrame s)] else [])) /\
    (state s' = LIN_STATE_IDLE ->
     tx_log b' = tx_log b /\ rate b' = rate b /\ tasks b' = tasks b).
Proof.
  unfold Spec.send_observed.
  destruct (status_eqb (state s) LIN_STATE_BREAK) eqn:Est.
  - apply status_eqb_eq in Est.
    destruct (wait_break_ok b 500 Hlive ltac:(lia)) as (b1 & Hw & _ & Hp & _).
    destruct Hp as (P1 & P2 & P3 & P4 & P5 & P6).
    exists b1. rewrite (handlerSend_exact s b b1 Hs Est Hw).
    unfold send_phase. destruct (rx_fifo b1) as [|c q] eqn:Eq.
    + eexists. eexists. split; [first [exact Hw | reflexivity]|]. split; [reflexivity|].
      split; [right; reflexivity|]. split.
      * split; [intros H; discriminate H | intros (_ & c & q & H & _); discriminate H].
      * split; [intros H; discriminate H|]. intros _. auto.
    + cbv zeta. destruct (uint8 c =? 0) eqn:Ec.
      * apply Z.eqb_eq in Ec.
        eexists. eexists. split; [first [exact Hw | reflexivity]|]. split; [reflexivity|].
        split; [left; reflexivity|]. split.
        -- split; [intros _; split; [exact Est | exists c, q; auto] | reflexivity].
        -- split; [|intros H; discriminate H]. intros _.
           destruct (background s); simpl; rewrite P1, P5, ?app_nil_r; auto.
      * apply Z.eqb_neq in Ec.
        eexists. eexists. split; [first [exact Hw | reflexivity]|]. split; [reflexivity|].
        split; [right; reflexivity|]. split.
        -- split; [intros H; discriminate H|].
           intros (_ & c' & q' & H & H'). injection H as <- <-. contradiction.
        -- split; [intros H; discriminate H|]. intros _. simpl. auto.
  - assert (Hne : state s <> LIN_STATE_BREAK).
    { intros H. apply status_eqb_eq in H. congruence. }
    exists b. rewrite (handlerSend_wrong_state s b Hs Hne).
    eexists. eexists. split; [first [exact Hw | reflexivity]|]. split; [reflexivity|].
    split; [right; reflexivity|]. split.
    + split; [intros H; discriminate H | intros [H _]; contradiction].
    + split; [intros H; discriminate H|]. intros _. auto.
Qed.

Lemma handlerSend_transmits_iff_break_echoed_witness :
  consistent Sample.in_flight /\
  liveb 500 (line (Sample.board Sample.silence)) = true /\
  exists s' b',
    handlerSend Sample.in_flight (Sample.board Sample.silence) = Ok (s', b') /\
    (state s' = LIN_STATE_FRAME \/ state s' = LIN_STATE_IDLE).
Proof.
  assert (Hl : liveb 500 (line (Sample.board Sample.silence)) = true)
    by (vm_compute; reflexivity).
  split; [exact in_flight_consistent|]. split; [exact Hl|].
  destruct (handlerSend_transmits_iff_break_echoed
              Sample.in_flight (Sample.board Sample.silence) in_flight_consistent Hl)
    as (b1 & s' & b' & _ & H & Hst & _).
  exists s', b'. split; [exact H | exact Hst].
Defined.

(** X7: [handlerReceive] wants exactly [lenRx - 1] bytes: when more
    than that are waiting in the port, it fails with [LIN_ERROR_TIMEOUT]
    once its 500 microseconds are over: the state is Idle, the first
    [lenRx] bytes of [bufRx] are zero and the other bytes of [bufRx] and
    [lenRx] as before; it calls no handler and leaves the bytes in the
    port. *)
Theorem surplus_bytes_time_out (s : LIN_Master) (b : Board)
  (Hs : consistent s) (Hst : state s = LIN_STATE_FRAME)
  (Hlive : liveb 500 (line b) = true)
  (Hmore : lenRx s - 1 < Serial.available b) :
  exists s' b',
    handlerReceive s b = Ok (s', b') /\
    failed LIN_ERROR_TIMEOUT s s' /\
    decoded b' = decoded b /\
    lenRx s - 1 < Serial.available b'.
Proof.
  destruct flag_bytes as (FS & FE & FT & FC).
  destruct (wait_frame_ok (lenRx s) b 500 Hlive ltac:(lia)) as (b1 & Hw & _ & Hp & _).
  destruct Hp as (P1 & P2 & P3 & P4 & P5 & P6).
  pose proof (busy_wait_fifo_grows _ _ _ _ Hw) as Hg.
  assert (Hav : lenRx s - 1 < Serial.available b1).
  { unfold Serial.available in *. lia. }
  rewrite (handlerReceive_exact s b b1 Hs Hst Hw). unfold receive_phase.
  replace (Serial.available b1 =? lenRx s - 1) with false
    by (symmetry; apply Z.eqb_neq; lia).
  cbn [negb]. eexists. eexists. split; [reflexivity|].
  split; [apply reverted_failed; [exact FT | apply (error_range s Hs)]|].
  split; [exact P6 | exact Hav].
Qed.

Lemma surplus_bytes_time_out_witness :
  consistent Fixture.expecting /\ state Fixture.expecting = LIN_STATE_FRAME /\
  liveb 500 (line Fixture.crowded) = true /\
  lenRx Fixture.expecting - 1 < Serial.available Fixture.crowded /\
  exists s' b',
    handlerReceive Fixture.expecting Fixture.crowded = Ok (s', b') /\
    failed LIN_ERROR_TIMEOUT Fixture.expecting s' /\
    bufRx s' = [0; 0; 0; 0; 0x02; 0xAC; 0; 0; 0; 0; 0; 0] /\
    Serial.available b' = 8.
Proof.
  assert (Hl : liveb 500 (line Fixture.crowded) = true) by (vm_compute; reflexivity).
  assert (Hm : lenRx Fixture.expecting - 1 < Serial.available Fixture.crowded)
    by (apply Z.ltb_lt; vm_compute; reflexivity).
  split; [exact expecting_consistent|]. split; [reflexivity|].
  split; [exact Hl|]. split; [exact Hm|].
  destruct (surplus_bytes_time_out Fixture.expecting Fixture.crowded
              expecting_consistent eq_refl Hl Hm) as (s' & b' & H1 & H2 & _).
  exists s', b'. split; [exact H1|]. split; [exact H2|].
  split.
  - destruct H2 as (_ & _ & _ & Hb). rewrite Hb. reflexivity.
  - vm_compute in H1. injection H1 as _ <-. reflexivity.
Defined.

(** X8: with [wrapperDefaultCallback] as the handler, [handlerReceive]
    writes to the array of the caller only when it accepts a slave
    response, and then exactly the received data bytes to its first
    [lenRx - 4] elements; on every other path the array is as it was. *)
Theorem copy_callback_writes_only_on_success (s : LIN_Master) (b : Board)
  (Hs : consistent s) (Hh : rx_handler s = wrapperDefaultCallback)
  (Hlive : liveb 500 (line b) = true) :
  exists b1 s' b',
    Spec.receive_observed s b = Ok b1 /\
    handlerReceive s b = Ok (s', b') /\
    length (dataPtr s') = length (dataPtr s) /\
    dataPtr s' =
    if Spec.is_slave_response s && Spec.response_accepted s b1
    then Spec.received_payload s b1 ++ skipn (Z.to_nat (lenRx s - 4)) (dataPtr s)
    else dataPtr s.
Proof.
  unfold Spec.receive_observed, Spec.response_accepted, Spec.is_slave_response.
  destruct (status_eqb (state s) LIN_STATE_FRAME) eqn:Est.
  - apply status_eqb_eq in Est.
    destruct (wait_frame_ok (lenRx s) b 500 Hlive ltac:(lia)) as (b1 & Hw & _ & _ & _).
    exists b1. rewrite (handlerReceive_exact s b b1 Hs Est Hw). unfold receive_phase.
    cbv zeta. cbn [andb].
    destruct (Serial.available b1 =? lenRx s - 1) eqn:Eav; cbn [negb].
    + destruct (frameType s) eqn:Eft.
      * destruct (Mem.bytes_eqb _ _); eexists; eexists;
          (split; [exact Hw|]); (split; [reflexivity|]); split; reflexivity.
      * destruct (Mem.bytes_eqb (firstn 3 (Spec.received_frame s b1)) (firstn 3 (bufTx s)));
          cbn [negb andb].
        -- destruct (nth (Z.to_nat (lenRx s - 1)) (Spec.received_frame s b1) 0
                     =? checksum (version s) (nth 2 (Spec.received_frame s b1) 0)
                                 (lenRx s - 4) (Spec.received_payload s b1));
             cbn [negb].
           ++ rewrite Hh. eexists. eexists. split; [first [exact Hw | reflexivity]|]. split; [reflexivity|].
              split; [|reflexivity].
              cbn [dataPtr set_state set_dataPtr].
              apply Z.eqb_eq in Eav.
              destruct (frame_lengths s Hs (or_intror Est)) as [_ H4].
              pose proof (received_payload_length s b1 H4 Eav) as Hpl.
              pose proof (handler_ready s Hs (or_intror Est) Eft) as Hr.
              rewrite Hh in Hr. cbn [callable] in Hr.
              rewrite length_app, length_skipn. lia.
           ++ eexists. eexists. split; [first [exact Hw | reflexivity]|]. split; [reflexivity|].
              split; reflexivity.
        -- eexists. eexists. split; [first [exact Hw | reflexivity]|]. split; [reflexivity|].
           split; reflexivity.
    + rewrite !andb_false_r. eexists. eexists. split; [first [exact Hw | reflexivity]|]. split; [reflexivity|].
      split; reflexivity.
  - assert (Hne : state s <> LIN_STATE_FRAME).
    { intros H. apply status_eqb_eq in H. congruence. }
    exists b. rewrite (handlerReceive_wrong_state s b Hs Hne).
    cbn [andb]. rewrite andb_false_r.
    eexists. eexists. split; [first [exact Hw | reflexivity]|]. split; [reflexivity|]. split; reflexivity.
Qed.

Lemma copy_callback_writes_only_on_success_witness :
  consistent Fixture.copying /\ rx_handler Fixture.copying = wrapperDefaultCallback /\
  liveb 500 (line (Sample.board Sample.answer)) = true /\
  exists s' b',
    handlerReceive Fixture.copying (Sample.board Sample.answer) = Ok (s', b') /\
    length (dataPtr s') = length (dataPtr Fixture.copying).
Proof.
  assert (Hl : liveb 500 (line (Sample.board Sample.answer)) = true)
    by (vm_compute; reflexivity).
  split; [exact copying_consistent|]. split; [reflexivity|]. split; [exact Hl|].
  destruct (copy_callback_writes_only_on_success Fixture.copying
              (Sample.board Sample.answer) copying_consistent eq_refl Hl)
    as (b1 & s' & b' & _ & H1 & H2 & _).
  exists s', b'. split; [exact H1 | exact H2].
Defined.

(** ** Calls out of turn *)

(** X9: [end()] does not stop a deferred call that is still pending:
    when [handlerSend] or [handlerReceive] runs on the engine that
    [end()] has put to Off, it touches nothing on the board, but moves
    the engine to Idle ([getState] is true again) with
    [LIN_ERROR_STATE] as its error. *)
Theorem pending_call_after_end (s : LIN_Master) (b : Board) (Hs : consistent s) :
  let s0 := fst (end_ s b) in
  let b0 := snd (end_ s b) in
  exists s1,
    handlerSend s0 b0 = Ok (s1, b0) /\
    handlerReceive s0 b0 = Ok (s1, b0) /\
    getState s0 = false /\
    state s1 = LIN_STATE_IDLE /\ getState s1 = true /\
    error s1 = LIN_ERROR_STATE.
Proof.
  cbv zeta.
  pose proof (end_consistent s b Hs) as C0.
  set (s0 := fst (end_ s b)) in *. set (b0 := snd (end_ s b)).
  assert (Hoff : state s0 = LIN_STATE_OFF) by reflexivity.
  exists (reverted LIN_ERROR_STATE s0).
  split; [apply handlerSend_wrong_state; [exact C0 | rewrite Hoff; discriminate]|].
  split; [apply handlerReceive_wrong_state; [exact C0 | rewrite Hoff; discriminate]|].
  split; [reflexivity|]. split; [reflexivity|]. split; [reflexivity|]. reflexivity.
Qed.

Lemma pending_call_after_end_witness :
  consistent Sample.in_flight /\
  exists s1,
    handlerSend (fst (end_ Sample.in_flight (Sample.board [])))
                (snd (end_ Sample.in_flight (Sample.board [])))
    = Ok (s1, snd (end_ Sample.in_flight (Sample.board []))) /\
    getState s1 = true.
Proof.
  split; [exact in_flight_consistent|].
  destruct (pending_call_after_end Sample.in_flight (Sample.board []) in_flight_consistent)
    as (s1 & H1 & _ & _ & _ & H2 & _).
  exists s1. split; [exact H1 | exact H2].
Defined.

Lemma lor_idem_flag e f : Z.lor (Z.lor e f) f = Z.lor e f.
Proof. rewrite <- Z.lor_assoc, Z.lor_diag. reflexivity. Qed.

(** X10: a request made while a frame is in flight is rejected and ends
    the transaction in flight as well: the handler that was pending, when
    it runs afterwards, finds the engine Idle, fails with
    [LIN_ERROR_STATE] and neither writes to the port nor calls the
    receive handler. *)
Theorem second_request_aborts_first
  (s : LIN_Master) (b : Board) (id numData : Z) (data : list Z) (h : decoder_t)
  (Hs : consistent s) (Hfl : in_flight s) :
  exists s1 s2,
    sendMasterRequest id numData data s b = Ok (Some LIN_ERROR_STATE, s1, b) /\
    receiveSlaveResponse id numData h s b = Ok (Some LIN_ERROR_STATE, s1, b) /\
    (forall b2 : Board,
        handlerSend s1 b2 = Ok (s2, b2) /\ handlerReceive s1 b2 = Ok (s2, b2)) /\
    state s2 = LIN_STATE_IDLE /\
    error s2 = Z.lor (error s) LIN_ERROR_STATE /\
    bufTx s2 = bufTx s.
Proof.
  destruct flag_bytes as (FS & _).
  assert (Hne : state s <> LIN_STATE_IDLE).
  { destruct Hfl as [H|H]; rewrite H; discriminate. }
  pose proof (reverted_consistent LIN_ERROR_STATE s FS Hs) as C1.
  exists (reverted LIN_ERROR_STATE s), (reverted LIN_ERROR_STATE (reverted LIN_ERROR_STATE s)).
  split; [apply request_rejected_send; assumption|].
  split; [apply request_rejected_receive; assumption|].
  split.
  - intros b2. split.
    + apply handlerSend_wrong_state; [exact C1 | discriminate].
    + apply handlerReceive_wrong_state; [exact C1 | discriminate].
  - split; [reflexivity|]. split; [|reflexivity].
    rewrite !reverted_error by assumption. apply lor_idem_flag.
Qed.

Lemma second_request_aborts_first_witness :
  consistent Sample.in_flight /\ in_flight Sample.in_flight /\
  exists s1 s2,
    sendMasterRequest 0x11 1 [0x09] Sample.in_flight (Sample.board [])
    = Ok (Some LIN_ERROR_STATE, s1, Sample.board []) /\
    handlerSend s1 (Sample.board []) = Ok (s2, Sample.board []) /\
    error s2 = Z.lor (error Sample.in_flight) LIN_ERROR_STATE.
Proof.
  assert (Hfl : in_flight Sample.in_flight) by (left; reflexivity).
  split; [exact in_flight_consistent|]. split; [exact Hfl|].
  destruct (second_request_aborts_first Sample.in_flight (Sample.board []) 0x11 1 [0x09]
              null_decoder in_flight_consistent Hfl)
    as (s1 & s2 & H1 & _ & H2 & _ & H3 & _).
  exists s1, s2. split; [exact H1|]. split; [exact (proj1 (H2 (Sample.board []))) | exact H3].
Defined.

(** X11: a request accepted in Idle first empties the receive queue of
    the port: whatever bytes were left in it, the request does what it
    does on an empty queue. *)
Theorem request_discards_stale_bytes
  (s : LIN_Master) (b : Board) (id numData : Z) (data : list Z) (h : decoder_t)
  (stale : list Z) (Hidle : state s = LIN_STATE_IDLE) :
  sendMasterRequest id numData data s (set_rx_fifo b stale)
  = sendMasterRequest id numData data s (set_rx_fifo b []) /\
  receiveSlaveResponse id numData h s (set_rx_fifo b stale)
  = receiveSlaveResponse id numData h s (set_rx_fifo b []).
Proof.
  assert (Hd : Serial.drain (set_rx_fifo b stale) = Serial.drain (set_rx_fifo b [])).
  { rewrite !drain_empty. reflexivity. }
  unfold sendMasterRequest, receiveSlaveResponse. rewrite Hidle. cbn [status_eqb negb].
  cbv zeta. rewrite Hd. split; reflexivity.
Qed.

Lemma request_discards_stale_bytes_witness :
  state Sample.fresh = LIN_STATE_IDLE /\
  sendMasterRequest 0x10 2 [0x01; 0x02] Sample.fresh
    (set_rx_fifo (Sample.board []) [0xAA; 0xBB])
  = sendMasterRequest 0x10 2 [0x01; 0x02] Sample.fresh (set_rx_fifo (Sample.board []) []).
Proof.
  split; [reflexivity|].
  exact (proj1 (request_discards_stale_bytes Sample.fresh (Sample.board []) 0x10 2
                  [0x01; 0x02] null_decoder [0xAA; 0xBB] eq_refl)).
Defined.

(** X12: in background operation an accepted request returns without
    waiting: no time passes and nothing is received; the engine is in
    [LIN_STATE_BREAK] with its error unchanged, the break byte 0x00 has
    been written at half the baud rate, and one call of [wrapperSend] is
    registered with the delay [durationBreak]. *)
Theorem background_request_returns_at_once
  (s : LIN_Master) (b : Board) (id numData : Z) (data : list Z) (h : decoder_t)
  (Hs : consistent s) (Hidle : state s = LIN_STATE_IDLE) (Hbg : background s = true)
  (Hn : 0 <= numData <= 8) (Hd : numData <= Z.of_nat (length data)) :
  exists s1 s2 b',
    sendMasterRequest id numData data s b = Ok (None, s1, b') /\
    receiveSlaveResponse id numData h s b = Ok (None, s2, b') /\
    state s1 = LIN_STATE_BREAK /\ state s2 = LIN_STATE_BREAK /\
    error s1 = error s /\ error s2 = error s /\
    clock b' = clock b /\ line b' = line b /\ rx_fifo b' = [] /\
    tx_log b' = tx_log b ++ [0x00] /\ rate b' = baudrate s / 2 /\
    tasks b' = tasks b ++ [(wrapperSend, 0, durationBreak s)] /\
    decoded b' = decoded b.
Proof.
  rewrite (sendMasterRequest_accepted id numData data s b Hs Hidle Hn Hd).
  rewrite (receiveSlaveResponse_accepted id numData h s b Hs Hidle Hn).
  cbv zeta. rewrite Hbg.
  eexists. eexists. eexists. split; [reflexivity|]. split; [reflexivity|].
  repeat split; reflexivity.
Qed.

Lemma background_request_returns_at_once_witness :
  consistent Sample.fresh /\ state Sample.fresh = LIN_STATE_IDLE /\
  background Sample.fresh = true /\ 0 <= 2 <= 8 /\
  2 <= Z.of_nat (length [0x01; 0x02]) /\
  exists s1 b',
    sendMasterRequest 0x10 2 [0x01; 0x02] Sample.fresh (Sample.board Sample.silence)
    = Ok (None, s1, b') /\
    line b' = line (Sample.board Sample.silence).
Proof.
  assert (Hn : 0 <= 2 <= 8) by lia.
  assert (Hd : 2 <= Z.of_nat (length [0x01; 0x02])) by (simpl; lia).
  split; [exact fresh_consistent|]. split; [reflexivity|]. split; [reflexivity|].
  split; [exact Hn|]. split; [exact Hd|].
  destruct (background_request_returns_at_once Sample.fresh (Sample.board Sample.silence)
              0x10 2 [0x01; 0x02] null_decoder fresh_consistent eq_refl eq_refl Hn Hd)
    as (s1 & s2 & b' & H1 & _ & _ & _ & _ & _ & _ & H2 & _).
  exists s1, b'. split; [exact H1 | exact H2].
Defined.

(** ** Requests in blocking operation *)

Lemma receive_phase_outcome s b1 :
  consistent s -> state s = LIN_STATE_FRAME ->
  state (fst (receive_phase s b1)) = LIN_STATE_IDLE /\
  tx_log (snd (receive_phase s b1)) = tx_log b1 /\
  (error (fst (receive_phase s b1)) = error s \/
   exists f, is_receive_flag (frameType s) f /\
             error (fst (receive_phase s b1)) = Z.lor (error s) f /\
             decoded (snd (receive_phase s b1)) = decoded b1).
Proof.
  intros C Hst. destruct flag_bytes as (FS & FE & FT & FC).
  pose proof (error_range s C) as He.
  assert (Hr : forall f buf, is_byte f ->
            error (reverted f (set_bufRx s buf)) = Z.lor (error s) f).
  { intros f buf Hf. simpl. rewrite !uint8_byte by assumption. reflexivity. }
  unfold receive_phase, is_receive_flag.
  destruct (Serial.available b1 =? lenRx s - 1); cbn [negb].
  - cbv zeta. destruct (frameType s) eqn:Eft.
    + destruct (Mem.bytes_eqb _ _).
      * split; [reflexivity|]. split; [reflexivity|]. left. reflexivity.
      * split; [reflexivity|]. split; [reflexivity|]. right.
        exists LIN_ERROR_ECHO. split; [auto|]. split; [apply Hr; exact FE | reflexivity].
    + destruct (Mem.bytes_eqb _ _); cbn [negb].
      * destruct (_ =? _); cbn [negb].
        -- split; [reflexivity|]. split; [reflexivity|]. left.
           destruct (rx_handler s); reflexivity.
        -- split; [reflexivity|]. split; [reflexivity|]. right.
           exists LIN_ERROR_CHK. split; [auto|]. split; [apply Hr; exact FC | reflexivity].
      * split; [reflexivity|]. split; [reflexivity|]. right.
        exists LIN_ERROR_ECHO. split; [auto|]. split; [apply Hr; exact FE | reflexivity].
  - split; [reflexivity|]. split; [reflexivity|]. right.
    exists LIN_ERROR_TIMEOUT. split; [auto|]. split; [|reflexivity].
    simpl. rewrite !uint8_byte by assumption. reflexivity.
Qed.

Section Blocking.

(** What a blocking request does between its two handlers: [flush], or
    the wait for the response of the slave. *)
Variable between : LIN_Master -> Board -> res Board.
Variables D K : Z.

Hypothesis between_ok :
  forall (s : LIN_Master) (b : Board) (n : Z),
    durationFrame s = D -> liveb n (line b) = true -> K <= n ->
    exists b', between s b = Ok b' /\ liveb (n - K) (line b') = true /\ same_port b b'.

Lemma blocking_request_tail (s1 : LIN_Master) (b1 : Board) (n : Z) :
  consistent s1 -> state s1 = LIN_STATE_BREAK -> durationFrame s1 = D ->
  liveb n (line b1) = true -> 1001 + K <= n -> 0 <= K ->
  exists s' b',
    (b <- flush b1 ;;
     ' (s, b) <- handlerSend s1 b ;;
     b <- between s b ;;
     ' (s, b) <- handlerReceive s b ;;
     Ok (@None Z, s, b)) = Ok (None, s', b') /\
    blocking_outcome s1 b1 s' b' /\
    (silentb (line b1) = true -> rx_fifo b1 = [] ->
     tx_log b' = tx_log b1 /\
     error s' = Z.lor (Z.lor (error s1) LIN_ERROR_TIMEOUT) LIN_ERROR_STATE).
Proof.
  intros C Hst HD Hl Hn HK. destruct flag_bytes as (FS & FE & FT & FC).
  destruct (flush_ok b1 n Hl ltac:(lia)) as (b2 & Hf & Hl2 & P2).
  rewrite Hf. cbn [bind].
  destruct (wait_break_ok b2 (n - 1) Hl2 ltac:(lia)) as (b3 & Hw & Hl3 & P3 & _).
  rewrite (handlerSend_exact s1 b2 b3 C Hst Hw).
  pose proof (send_phase_consistent s1 b3 C Hst) as C2.
  pose proof (same_port_trans _ _ _ P2 P3) as P13.
  assert (Hsil : silentb (line b1) = true -> rx_fifo b1 = [] -> rx_fifo b3 = []).
  { intros Hs Hq. destruct (flush_silent b1 b2 Hs Hf) as [Q2 S2].
    destruct (busy_wait_silent _ _ _ _ S2 eq_refl Hw) as [Q3 _]. congruence. }
  unfold blocking_outcome.
  unfold send_phase in *. destruct (rx_fifo b3) as [|c q] eqn:Eq.
  - (* the break is not read back *)
    cbn [bind fst] in *.
    destruct (between_ok (reverted LIN_ERROR_TIMEOUT s1) b3 (n - 1 - 500) HD Hl3 ltac:(lia)) as (b4 & Hb & Hl4 & P4).
    rewrite Hb. cbn [bind].
    rewrite handlerReceive_wrong_state by (try exact C2; discriminate).
    cbn [bind]. eexists. eexists. split; [reflexivity|].
    pose proof (same_port_trans _ _ _ P13 P4) as P.
    destruct P as (T1 & _ & _ & _ & T5 & T6).
    assert (E : error (reverted LIN_ERROR_STATE (reverted LIN_ERROR_TIMEOUT s1))
                = Z.lor (Z.lor (error s1) LIN_ERROR_TIMEOUT) LIN_ERROR_STATE).
    { rewrite !reverted_error by assumption. reflexivity. }
    split.
    + split; [reflexivity|]. right. split; [exact T1|]. split; [exact T6|].
      exists LIN_ERROR_TIMEOUT. split; [left; reflexivity | exact E].
    + intros _ _. split; [exact T1 | exact E].
  - cbv zeta in *. destruct (uint8 c =? 0) eqn:Ec.
    + (* the rest of the frame is written *)
      cbn [fst] in C2.
      set (s2 := set_state (set_bufRx s1 (uint8 c :: skipn 1 (bufRx s1))) LIN_STATE_FRAME) in *.
      set (b4 := if background s1 then _ else _).
      assert (Hl4 : liveb (n - 1 - 500) (line b4) = true).
      { unfold b4. destruct (background s1); exact Hl3. }
      assert (T4 : tx_log b4 = tx_log b1 ++ firstn (Z.to_nat (lenTx s1 - 1)) (skipn 1 (bufTx s1))
                   /\ decoded b4 = decoded b1).
      { destruct P13 as (T1 & _ & _ & _ & _ & T6).
        unfold b4. destruct (background s1); simpl; rewrite T1, T6; split; reflexivity. }
      cbn [bind].
      destruct (between_ok s2 b4 (n - 1 - 500) HD Hl4 ltac:(lia)) as (b5 & Hb & Hl5 & P5).
      rewrite Hb. cbn [bind].
      destruct (wait_frame_ok (lenRx s2) b5 (n - 1 - 500 - K) Hl5 ltac:(lia))
        as (b6 & Hw6 & _ & P6 & _).
      rewrite (handlerReceive_exact s2 b5 b6 C2 eq_refl Hw6).
      destruct (receive_phase_outcome s2 b6 C2 eq_refl) as (R1 & R2 & R3).
      destruct (receive_phase s2 b6) as [s' b'] eqn:Er. cbn [fst snd] in *.
      cbn [bind]. exists s', b'. split; [reflexivity|].
      pose proof (same_port_trans _ _ _ P5 P6) as P.
      destruct P as (U1 & _ & _ & _ & _ & U6). destruct T4 as [T4 T4'].
      split.
      * split; [exact R1|]. left. split; [congruence|].
        destruct R3 as [R3 | (f & Hf1 & Hf2 & Hf3)]; [left; exact R3|].
        right. exists f. split; [exact Hf1|]. split; [exact Hf2|]. congruence.
      * intros Hs Hq. discriminate (Hsil Hs Hq).
    + (* the echo of the break is wrong *)
      cbn [bind fst] in *.
      destruct (between_ok (reverted LIN_ERROR_ECHO (set_bufRx s1 (uint8 c :: skipn 1 (bufRx s1)))) (set_rx_fifo b3 q) (n - 1 - 500) HD Hl3 ltac:(lia))
        as (b4 & Hb & Hl4 & P4).
      rewrite Hb. cbn [bind].
      rewrite handlerReceive_wrong_state by (try exact C2; discriminate).
      cbn [bind]. eexists. eexists. split; [reflexivity|].
      destruct P13 as (T1 & _ & _ & _ & _ & T6).
      destruct P4 as (V1 & _ & _ & _ & _ & V6). simpl in V1, V6.
      split.
      * split; [reflexivity|]. right. split; [congruence|]. split; [congruence|].
        exists LIN_ERROR_ECHO. split; [right; reflexivity|].
        pose proof (error_range s1 C) as He.
        simpl. rewrite (uint8_byte (error s1) He), (uint8_byte _ FE), (uint8_byte _ FS).
        rewrite uint8_byte by (apply lor_byte; assumption). reflexivity.
      * intros Hs Hq. discriminate (Hsil Hs Hq).
Qed.

End Blocking.

Lemma break_written_board s b :
  line (break_written s b) = line b /\ rx_fifo (break_written s b) = [] /\
  tx_log (break_written s b) = tx_log b ++ [0x00] /\
  decoded (break_written s b) = decoded b /\ tasks (break_written s b) = tasks b.
Proof. repeat split; reflexivity. Qed.

Lemma request_frame_written v id numData data tail :
  0 <= numData <= Z.of_nat (length data) ->
  [0x00] ++ firstn (Z.to_nat (numData + 4 - 1))
                   (skipn 1 (request_frame v id numData data ++ tail))
  = request_frame v id numData data.
Proof.
  intros Hn. unfold request_frame. cbn [skipn app].
  f_equal.
  apply (firstn_app_exact
           (0x55 :: protectID id :: firstn (Z.to_nat numData) data
              ++ [checksum v (protectID id) numData data]) tail).
  cbn [length]. rewrite length_app, length_firstn. cbn [length]. lia.
Qed.

(** X13: how a request in blocking operation can end.  Either the whole
    frame (master request) or header (slave response) was written, and
    the error is unchanged or has gained one of [LIN_ERROR_ECHO],
    [LIN_ERROR_TIMEOUT] and, for a slave response, [LIN_ERROR_CHK]; or
    only the break was written, and the error has gained
    [LIN_ERROR_TIMEOUT] or [LIN_ERROR_ECHO] together with
    [LIN_ERROR_STATE], which the receive handler adds when it is called
    after the send handler has failed. *)
Theorem blocking_request_error_codes
  (s : LIN_Master) (b : Board) (id numData : Z) (data : list Z) (h : decoder_t)
  (Hs : consistent s) (Hidle : state s = LIN_STATE_IDLE) (Hbl : background s = false)
  (Hlive : liveb (polls_needed s) (line b) = true)
  (Hn : 0 <= numData <= 8) (Hd : numData <= Z.of_nat (length data))
  (Hbytes : Forall is_byte data) (Hh : callable h numData s) :
  (exists s' b',
      sendMasterRequest id numData data s b = Ok (None, s', b') /\
      state s' = LIN_STATE_IDLE /\
      ((tx_log b' = tx_log b ++ request_frame (version s) id numData data /\
        (error s' = error s \/
         error s' = Z.lor (error s) LIN_ERROR_ECHO \/
         error s' = Z.lor (error s) LIN_ERROR_TIMEOUT))
       \/ (tx_log b' = tx_log b ++ [0x00] /\
           (error s' = Z.lor (Z.lor (error s) LIN_ERROR_TIMEOUT) LIN_ERROR_STATE \/
            error s' = Z.lor (Z.lor (error s) LIN_ERROR_ECHO) LIN_ERROR_STATE)))) /\
  (exists s' b',
      receiveSlaveResponse id numData h s b = Ok (None, s', b') /\
      state s' = LIN_STATE_IDLE /\
      ((tx_log b' = tx_log b ++ header_frame id /\
        (error s' = error s \/
         error s' = Z.lor (error s) LIN_ERROR_ECHO \/
         error s' = Z.lor (error s) LIN_ERROR_TIMEOUT \/
         error s' = Z.lor (error s) LIN_ERROR_CHK))
       \/ (tx_log b' = tx_log b ++ [0x00] /\ decoded b' = decoded b /\
           (error s' = Z.lor (Z.lor (error s) LIN_ERROR_TIMEOUT) LIN_ERROR_STATE \/
            error s' = Z.lor (Z.lor (error s) LIN_ERROR_ECHO) LIN_ERROR_STATE)))).
Proof.
  destruct (polls_needed_bounds s Hs) as (B1 & B2 & _).
  destruct (break_written_board s b) as (W1 & W2 & W3 & W4 & W5).
  pose proof (duration_range s Hs) as [_ HdF]. unfold is_byte in HdF.
  split.
  - rewrite (sendMasterRequest_accepted id numData data s b Hs Hidle Hn Hd).
    cbv zeta. rewrite Hbl.
    destruct (blocking_request_tail (fun _ b => flush b) (durationFrame s) 1) with
      (s1 := master_request_started id numData data s) (b1 := break_written s b)
      (n := polls_needed s) as (s' & b' & Hrun & (Hst & Hout) & _).
    + intros s0 b0 n _ Hl Hk. apply flush_ok; assumption.
    + apply master_request_started_consistent; assumption.
    + reflexivity.
    + reflexivity.
    + rewrite W1. exact Hlive.
    + lia.
    + lia.
    + exists s', b'. split; [exact Hrun|]. split; [exact Hst|].
      change (error (master_request_started id numData data s)) with (error s) in Hout.
      destruct Hout as [(T & E) | (T & _ & f & Hf & E)].
      * left. split.
        -- rewrite T, W3, <- app_assoc. f_equal.
           apply request_frame_written. lia.
        -- destruct E as [E | (f & Hf & E & _)]; [left; exact E|].
           destruct Hf as [-> | [-> | [Hf _]]]; [right; left; exact E | right; right; exact E | discriminate Hf].
      * right. split; [rewrite T; exact W3|].
        destruct Hf as [-> | ->]; [left | right]; exact E.
  - rewrite (receiveSlaveResponse_accepted id numData h s b Hs Hidle Hn).
    cbv zeta. rewrite Hbl.
    destruct (blocking_request_tail
                (fun s b => response_wait (lenRx s) (durationFrame s) b)
                (durationFrame s) (1000 * durationFrame s)) with
      (s1 := slave_response_started id numData h s) (b1 := break_written s b)
      (n := polls_needed s) as (s' & b' & Hrun & (Hst & Hout) & _).
    + intros s0 b0 n E Hl Hk. rewrite E.
      destruct (wait_response_ok (lenRx s0) (durationFrame s) b0 n ltac:(lia) Hl Hk)
        as (b9 & H1 & H2 & H3 & _).
      exists b9. auto.
    + apply slave_response_started_consistent; assumption.
    + reflexivity.
    + reflexivity.
    + rewrite W1. exact Hlive.
    + lia.
    + lia.
    + exists s', b'. split; [exact Hrun|]. split; [exact Hst|].
      change (error (slave_response_started id numData h s)) with (error s) in Hout.
      destruct Hout as [(T & E) | (T & Dc & f & Hf & E)].
      * left. split.
        -- rewrite T, W3, <- app_assoc. f_equal.
        -- destruct E as [E | (f & Hf & E & _)]; [left; exact E|].
           destruct Hf as [-> | [-> | [_ ->]]]; auto.
      * right. split; [rewrite T; exact W3|]. split; [rewrite Dc; exact W4|].
        destruct Hf as [-> | ->]; [left | right]; exact E.
Qed.

Lemma blocking_request_error_codes_witness :
  consistent Fixture.blocking /\ state Fixture.blocking = LIN_STATE_IDLE /\
  background Fixture.blocking = false /\
  liveb (polls_needed Fixture.blocking) (line (Sample.board Sample.silence)) = true /\
  0 <= 2 <= 8 /\ 2 <= Z.of_nat (length [0x01; 0x02]) /\
  Forall is_byte [0x01; 0x02] /\
  callable (user_decoder 0) 2 Fixture.blocking /\
  exists s' b',
    sendMasterRequest 0x10 2 [0x01; 0x02] Fixture.blocking (Sample.board Sample.silence)
    = Ok (None, s', b') /\
    state s' = LIN_STATE_IDLE.
Proof.
  assert (Hl : liveb (polls_needed Fixture.blocking) (line (Sample.board Sample.silence)) = true)
    by (vm_compute; reflexivity).
  assert (Hn : 0 <= 2 <= 8) by lia.
  assert (Hd : 2 <= Z.of_nat (length [0x01; 0x02])) by (simpl; lia).
  split; [exact blocking_consistent|]. split; [reflexivity|]. split; [reflexivity|].
  assert (Hb : Forall is_byte [0x01; 0x02]) by (repeat constructor; unfold is_byte; lia).
  split; [exact Hl|]. split; [exact Hn|]. split; [exact Hd|]. split; [exact Hb|].
  split; [exact I|].
  destruct (blocking_request_error_codes Fixture.blocking (Sample.board Sample.silence)
              0x10 2 [0x01; 0x02] (user_decoder 0) blocking_consistent eq_refl eq_refl
              Hl Hn Hd Hb I) as [(s' & b' & H1 & H2 & _) _].
  exists s', b'. split; [exact H1 | exact H2].
Defined.

(** X14: on a bus on which nothing is ever received, a request in
    blocking operation returns with the engine Idle, only the break
    written, and both [LIN_ERROR_TIMEOUT] and [LIN_ERROR_STATE] added to
    the error. *)
Theorem silent_bus_times_out
  (s : LIN_Master) (b : Board) (id numData : Z) (data : list Z) (h : decoder_t)
  (Hs : consistent s) (Hidle : state s = LIN_STATE_IDLE) (Hbl : background s = false)
  (Hlive : liveb (polls_needed s) (line b) = true)
  (Hsilent : silentb (line b) = true)
  (Hn : 0 <= numData <= 8) (Hd : numData <= Z.of_nat (length data))
  (Hh : callable h numData s) :
  (exists s' b',
      sendMasterRequest id numData data s b = Ok (None, s', b') /\
      state s' = LIN_STATE_IDLE /\
      error s' = Z.lor (Z.lor (error s) LIN_ERROR_TIMEOUT) LIN_ERROR_STATE /\
      tx_log b' = tx_log b ++ [0x00]) /\
  (exists s' b',
      receiveSlaveResponse id numData h s b = Ok (None, s', b') /\
      state s' = LIN_STATE_IDLE /\
      error s' = Z.lor (Z.lor (error s) LIN_ERROR_TIMEOUT) LIN_ERROR_STATE /\
      tx_log b' = tx_log b ++ [0x00] /\ decoded b' = decoded b).
Proof.
  destruct (polls_needed_bounds s Hs) as (B1 & B2 & _).
  destruct (break_written_board s b) as (W1 & W2 & W3 & W4 & W5).
  pose proof (duration_range s Hs) as [_ HdF]. unfold is_byte in HdF.
  split.
  - rewrite (sendMasterRequest_accepted id numData data s b Hs Hidle Hn Hd).
    cbv zeta. rewrite Hbl.
    destruct (blocking_request_tail (fun _ b => flush b) (durationFrame s) 1) with
      (s1 := master_request_started id numData data s) (b1 := break_written s b)
      (n := polls_needed s) as (s' & b' & Hrun & (Hst & _) & Hsil).
    + intros s0 b0 n _ Hl Hk. apply flush_ok; assumption.
    + apply master_request_started_consistent; assumption.
    + reflexivity.
    + reflexivity.
    + rewrite W1. exact Hlive.
    + lia.
    + lia.
    + exists s', b'. split; [exact Hrun|]. split; [exact Hst|].
      destruct Hsil as [T E]; [rewrite W1; exact Hsilent | exact W2 |].
      split; [exact E | rewrite T; exact W3].
  - rewrite (receiveSlaveResponse_accepted id numData h s b Hs Hidle Hn).
    cbv zeta. rewrite Hbl.
    destruct (blocking_request_tail
                (fun s b => response_wait (lenRx s) (durationFrame s) b)
                (durationFrame s) (1000 * durationFrame s)) with
      (s1 := slave_response_started id numData h s) (b1 := break_written s b)
      (n := polls_needed s) as (s' & b' & Hrun & (Hst & Hout) & Hsil).
    + intros s0 b0 n E Hl Hk. rewrite E.
      destruct (wait_response_ok (lenRx s0) (durationFrame s) b0 n ltac:(lia) Hl Hk)
        as (b9 & H1 & H2 & H3 & _).
      exists b9. auto.
    + apply slave_response_started_consistent; assumption.
    + reflexivity.
    + reflexivity.
    + rewrite W1. exact Hlive.
    + lia.
    + lia.
    + exists s', b'. split; [exact Hrun|]. split; [exact Hst|].
      destruct Hsil as [T E]; [rewrite W1; exact Hsilent | exact W2 |].
      split; [exact E|]. split; [rewrite T; exact W3|].
      destruct Hout as [(T' & _) | (_ & Dc & _)].
      * exfalso. rewrite T in T'.
        apply (f_equal (@length Z)) in T'. rewrite length_app in T'.
        change (lenTx (slave_response_started id numData h s)) with 3 in T'.
        change (bufTx (slave_response_started id numData h s))
          with (header_frame id ++ skipn 3 (bufTx s)) in T'.
        change (firstn (Z.to_nat (3 - 1)) (skipn 1 (header_frame id ++ skipn 3 (bufTx s))))
          with [0x55; protectID id] in T'.
        cbn [length] in T'. lia.
      * rewrite Dc. exact W4.
Qed.

Lemma silent_bus_times_out_witness :
  consistent Fixture.blocking /\ state Fixture.blocking = LIN_STATE_IDLE /\
  background Fixture.blocking = false /\
  liveb (polls_needed Fixture.blocking) (line (Sample.board Sample.silence)) = true /\
  silentb (line (Sample.board Sample.silence)) = true /\
  0 <= 2 <= 8 /\ 2 <= Z.of_nat (length [0x01; 0x02]) /\
  callable (user_decoder 0) 2 Fixture.blocking /\
  exists s' b',
    sendMasterRequest 0x10 2 [0x01; 0x02] Fixture.blocking (Sample.board Sample.silence)
    = Ok (None, s', b') /\
    error s' = Z.lor (Z.lor (error Fixture.blocking) LIN_ERROR_TIMEOUT) LIN_ERROR_STATE.
Proof.
  assert (Hl : liveb (polls_needed Fixture.blocking) (line (Sample.board Sample.silence)) = true)
    by (vm_compute; reflexivity).
  assert (Hq : silentb (line (Sample.board Sample.silence)) = true)
    by (vm_compute; reflexivity).
  assert (Hn : 0 <= 2 <= 8) by lia.
  assert (Hd : 2 <= Z.of_nat (length [0x01; 0x02])) by (simpl; lia).
  split; [exact blocking_consistent|]. split; [reflexivity|]. split; [reflexivity|].
  split; [exact Hl|]. split; [exact Hq|]. split; [exact Hn|]. split; [exact Hd|].
  split; [exact I|].
  destruct (silent_bus_times_out Fixture.blocking (Sample.board Sample.silence)
              0x10 2 [0x01; 0x02] (user_decoder 0) blocking_consistent eq_refl eq_refl
              Hl Hq Hn Hd I) as [(s' & b' & H1 & _ & H2 & _) _].
  exists s', b'. split; [exact H1 | exact H2].
Defined.

(** X15: an engine that is Off (never begun, or ended) rejects a
    request with [LIN_ERROR_STATE], but the rejection itself puts it to
    Idle: the same request made again is accepted, without [begin]. *)
Theorem off_engine_accepts_second_request
  (s : LIN_Master) (b : Board) (id numData : Z) (data : list Z) (h : decoder_t)
  (Hs : consistent s) (Hoff : state s = LIN_STATE_OFF)
  (Hlive : liveb (polls_needed s) (line b) = true)
  (Hn : 0 <= numData <= 8) (Hd : numData <= Z.of_nat (length data))
  (Hh : callable h numData s) :
  exists s1,
    sendMasterRequest id numData data s b = Ok (Some LIN_ERROR_STATE, s1, b) /\
    receiveSlaveResponse id numData h s b = Ok (Some LIN_ERROR_STATE, s1, b) /\
    getState s = false /\ getState s1 = true /\ state s1 = LIN_STATE_IDLE /\
    (exists s2 b2, sendMasterRequest id numData data s1 b = Ok (None, s2, b2)) /\
    (exists s2 b2, receiveSlaveResponse id numData h s1 b = Ok (None, s2, b2)).
Proof.
  destruct flag_bytes as (FS & _).
  assert (Hne : state s <> LIN_STATE_IDLE) by (rewrite Hoff; discriminate).
  pose proof (reverted_consistent LIN_ERROR_STATE s FS Hs) as C1.
  exists (reverted LIN_ERROR_STATE s).
  split; [apply request_rejected_send; assumption|].
  split; [apply request_rejected_receive; assumption|].
  split; [unfold getState; rewrite Hoff; reflexivity|].
  split; [reflexivity|]. split; [reflexivity|].
  assert (Hh1 : callable h numData (reverted LIN_ERROR_STATE s)) by (destruct h; exact Hh).
  split.
  - destruct (sendMasterRequest_outcome id numData data (reverted LIN_ERROR_STATE s) b
                C1 Hlive Hn Hd) as (r & s2 & b2 & Hrun & Hcase).
    exists s2, b2. rewrite Hrun.
    destruct Hcase as [(H & _) | [(_ & -> & _) | (_ & -> & _)]];
      [exfalso; apply H; reflexivity | reflexivity | reflexivity].
  - destruct (receiveSlaveResponse_outcome id numData h (reverted LIN_ERROR_STATE s) b
                C1 Hlive Hn Hh1) as (r & s2 & b2 & Hrun & Hcase).
    exists s2, b2. rewrite Hrun.
    destruct Hcase as [(H & _) | [(_ & -> & _) | (_ & -> & _)]];
      [exfalso; apply H; reflexivity | reflexivity | reflexivity].
Qed.

Lemma off_engine_accepts_second_request_witness :
  consistent LIN_Master_N /\ state LIN_Master_N = LIN_STATE_OFF /\
  liveb (polls_needed LIN_Master_N) (line (Sample.board Sample.silence)) = true /\
  0 <= 2 <= 8 /\ 2 <= Z.of_nat (length [0x01; 0x02]) /\
  callable (user_decoder 0) 2 LIN_Master_N /\
  exists s1,
    sendMasterRequest 0x10 2 [0x01; 0x02] LIN_Master_N (Sample.board Sample.silence)
    = Ok (Some LIN_ERROR_STATE, s1, Sample.board Sample.silence) /\
    exists s2 b2,
      sendMasterRequest 0x10 2 [0x01; 0x02] s1 (Sample.board Sample.silence)
      = Ok (None, s2, b2).
Proof.
  assert (Hl : liveb (polls_needed LIN_Master_N) (line (Sample.board Sample.silence)) = true)
    by (vm_compute; reflexivity).
  assert (Hn : 0 <= 2 <= 8) by lia.
  assert (Hd : 2 <= Z.of_nat (length [0x01; 0x02])) by (simpl; lia).
  split; [exact LIN_Master_N_consistent|]. split; [reflexivity|].
  split; [exact Hl|]. split; [exact Hn|]. split; [exact Hd|]. split; [exact I|].
  destruct (off_engine_accepts_second_request LIN_Master_N (Sample.board Sample.silence)
              0x10 2 [0x01; 0x02] (user_decoder 0) LIN_Master_N_consistent eq_refl
              Hl Hn Hd I) as (s1 & H1 & _ & _ & _ & _ & H2 & _).
  exists s1. split; [exact H1 | exact H2].
Defined.

(** X16: [begin] makes the engine ready whatever state it was in: a
    master request that follows [begin(Baudrate, Version, true)] is
    accepted with no error latched, writes the break at half of the 16
    bit baud rate, and registers [wrapperSend] with a delay of 2 ms below
    12000 baud and 1 ms otherwise (the frame duration being 13 ms and
    7 ms); calls registered before are still registered. *)
Theorem begin_readies_engine
  (Baudrate : Z) (Version : LIN_version_t) (s : LIN_Master) (b : Board)
  (id numData : Z) (data : list Z)
  (Hs : consistent s)
  (Hn : 0 <= numData <= 8) (Hd : numData <= Z.of_nat (length data)) :
  let s0 := fst (begin Baudrate Version true s b) in
  let b0 := snd (begin Baudrate Version true s b) in
  exists s1 b1,
    sendMasterRequest id numData data s0 b0 = Ok (None, s1, b1) /\
    state s1 = LIN_STATE_BREAK /\ error s1 = LIN_SUCCESS /\
    rate b1 = uint16 Baudrate / 2 /\
    tx_log b1 = tx_log b ++ [0x00] /\
    tasks b1 = tasks b ++ [(wrapperSend, 0, if uint16 Baudrate <? 12000 then 2 else 1)] /\
    durationFrame s1 = (if uint16 Baudrate <? 12000 then 13 else 7).
Proof.
  cbv zeta.
  pose proof (begin_consistent Baudrate Version true s b Hs) as C0.
  rewrite (sendMasterRequest_accepted id numData data _ _ C0).
  - unfold begin. destruct (uint16 Baudrate <? 12000);
      (eexists; eexists; split; [reflexivity|]; repeat split; reflexivity).
  - unfold begin. destruct (uint16 Baudrate <? 12000); reflexivity.
  - exact Hn.
  - exact Hd.
Qed.

Lemma begin_readies_engine_witness :
  consistent Sample.in_flight /\ 0 <= 2 <= 8 /\ 2 <= Z.of_nat (length [0x01; 0x02]) /\
  exists s1 b1,
    sendMasterRequest 0x10 2 [0x01; 0x02]
      (fst (begin 9600 LIN_V2 true Sample.in_flight (Sample.board [])))
      (snd (begin 9600 LIN_V2 true Sample.in_flight (Sample.board [])))
    = Ok (None, s1, b1) /\
    rate b1 = 4800 /\ tasks b1 = [(wrapperSend, 0, 2)].
Proof.
  assert (Hn : 0 <= 2 <= 8) by lia.
  assert (Hd : 2 <= Z.of_nat (length [0x01; 0x02])) by (simpl; lia).
  split; [exact in_flight_consistent|]. split; [exact Hn|]. split; [exact Hd|].
  destruct (begin_readies_engine 9600 LIN_V2 Sample.in_flight (Sample.board [])
              0x10 2 [0x01; 0x02] in_flight_consistent Hn Hd)
    as (s1 & b1 & H1 & _ & _ & H2 & _ & H3 & _).
  exists s1, b1. split; [exact H1|]. split; [exact H2 | exact H3].
Defined.

(** ** Round trips *)

Lemma map_uint8_bytes l : Forall is_byte l -> map uint8 l = l.
Proof.
  induction 1 as [|x l Hx Hl IH]; simpl; [reflexivity|].
  rewrite uint8_byte by exact Hx. rewrite IH. reflexivity.
Qed.

Lemma request_frame_length v id numData data :
  0 <= numData <= Z.of_nat (length data) ->
  length (request_frame v id numData data) = Z.to_nat (numData + 4).
Proof.
  intros H. unfold request_frame. cbn [length].
  rewrite length_app, length_firstn. cbn [length]. lia.
Qed.

Lemma request_frame_bytes v id numData data :
  Forall is_byte data -> Forall is_byte (request_frame v id numData data).
Proof.
  intros H. unfold request_frame.
  constructor; [unfold is_byte; lia|]. constructor; [unfold is_byte; lia|].
  constructor; [apply protectID_byte|].
  apply Forall_app. split.
  - clear -H. revert data H. induction (Z.to_nat numData) as [|n IH]; intros [|x l] H;
      simpl; try constructor.
    + inversion H; assumption.
    + apply IH. inversion H; assumption.
  - constructor; [apply checksum_byte | constructor].
Qed.

Lemma frame_wait_done lenRx b :
  Serial.available b = lenRx - 1 -> frame_wait lenRx b = Ok b.
Proof.
  intros H. unfold frame_wait. apply busy_wait_done. unfold frame_pending.
  rewrite H, Z.eqb_refl. reflexivity.
Qed.

Lemma break_wait_done b :
  rx_fifo b <> [] -> break_wait b = Ok b.
Proof.
  intros H. unfold break_wait. apply busy_wait_done. unfold break_pending, Serial.available.
  destruct (rx_fifo b); [contradiction|]. reflexivity.
Qed.

(** The send phase when the echo of the break is waiting in the port. *)
Lemma handlerSend_echoed (s : LIN_Master) (b : Board) (q : list Z) :
  consistent s -> state s = LIN_STATE_BREAK -> background s = false ->
  rx_fifo b = 0x00 :: q ->
  handlerSend s b =
  Ok (set_state (set_bufRx s (0x00 :: skipn 1 (bufRx s))) LIN_STATE_FRAME,
      set_tx_log (Serial.begin (set_rx_fifo b q) (baudrate s))
        (tx_log b ++ firstn (Z.to_nat (lenTx s - 1)) (skipn 1 (bufTx s)))).
Proof.
  intros C Hst Hbg Hq.
  rewrite (handlerSend_exact s b b C Hst) by (apply break_wait_done; rewrite Hq; discriminate).
  unfold send_phase. rewrite Hq. cbv zeta. change (uint8 0x00 =? 0x00) with true. cbv iota.
  rewrite Hbg. reflexivity.
Qed.

Lemma flush_step b p rest :
  line b = p :: rest -> flush b = Ok (set_line (elapse p b) rest).
Proof. intros H. unfold flush. rewrite H. reflexivity. Qed.

Lemma frame_state_consistent s :
  consistent s -> state s = LIN_STATE_BREAK ->
  consistent (set_state (set_bufRx s (0x00 :: skipn 1 (bufRx s))) LIN_STATE_FRAME).
Proof.
  intros C Hst.
  exact (send_phase_consistent s (mkBoard 0 [0x00] [] 0 false 0 [] [] []) C Hst).
Qed.

Lemma bytes_eqb_cons x a b : Mem.bytes_eqb (x :: a) (x :: b) = Mem.bytes_eqb a b.
Proof.
  destruct (Mem.bytes_eqb a b) eqn:E.
  - apply bytes_eqb_eq in E. subst. apply bytes_eqb_eq. reflexivity.
  - destruct (Mem.bytes_eqb (x :: a) (x :: b)) eqn:E'; [|reflexivity].
    apply bytes_eqb_eq in E'. injection E' as ->.
    rewrite (proj2 (bytes_eqb_eq b b) eq_refl) in E. discriminate E.
Qed.

(** A blocking master request on a bus that echoes the break and then
    delivers [echo] as the echo of the rest of the frame. *)
Lemma blocking_request_echoed
  (s : LIN_Master) (b : Board) (id numData : Z) (data echo : list Z)
  (d1 d2 : Z) (rest : list poll) :
  consistent s -> state s = LIN_STATE_IDLE -> background s = false ->
  0 <= numData <= 8 -> numData <= Z.of_nat (length data) ->
  Forall is_byte echo -> Z.of_nat (length echo) = numData + 3 ->
  line b = mkPoll d1 [0x00] :: mkPoll d2 echo :: rest ->
  exists s' b',
    sendMasterRequest id numData data s b = Ok (None, s', b') /\
    state s' = LIN_STATE_IDLE /\
    tx_log b' = tx_log b ++ request_frame (version s) id numData data /\
    rx_fifo b' = [] /\ line b' = rest /\ decoded b' = decoded b /\
    error s' = if Mem.bytes_eqb echo (skipn 1 (request_frame (version s) id numData data))
               then error s else Z.lor (error s) LIN_ERROR_ECHO.
Proof.
  intros Hs Hidle Hbl Hn Hd Hecho Hel Hline.
  rewrite (sendMasterRequest_accepted id numData data s b Hs Hidle Hn Hd).
  cbv zeta. rewrite Hbl.
  set (frame := request_frame (version s) id numData data) in *.
  pose proof (request_frame_length (version s) id numData data ltac:(lia)) as Hfl.
  fold frame in Hfl.
  assert (Hframe : frame = 0x00 :: skipn 1 frame) by reflexivity.
  pose proof (master_request_started_consistent id numData data s Hs Hn Hd) as C1.
  set (s1 := master_request_started id numData data s) in *.
  rewrite (flush_step (break_written s b) _ _ Hline). cbn [bind].
  match goal with
  | |- context [handlerSend s1 ?x] =>
      rewrite (handlerSend_echoed s1 x [] C1 eq_refl Hbl eq_refl)
  end.
  cbn [bind].
  set (s2 := set_state (set_bufRx s1 (0x00 :: skipn 1 (bufRx s1))) LIN_STATE_FRAME).
  pose proof (frame_state_consistent s1 C1 eq_refl) as C2. fold s2 in C2.
  match goal with |- context [flush ?x] => set (b4 := x) end.
  rewrite (flush_step b4 (mkPoll d2 echo) rest eq_refl). cbn [bind].
  set (b5 := set_line (elapse (mkPoll d2 echo) b4) rest).
  assert (Hq : rx_fifo b5 = echo) by reflexivity.
  assert (Hav : Serial.available b5 = lenRx s2 - 1).
  { unfold Serial.available. rewrite Hq. change (lenRx s2) with (numData + 4). lia. }
  assert (Hrf : Spec.received_frame s2 b5 = 0x00 :: echo).
  { unfold Spec.received_frame. rewrite Hq. change (nth 0 (bufRx s2) 0) with 0x00.
    rewrite map_uint8_bytes by exact Hecho. reflexivity. }
  rewrite (handlerReceive_exact s2 b5 b5 C2 eq_refl (frame_wait_done _ _ Hav)).
  unfold receive_phase. rewrite Hav, Z.eqb_refl. cbn [negb]. cbv zeta.
  change (frameType s2) with LIN_MASTER_REQUEST. cbv iota.
  rewrite Hrf. change (lenTx s2) with (numData + 4).
  change (bufTx s2) with (frame ++ skipn (Z.to_nat (numData + 4)) (bufTx s)).
  rewrite (firstn_app_exact frame) by (symmetry; exact Hfl).
  rewrite (firstn_all2 (0x00 :: echo)) by (cbn [length]; lia).
  change (Mem.bytes_eqb (0x00 :: echo) frame)
    with (Mem.bytes_eqb (0x00 :: echo) (0x00 :: skipn 1 frame)).
  rewrite bytes_eqb_cons.
  assert (Htx : tx_log b5 = tx_log b ++ frame).
  { unfold b5, b4. cbn [tx_log set_tx_log elapse set_line set_clock_fifo].
    change (tx_log (break_written s b)) with (tx_log b ++ [0x00]).
    rewrite <- app_assoc. f_equal.
    change (lenTx s1) with (numData + 4).
    change (bufTx s1) with (frame ++ skipn (Z.to_nat (numData + 4)) (bufTx s)).
    apply request_frame_written. lia. }
  assert (Hempty : skipn (Z.to_nat (lenRx s2 - 1)) (rx_fifo b5) = []).
  { rewrite Hq. apply skipn_all2. change (lenRx s2) with (numData + 4). lia. }
  pose proof (error_range s Hs) as He. destruct flag_bytes as (_ & FE & _).
  destruct (Mem.bytes_eqb echo (skipn 1 frame)); cbn [bind].
  - eexists. eexists. split; [reflexivity|]. split; [reflexivity|].
    split; [exact Htx|]. split; [exact Hempty|]. repeat split; reflexivity.
  - eexists. eexists. split; [reflexivity|]. split; [reflexivity|].
    split; [exact Htx|]. split; [exact Hempty|].
    split; [reflexivity|]. split; [reflexivity|].
    cbn [error reverted set_bufRx set_state set_error]. change (error s2) with (error s).
    rewrite !uint8_byte by assumption. reflexivity.
Qed.

Lemma busy_wait_one cond p rest b :
  cond b = true -> cond (set_line (elapse p b) rest) = false ->
  busy_wait cond (p :: rest) b = Ok (set_line (elapse p b) rest).
Proof.
  intros H1 H2. cbn [busy_wait]. rewrite H1. apply busy_wait_done. exact H2.
Qed.

Lemma uint32_elapsed_0 x : uint32 (x - x) = 0.
Proof. rewrite Z.sub_diag. reflexivity. Qed.

(** The receive phase of a slave response when the echo of the header,
    the data bytes and a checksum byte are waiting in the port. *)
Lemma receive_phase_response
  (s : LIN_Master) (b : Board) (id : Z) (payload : list Z) (chk : Z) :
  frameType s = LIN_SLAVE_RESPONSE ->
  lenRx s = 4 + Spec.numData_of payload ->
  firstn 3 (bufTx s) = header_frame id -> nth 0 (bufRx s) 0 = 0x00 ->
  Forall is_byte payload -> is_byte chk ->
  rx_fifo b = bus_response id payload chk ->
  receive_phase s b =
  let s1 := set_bufRx s ((0x00 :: bus_response id payload chk)
                           ++ skipn (Z.to_nat (lenRx s)) (bufRx s)) in
  let b2 := set_rx_fifo b [] in
  if chk =? checksum (version s) id (Spec.numData_of payload) payload
  then (set_state
          match rx_handler s with
          | wrapperDefaultCallback =>
              set_dataPtr s1 (payload ++ skipn (length payload) (dataPtr s))
          | _ => s1
          end LIN_STATE_IDLE,
        set_decoded b2 (decoded b ++ [(rx_handler s, Spec.numData_of payload, payload)]))
  else (reverted LIN_ERROR_CHK s1, b2).
Proof.
  intros Hft HlenRx Hhdr Hb0 Hbytes Hchk Hq.
  set (n := Spec.numData_of payload) in *.
  assert (Hn : 0 <= n) by (unfold n, Spec.numData_of; lia).
  assert (Hnl : Z.to_nat n = length payload) by (unfold n, Spec.numData_of; lia).
  set (resp := bus_response id payload chk) in *.
  assert (Hrl : length resp = (length payload + 3)%nat).
  { unfold resp, bus_response. cbn [length]. rewrite length_app. cbn [length]. lia. }
  assert (Hrb : Forall is_byte resp).
  { unfold resp, bus_response.
    constructor; [unfold is_byte; lia|]. constructor; [apply protectID_byte|].
    apply Forall_app. split; [exact Hbytes|].
    constructor; [exact Hchk | constructor]. }
  assert (Hav : Serial.available b = lenRx s - 1).
  { unfold Serial.available. rewrite Hq, Hrl. lia. }
  assert (Hrf : Spec.received_frame s b = 0x00 :: resp).
  { unfold Spec.received_frame. rewrite Hq, Hb0.
    rewrite map_uint8_bytes by exact Hrb. reflexivity. }
  assert (Hpay : Spec.received_payload s b = payload).
  { unfold Spec.received_payload. rewrite Hrf, HlenRx.
    replace (4 + n - 4) with n by lia. rewrite Hnl.
    unfold resp, bus_response. cbn [skipn].
    apply firstn_app_exact. reflexivity. }
  assert (Hlast : nth (Z.to_nat (lenRx s - 1)) (Spec.received_frame s b) 0 = chk).
  { rewrite Hrf, HlenRx.
    replace (Z.to_nat (4 + n - 1)) with (3 + length payload)%nat by lia.
    unfold resp, bus_response. cbn [nth Nat.add].
    rewrite app_nth2 by lia. rewrite Nat.sub_diag. reflexivity. }
  assert (Hempty : skipn (Z.to_nat (lenRx s - 1)) (rx_fifo b) = []).
  { rewrite Hq. apply skipn_all2. rewrite Hrl. lia. }
  unfold receive_phase. rewrite Hav, Z.eqb_refl. cbn [negb]. cbv zeta.
  rewrite Hft, Hlast, Hpay, Hrf, Hempty, Hhdr.
  change (firstn 3 (0x00 :: resp)) with (header_frame id).
  rewrite (proj2 (bytes_eqb_eq _ _) eq_refl). cbn [negb].
  change (nth 2 (0x00 :: resp) 0) with (protectID id).
  replace (lenRx s - 4) with n by lia.
  rewrite checksum_protected, Hnl.
  destruct (chk =? checksum (version s) id n payload); reflexivity.
Qed.

(** A blocking slave-response request on a bus that echoes the break and
    then delivers the echo of the header, the data bytes of the slave and
    a checksum byte. *)
Lemma blocking_response_received
  (s : LIN_Master) (b : Board) (id : Z) (payload : list Z) (chk : Z) (h : decoder_t)
  (d1 d2 : Z) (rest : list poll) :
  consistent s -> state s = LIN_STATE_IDLE -> background s = false ->
  (length payload <= 8)%nat -> Forall is_byte payload -> is_byte chk ->
  callable h (Spec.numData_of payload) s ->
  line b = mkPoll d1 [0x00] :: mkPoll d2 (bus_response id payload chk) :: rest ->
  exists s' b',
    receiveSlaveResponse id (Spec.numData_of payload) h s b = Ok (None, s', b') /\
    state s' = LIN_STATE_IDLE /\
    tx_log b' = tx_log b ++ header_frame id /\
    rx_fifo b' = [] /\ line b' = rest /\
    if chk =? checksum (version s) id (Spec.numData_of payload) payload
    then error s' = error s /\
         decoded b' = decoded b ++ [(h, Spec.numData_of payload, payload)] /\
         dataPtr s' = match h with
                      | wrapperDefaultCallback =>
                          payload ++ skipn (length payload) (dataPtr s)
                      | _ => dataPtr s
                      end
    else error s' = Z.lor (error s) LIN_ERROR_CHK /\
         decoded b' = decoded b /\ dataPtr s' = dataPtr s.
Proof.
  intros Hs Hidle Hbl Hlen Hbytes Hchk Hh Hline.
  set (n := Spec.numData_of payload) in *.
  assert (Hn : 0 <= n <= 8) by (unfold n, Spec.numData_of; lia).
  rewrite (receiveSlaveResponse_accepted id n h s b Hs Hidle Hn).
  cbv zeta. rewrite Hbl.
  pose proof (slave_response_started_consistent id n h s Hs Hn Hh) as C1.
  set (s1 := slave_response_started id n h s) in *.
  set (resp := bus_response id payload chk) in *.
  assert (Hrl : length resp = (length payload + 3)%nat).
  { unfold resp, bus_response. cbn [length]. rewrite length_app. cbn [length]. lia. }
  rewrite (flush_step (break_written s b) _ _ Hline). cbn [bind].
  match goal with
  | |- context [handlerSend s1 ?x] =>
      rewrite (handlerSend_echoed s1 x [] C1 eq_refl Hbl eq_refl)
  end.
  cbn [bind].
  set (s2 := set_state (set_bufRx s1 (0x00 :: skipn 1 (bufRx s1))) LIN_STATE_FRAME).
  pose proof (frame_state_consistent s1 C1 eq_refl) as C2. fold s2 in C2.
  match goal with |- context [response_wait _ _ ?x] => set (b4 := x) end.
  set (b5 := set_line (elapse (mkPoll d2 resp) b4) rest).
  assert (Hq : rx_fifo b5 = resp) by reflexivity.
  assert (HlenRx : lenRx s2 = 4 + n) by reflexivity.
  assert (Hav4 : (Serial.available b4 =? lenRx s2 - 1) = false).
  { apply Z.eqb_neq. change (Serial.available b4) with 0. unfold n, Spec.numData_of in *. lia. }
  assert (Hav5 : Serial.available b5 = lenRx s2 - 1).
  { unfold Serial.available. rewrite Hq, Hrl. unfold n, Spec.numData_of in *. lia. }
  (* whichever of the two waits sees the response arrive *)
  assert (Hwaits :
    (b <- response_wait (lenRx s2) (durationFrame s2) b4 ;;
     ' (s, b) <- handlerReceive s2 b ;; Ok (@None Z, s, b))
    = (' (s, b) <- Ok (receive_phase s2 b5) ;; Ok (@None Z, s, b))).
  { unfold response_wait.
    destruct (0 <? durationFrame s2) eqn:Ed.
    - rewrite (busy_wait_one _ (mkPoll d2 resp) rest b4).
      + cbn [bind]. fold b5.
        rewrite (handlerReceive_exact s2 b5 b5 C2 eq_refl (frame_wait_done _ _ Hav5)).
        reflexivity.
      + unfold response_pending. rewrite Hav4, uint32_elapsed_0, Ed. reflexivity.
      + unfold response_pending. fold b5. rewrite Hav5, Z.eqb_refl. reflexivity.
    - rewrite busy_wait_done
        by (unfold response_pending; rewrite Hav4, uint32_elapsed_0, Ed; reflexivity).
      cbn [bind].
      rewrite (handlerReceive_exact s2 b4 b5 C2 eq_refl).
      + reflexivity.
      + unfold frame_wait. apply busy_wait_one.
        * unfold frame_pending. rewrite Hav4, uint32_elapsed_0. reflexivity.
        * unfold frame_pending. fold b5. rewrite Hav5, Z.eqb_refl. reflexivity. }
  rewrite Hwaits. clear Hwaits.
  rewrite (receive_phase_response s2 b5 id payload chk eq_refl HlenRx eq_refl eq_refl
             Hbytes Hchk Hq).
  cbv zeta. change (version s2) with (version s).
  change (rx_handler s2) with h. change (dataPtr s2) with (dataPtr s).
  assert (Htx : tx_log b5 = tx_log b ++ header_frame id).
  { unfold b5, b4. cbn [tx_log set_line elapse set_clock_fifo set_tx_log].
    change (tx_log (break_written s b)) with (tx_log b ++ [0x00]).
    rewrite <- app_assoc. reflexivity. }
  pose proof (error_range s Hs) as He. destruct flag_bytes as (_ & _ & _ & FC).
  fold n.
  destruct (chk =? checksum (version s) id n payload); cbn [bind].
  - eexists. eexists. split; [reflexivity|].
    split; [reflexivity|]. split; [exact Htx|]. split; [reflexivity|].
    split; [reflexivity|]. split; [destruct h; reflexivity|].
    split; [reflexivity|]. destruct h; reflexivity.
  - eexists. eexists. split; [reflexivity|].
    split; [reflexivity|]. split; [exact Htx|]. split; [reflexivity|].
    split; [reflexivity|]. split; [|split; reflexivity].
    cbn [error reverted set_bufRx set_state set_error]. change (error s2) with (error s).
    rewrite !uint8_byte by assumption. reflexivity.
Qed.

(** The send phase in background operation when the echo of the break is
    waiting in the port. *)
Lemma handlerSend_echoed_background (s : LIN_Master) (b : Board) (q : list Z) :
  consistent s -> state s = LIN_STATE_BREAK -> background s = true ->
  rx_fifo b = 0x00 :: q ->
  handlerSend s b =
  Ok (set_state (set_bufRx s (0x00 :: skipn 1 (bufRx s))) LIN_STATE_FRAME,
      Tasks_Add wrapperReceive 0 (durationFrame s)
        (set_tx_log (Serial.begin (set_rx_fifo b q) (baudrate s))
           (tx_log b ++ firstn (Z.to_nat (lenTx s - 1)) (skipn 1 (bufTx s))))).
Proof.
  intros C Hst Hbg Hq.
  rewrite (handlerSend_exact s b b C Hst) by (apply break_wait_done; rewrite Hq; discriminate).
  unfold send_phase. rewrite Hq. cbv zeta. change (uint8 0x00 =? 0x00) with true. cbv iota.
  rewrite Hbg. reflexivity.
Qed.

(** X17: a master request in blocking operation on a bus that echoes
    what is written succeeds for every identifier and every payload of up
    to 8 bytes: the bytes written are break, sync, protected ID, data and
    checksum, the engine ends Idle with its error unchanged, and no
    handler is called. *)
Theorem master_request_loopback
  (s : LIN_Master) (b : Board) (id numData : Z) (data : list Z)
  (d1 d2 : Z) (rest : list poll)
  (Hs : consistent s) (Hidle : state s = LIN_STATE_IDLE) (Hbl : background s = false)
  (Hn : 0 <= numData <= 8) (Hd : numData <= Z.of_nat (length data))
  (Hbytes : Forall is_byte data)
  (Hline : line b = mkPoll d1 [0x00]
                    :: mkPoll d2 (skipn 1 (request_frame (version s) id numData data))
                    :: rest) :
  exists s' b',
    sendMasterRequest id numData data s b = Ok (None, s', b') /\
    state s' = LIN_STATE_IDLE /\ error s' = error s /\
    tx_log b' = tx_log b ++ request_frame (version s) id numData data /\
    rx_fifo b' = [] /\ line b' = rest /\ decoded b' = decoded b.
Proof.
  pose proof (request_frame_length (version s) id numData data ltac:(lia)) as Hfl.
  pose proof (request_frame_bytes (version s) id numData data Hbytes) as Hfb.
  destruct (blocking_request_echoed s b id numData data
              (skipn 1 (request_frame (version s) id numData data)) d1 d2 rest
              Hs Hidle Hbl Hn Hd)
    as (s' & b' & H1 & H2 & H3 & H4 & H5 & H6 & H7).
  - inversion Hfb; assumption.
  - rewrite length_skipn, Hfl. lia.
  - exact Hline.
  - rewrite (proj2 (bytes_eqb_eq _ _) eq_refl) in H7.
    exists s', b'. repeat split; assumption.
Qed.

Lemma master_request_loopback_witness :
  consistent Fixture.blocking /\ state Fixture.blocking = LIN_STATE_IDLE /\
  background Fixture.blocking = false /\
  0 <= 2 <= 8 /\ 2 <= Z.of_nat (length [0x01; 0x02]) /\ Forall is_byte [0x01; 0x02] /\
  exists s' b',
    sendMasterRequest 0x10 2 [0x01; 0x02] Fixture.blocking (Sample.board Fixture.loopback)
    = Ok (None, s', b') /\
    error s' = LIN_SUCCESS /\
    tx_log b' = [0x00; 0x55; 0x50; 0x01; 0x02; 0xAC].
Proof.
  assert (Hn : 0 <= 2 <= 8) by lia.
  assert (Hd : 2 <= Z.of_nat (length [0x01; 0x02])) by (simpl; lia).
  assert (Hb : Forall is_byte [0x01; 0x02]) by (repeat constructor; unfold is_byte; lia).
  split; [exact blocking_consistent|]. split; [reflexivity|]. split; [reflexivity|].
  split; [exact Hn|]. split; [exact Hd|]. split; [exact Hb|].
  destruct (master_request_loopback Fixture.blocking (Sample.board Fixture.loopback)
              0x10 2 [0x01; 0x02] 1000 5000 [] blocking_consistent eq_refl eq_refl
              Hn Hd Hb eq_refl) as (s' & b' & H1 & _ & H2 & H3 & _).
  exists s', b'. split; [exact H1|]. split; [exact H2 | exact H3].
Defined.

(** X18: whenever the echo of a master request, of the right length,
    differs from the bytes written in any way, the request ends with
    [LIN_ERROR_ECHO] added to the error. *)
Theorem corrupted_echo_is_detected
  (s : LIN_Master) (b : Board) (id numData : Z) (data echo : list Z)
  (d1 d2 : Z) (rest : list poll)
  (Hs : consistent s) (Hidle : state s = LIN_STATE_IDLE) (Hbl : background s = false)
  (Hn : 0 <= numData <= 8) (Hd : numData <= Z.of_nat (length data))
  (Hbytes : Forall is_byte data)
  (Hecho : Forall is_byte echo) (Hel : Z.of_nat (length echo) = numData + 3)
  (Hdiff : echo <> skipn 1 (request_frame (version s) id numData data))
  (Hline : line b = mkPoll d1 [0x00] :: mkPoll d2 echo :: rest) :
  exists s' b',
    sendMasterRequest id numData data s b = Ok (None, s', b') /\
    state s' = LIN_STATE_IDLE /\
    error s' = Z.lor (error s) LIN_ERROR_ECHO /\
    tx_log b' = tx_log b ++ request_frame (version s) id numData data /\
    decoded b' = decoded b.
Proof.
  destruct (blocking_request_echoed s b id numData data echo d1 d2 rest
              Hs Hidle Hbl Hn Hd Hecho Hel Hline)
    as (s' & b' & H1 & H2 & H3 & _ & _ & H6 & H7).
  destruct (Mem.bytes_eqb echo (skipn 1 (request_frame (version s) id numData data))) eqn:E.
  - apply bytes_eqb_eq in E. contradiction.
  - exists s', b'. repeat split; assumption.
Qed.

Lemma corrupted_echo_is_detected_witness :
  consistent Fixture.blocking /\ state Fixture.blocking = LIN_STATE_IDLE /\
  background Fixture.blocking = false /\
  0 <= 2 <= 8 /\ 2 <= Z.of_nat (length [0x01; 0x02]) /\ Forall is_byte [0x01; 0x02] /\
  Forall is_byte [0x55; 0x50; 0x01; 0x03; 0xAC] /\
  Z.of_nat (length [0x55; 0x50; 0x01; 0x03; 0xAC]) = 2 + 3 /\
  [0x55; 0x50; 0x01; 0x03; 0xAC]
  <> skipn 1 (request_frame (version Fixture.blocking) 0x10 2 [0x01; 0x02]) /\
  exists s' b',
    sendMasterRequest 0x10 2 [0x01; 0x02] Fixture.blocking (Sample.board Fixture.garbled)
    = Ok (None, s', b') /\
    error s' = Z.lor (error Fixture.blocking) LIN_ERROR_ECHO.
Proof.
  assert (Hn : 0 <= 2 <= 8) by lia.
  assert (Hd : 2 <= Z.of_nat (length [0x01; 0x02])) by (simpl; lia).
  assert (Hb : Forall is_byte [0x01; 0x02]) by (repeat constructor; unfold is_byte; lia).
  assert (He : Forall is_byte [0x55; 0x50; 0x01; 0x03; 0xAC])
    by (repeat constructor; unfold is_byte; lia).
  assert (Hl : Z.of_nat (length [0x55; 0x50; 0x01; 0x03; 0xAC]) = 2 + 3) by reflexivity.
  assert (Hx : [0x55; 0x50; 0x01; 0x03; 0xAC]
               <> skipn 1 (request_frame (version Fixture.blocking) 0x10 2 [0x01; 0x02]))
    by (vm_compute; discriminate).
  split; [exact blocking_consistent|]. split; [reflexivity|]. split; [reflexivity|].
  split; [exact Hn|]. split; [exact Hd|]. split; [exact Hb|]. split; [exact He|].
  split; [exact Hl|]. split; [exact Hx|].
  destruct (corrupted_echo_is_detected Fixture.blocking (Sample.board Fixture.garbled)
              0x10 2 [0x01; 0x02] [0x55; 0x50; 0x01; 0x03; 0xAC] 1000 5000 []
              blocking_consistent eq_refl eq_refl Hn Hd Hb He Hl Hx eq_refl)
    as (s' & b' & H1 & _ & H2 & _).
  exists s', b'. split; [exact H1 | exact H2].
Defined.

(** X19: a slave response whose checksum byte is the one [checksum]
    computes is accepted, for every identifier and every payload of up to
    8 bytes: in blocking operation the header break, sync, protected ID
    is written, the handler is called once with the payload as sent, and
    the engine ends Idle with its error unchanged. *)
Theorem slave_response_round_trip
  (s : LIN_Master) (b : Board) (id : Z) (payload : list Z) (h : decoder_t)
  (d1 d2 : Z) (rest : list poll)
  (Hs : consistent s) (Hidle : state s = LIN_STATE_IDLE) (Hbl : background s = false)
  (Hlen : (length payload <= 8)%nat) (Hbytes : Forall is_byte payload)
  (Hh : callable h (Spec.numData_of payload) s)
  (Hline : line b = mkPoll d1 [0x00]
                    :: mkPoll d2 (response_frame (version s) id payload) :: rest) :
  exists s' b',
    receiveSlaveResponse id (Spec.numData_of payload) h s b = Ok (None, s', b') /\
    state s' = LIN_STATE_IDLE /\ error s' = error s /\
    decoded b' = decoded b ++ [(h, Spec.numData_of payload, payload)] /\
    tx_log b' = tx_log b ++ [0x00; 0x55; protectID id] /\
    rx_fifo b' = [] /\ line b' = rest.
Proof.
  destruct (blocking_response_received s b id payload
              (checksum (version s) id (Spec.numData_of payload) payload) h d1 d2 rest
              Hs Hidle Hbl Hlen Hbytes (checksum_byte _ _ _ _) Hh Hline)
    as (s' & b' & H1 & H2 & H3 & H4 & H5 & H6).
  rewrite Z.eqb_refl in H6. destruct H6 as (H6 & H7 & _).
  exists s', b'. repeat split; assumption.
Qed.

Lemma slave_response_round_trip_witness :
  consistent Fixture.blocking /\ state Fixture.blocking = LIN_STATE_IDLE /\
  background Fixture.blocking = false /\
  (length [0x01; 0x02; 0x03; 0x04] <= 8)%nat /\
  Forall is_byte [0x01; 0x02; 0x03; 0x04] /\
  callable (user_decoder 0) (Spec.numData_of [0x01; 0x02; 0x03; 0x04]) Fixture.blocking /\
  exists s' b',
    receiveSlaveResponse 0x20 (Spec.numData_of [0x01; 0x02; 0x03; 0x04]) (user_decoder 0)
      Fixture.blocking (Sample.board Fixture.answered) = Ok (None, s', b') /\
    decoded b' = [(user_decoder 0, 4, [0x01; 0x02; 0x03; 0x04])].
Proof.
  assert (Hlen : (length [0x01; 0x02; 0x03; 0x04] <= 8)%nat) by (simpl; lia).
  assert (Hb : Forall is_byte [0x01; 0x02; 0x03; 0x04])
    by (repeat constructor; unfold is_byte; lia).
  split; [exact blocking_consistent|]. split; [reflexivity|]. split; [reflexivity|].
  split; [exact Hlen|]. split; [exact Hb|]. split; [exact I|].
  destruct (slave_response_round_trip Fixture.blocking (Sample.board Fixture.answered)
              0x20 [0x01; 0x02; 0x03; 0x04] (user_decoder 0) 1000 5000 []
              blocking_consistent eq_refl eq_refl Hlen Hb I eq_refl)
    as (s' & b' & H1 & _ & _ & H2 & _).
  exists s', b'. split; [exact H1 | exact H2].
Defined.

(** X20: a slave response with any other checksum byte is rejected: the
    request ends with [LIN_ERROR_CHK] added to the error, the handler is
    not called and the array of the caller is not written. *)
Theorem bad_checksum_is_rejected
  (s : LIN_Master) (b : Board) (id : Z) (payload : list Z) (chk : Z) (h : decoder_t)
  (d1 d2 : Z) (rest : list poll)
  (Hs : consistent s) (Hidle : state s = LIN_STATE_IDLE) (Hbl : background s = false)
  (Hlen : (length payload <= 8)%nat) (Hbytes : Forall is_byte payload)
  (Hchk : is_byte chk)
  (Hbad : chk <> checksum (version s) id (Spec.numData_of payload) payload)
  (Hh : callable h (Spec.numData_of payload) s)
  (Hline : line b = mkPoll d1 [0x00]
                    :: mkPoll d2 (bus_response id payload chk) :: rest) :
  exists s' b',
    receiveSlaveResponse id (Spec.numData_of payload) h s b = Ok (None, s', b') /\
    state s' = LIN_STATE_IDLE /\
    error s' = Z.lor (error s) LIN_ERROR_CHK /\
    decoded b' = decoded b /\ dataPtr s' = dataPtr s.
Proof.
  destruct (blocking_response_received s b id payload chk h d1 d2 rest
              Hs Hidle Hbl Hlen Hbytes Hchk Hh Hline)
    as (s' & b' & H1 & H2 & _ & _ & _ & H6).
  destruct (chk =? checksum (version s) id (Spec.numData_of payload) payload) eqn:E.
  - apply Z.eqb_eq in E. contradiction.
  - destruct H6 as (H6 & H7 & H8). exists s', b'. repeat split; assumption.
Qed.

Lemma bad_checksum_is_rejected_witness :
  consistent Fixture.blocking /\ state Fixture.blocking = LIN_STATE_IDLE /\
  background Fixture.blocking = false /\
  (length [0x01; 0x02; 0x03; 0x04] <= 8)%nat /\
  Forall is_byte [0x01; 0x02; 0x03; 0x04] /\ is_byte 0xD4 /\
  0xD4 <> checksum (version Fixture.blocking) 0x20
            (Spec.numData_of [0x01; 0x02; 0x03; 0x04]) [0x01; 0x02; 0x03; 0x04] /\
  callable (user_decoder 0) (Spec.numData_of [0x01; 0x02; 0x03; 0x04]) Fixture.blocking /\
  exists s' b',
    receiveSlaveResponse 0x20 (Spec.numData_of [0x01; 0x02; 0x03; 0x04]) (user_decoder 0)
      Fixture.blocking (Sample.board Fixture.misanswered) = Ok (None, s', b') /\
    error s' = Z.lor (error Fixture.blocking) LIN_ERROR_CHK /\ decoded b' = [].
Proof.
  assert (Hlen : (length [0x01; 0x02; 0x03; 0x04] <= 8)%nat) by (simpl; lia).
  assert (Hb : Forall is_byte [0x01; 0x02; 0x03; 0x04])
    by (repeat constructor; unfold is_byte; lia).
  assert (Hc : is_byte 0xD4) by (unfold is_byte; lia).
  assert (Hx : 0xD4 <> checksum (version Fixture.blocking) 0x20
                         (Spec.numData_of [0x01; 0x02; 0x03; 0x04]) [0x01; 0x02; 0x03; 0x04])
    by (vm_compute; discriminate).
  split; [exact blocking_consistent|]. split; [reflexivity|]. split; [reflexivity|].
  split; [exact Hlen|]. split; [exact Hb|]. split; [exact Hc|]. split; [exact Hx|].
  split; [exact I|].
  destruct (bad_checksum_is_rejected Fixture.blocking (Sample.board Fixture.misanswered)
              0x20 [0x01; 0x02; 0x03; 0x04] 0xD4 (user_decoder 0) 1000 5000 []
              blocking_consistent eq_refl eq_refl Hlen Hb Hc Hx I eq_refl)
    as (s' & b' & H1 & _ & H2 & H3 & _).
  exists s', b'. split; [exact H1|]. split; [exact H2 | exact H3].
Defined.

(** X21: the overload of [receiveSlaveResponse] that copies to an array
    of the caller: after an accepted response the first [numData]
    elements of the array are the payload, the rest of it is as before,
    and its length is unchanged. *)
Theorem copy_overload_fills_buffer
  (s : LIN_Master) (b : Board) (id : Z) (payload buffer : list Z)
  (d1 d2 : Z) (rest : list poll)
  (Hs : consistent s) (Hidle : state s = LIN_STATE_IDLE) (Hbl : background s = false)
  (Hlen : (length payload <= 8)%nat) (Hbytes : Forall is_byte payload)
  (Hbuf : (length payload <= length buffer)%nat)
  (Hline : line b = mkPoll d1 [0x00]
                    :: mkPoll d2 (response_frame (version s) id payload) :: rest) :
  exists s' b',
    receiveSlaveResponse_copy id (Spec.numData_of payload) buffer s b = Ok (None, s', b') /\
    state s' = LIN_STATE_IDLE /\ error s' = error s /\
    dataPtr s' = payload ++ skipn (length payload) buffer /\
    length (dataPtr s') = length buffer.
Proof.
  unfold receiveSlaveResponse_copy. cbv zeta.
  destruct (blocking_response_received (set_dataPtr s buffer) b id payload
              (checksum (version s) id (Spec.numData_of payload) payload)
              wrapperDefaultCallback d1 d2 rest)
    as (s' & b' & H1 & H2 & _ & _ & _ & H6).
  - apply set_dataPtr_consistent; assumption.
  - exact Hidle.
  - exact Hbl.
  - exact Hlen.
  - exact Hbytes.
  - apply checksum_byte.
  - cbn [callable dataPtr set_dataPtr]. unfold Spec.numData_of. lia.
  - exact Hline.
  - change (version (set_dataPtr s buffer)) with (version s) in H6.
    rewrite Z.eqb_refl in H6. destruct H6 as (H6 & _ & H8).
    rewrite H1. cbn [bind]. exists s', b'. split; [reflexivity|].
    split; [exact H2|]. split; [exact H6|]. split; [exact H8|].
    rewrite H8. cbn [dataPtr set_dataPtr]. rewrite length_app, length_skipn. lia.
Qed.

Lemma copy_overload_fills_buffer_witness :
  consistent Fixture.blocking /\ state Fixture.blocking = LIN_STATE_IDLE /\
  background Fixture.blocking = false /\
  (length [0x01; 0x02; 0x03; 0x04] <= 8)%nat /\
  Forall is_byte [0x01; 0x02; 0x03; 0x04] /\
  (length [0x01; 0x02; 0x03; 0x04] <= length [9; 9; 9; 9; 9; 9])%nat /\
  exists s' b',
    receiveSlaveResponse_copy 0x20 (Spec.numData_of [0x01; 0x02; 0x03; 0x04])
      [9; 9; 9; 9; 9; 9] Fixture.blocking (Sample.board Fixture.answered)
    = Ok (None, s', b') /\
    dataPtr s' = [0x01; 0x02; 0x03; 0x04; 9; 9].
Proof.
  assert (Hlen : (length [0x01; 0x02; 0x03; 0x04] <= 8)%nat) by (simpl; lia).
  assert (Hb : Forall is_byte [0x01; 0x02; 0x03; 0x04])
    by (repeat constructor; unfold is_byte; lia).
  assert (Hbuf : (length [0x01; 0x02; 0x03; 0x04] <= length [9; 9; 9; 9; 9; 9])%nat)
    by (simpl; lia).
  split; [exact blocking_consistent|]. split; [reflexivity|]. split; [reflexivity|].
  split; [exact Hlen|]. split; [exact Hb|]. split; [exact Hbuf|].
  destruct (copy_overload_fills_buffer Fixture.blocking (Sample.board Fixture.answered)
              0x20 [0x01; 0x02; 0x03; 0x04] [9; 9; 9; 9; 9; 9] 1000 5000 []
              blocking_consistent eq_refl eq_refl Hlen Hb Hbuf eq_refl)
    as (s' & b' & H1 & _ & _ & H2 & _).
  exists s', b'. split; [exact H1 | exact H2].
Defined.

(** X22: a slave response in background operation, through the calls
    the two wrappers make: the request returns in [LIN_STATE_BREAK];
    [handlerSend], called when the echo of the break has arrived, writes
    the header and moves to [LIN_STATE_FRAME]; [handlerReceive], called
    when the response has arrived, calls the handler once with the
    payload and ends Idle with the error unchanged.  Two calls have been
    registered on the way: [wrapperSend] with [durationBreak] and
    [wrapperReceive] with [durationFrame]. *)
Theorem background_response_round_trip
  (s : LIN_Master) (b : Board) (id : Z) (payload : list Z) (h : decoder_t) (d1 d2 : Z)
  (Hs : consistent s) (Hidle : state s = LIN_STATE_IDLE) (Hbg : background s = true)
  (Hlen : (length payload <= 8)%nat) (Hbytes : Forall is_byte payload)
  (Hh : callable h (Spec.numData_of payload) s) :
  exists s1 b1 s2 b2 s3 b3,
    receiveSlaveResponse id (Spec.numData_of payload) h s b = Ok (None, s1, b1) /\
    handlerSend s1 (elapse (mkPoll d1 [0x00]) b1) = Ok (s2, b2) /\
    handlerReceive s2 (elapse (mkPoll d2 (response_frame (version s) id payload)) b2)
    = Ok (s3, b3) /\
    state s1 = LIN_STATE_BREAK /\ state s2 = LIN_STATE_FRAME /\
    state s3 = LIN_STATE_IDLE /\ error s3 = error s /\
    decoded b3 = decoded b ++ [(h, Spec.numData_of payload, payload)] /\
    tx_log b3 = tx_log b ++ [0x00; 0x55; protectID id] /\
    tasks b3 = tasks b ++ [(wrapperSend, 0, durationBreak s);
                           (wrapperReceive, 0, durationFrame s)].
Proof.
  set (n := Spec.numData_of payload) in *.
  assert (Hn : 0 <= n <= 8) by (unfold n, Spec.numData_of; lia).
  rewrite (receiveSlaveResponse_accepted id n h s b Hs Hidle Hn).
  cbv zeta. rewrite Hbg.
  pose proof (slave_response_started_consistent id n h s Hs Hn Hh) as C1.
  set (s1 := slave_response_started id n h s) in *.
  set (b1 := Tasks_Add wrapperSend 0 (durationBreak s) (break_written s b)).
  set (s2 := set_state (set_bufRx s1 (0x00 :: skipn 1 (bufRx s1))) LIN_STATE_FRAME).
  pose proof (frame_state_consistent s1 C1 eq_refl) as C2. fold s2 in C2.
  pose proof (handlerSend_echoed_background s1 (elapse (mkPoll d1 [0x00]) b1) []
                C1 eq_refl Hbg eq_refl) as H2.
  fold s2 in H2.
  match type of H2 with _ = Ok (s2, ?x) => set (b2 := x) in * end.
  set (resp := response_frame (version s) id payload).
  set (b3 := elapse (mkPoll d2 resp) b2).
  assert (Hq : rx_fifo b3 = resp) by reflexivity.
  assert (Hav : Serial.available b3 = lenRx s2 - 1).
  { unfold Serial.available. rewrite Hq. unfold resp, response_frame, bus_response.
    cbn [length]. rewrite length_app. cbn [length].
    change (lenRx s2) with (4 + n). unfold n, Spec.numData_of. lia. }
  pose proof (handlerReceive_exact s2 b3 b3 C2 eq_refl (frame_wait_done _ _ Hav)) as H3.
  rewrite (receive_phase_response s2 b3 id payload
             (checksum (version s) id n payload) eq_refl eq_refl eq_refl eq_refl
             Hbytes (checksum_byte _ _ _ _) Hq) in H3.
  cbv zeta in H3. change (version s2) with (version s) in H3. fold n in H3.
  rewrite Z.eqb_refl in H3. change (rx_handler s2) with h in H3.
  exists s1, b1, s2, b2. eexists. eexists.
  split; [reflexivity|]. split; [exact H2|]. split; [exact H3|].
  split; [reflexivity|]. split; [reflexivity|]. split; [reflexivity|].
  split; [destruct h; reflexivity|]. split; [reflexivity|]. split.
  - cbn [tx_log set_decoded set_rx_fifo]. unfold b3, b2, b1.
    cbn [tx_log elapse set_clock_fifo Tasks_Add set_tasks set_tx_log].
    change (tx_log (break_written s b)) with (tx_log b ++ [0x00]).
    rewrite <- app_assoc. reflexivity.
  - cbn [tasks set_decoded set_rx_fifo]. unfold b3, b2, b1.
    cbn [tasks elapse set_clock_fifo Tasks_Add set_tasks set_tx_log Serial.begin set_port
         set_rx_fifo].
    change (tasks (break_written s b)) with (tasks b).
    rewrite <- app_assoc. reflexivity.
Qed.

Lemma background_response_round_trip_witness :
  consistent Sample.fresh /\ state Sample.fresh = LIN_STATE_IDLE /\
  background Sample.fresh = true /\
  (length [0x01; 0x02; 0x03; 0x04] <= 8)%nat /\
  Forall is_byte [0x01; 0x02; 0x03; 0x04] /\
  callable (user_decoder 0) (Spec.numData_of [0x01; 0x02; 0x03; 0x04]) Sample.fresh /\
  exists s1 b1 s2 b2 s3 b3,
    receiveSlaveResponse 0x20 (Spec.numData_of [0x01; 0x02; 0x03; 0x04]) (user_decoder 0)
      Sample.fresh (Sample.board []) = Ok (None, s1, b1) /\
    handlerSend s1 (elapse (mkPoll 1000 [0x00]) b1) = Ok (s2, b2) /\
    handlerReceive s2
      (elapse (mkPoll 7000 (response_frame (version Sample.fresh) 0x20
                              [0x01; 0x02; 0x03; 0x04])) b2) = Ok (s3, b3) /\
    decoded b3 = [(user_decoder 0, 4, [0x01; 0x02; 0x03; 0x04])].
Proof.
  assert (Hlen : (length [0x01; 0x02; 0x03; 0x04] <= 8)%nat) by (simpl; lia).
  assert (Hb : Forall is_byte [0x01; 0x02; 0x03; 0x04])
    by (repeat constructor; unfold is_byte; lia).
  split; [exact fresh_consistent|]. split; [reflexivity|]. split; [reflexivity|].
  split; [exact Hlen|]. split; [exact Hb|]. split; [exact I|].
  destruct (background_response_round_trip Sample.fresh (Sample.board []) 0x20
              [0x01; 0x02; 0x03; 0x04] (user_decoder 0) 1000 7000
              fresh_consistent eq_refl eq_refl Hlen Hb I)
    as (s1 & b1 & s2 & b2 & s3 & b3 & H1 & H2 & H3 & _ & _ & _ & _ & H4 & _).
  exists s1, b1, s2, b2, s3, b3.
  split; [exact H1|]. split; [exact H2|]. split; [exact H3 | exact H4].
Defined.

(** ** The clock *)

Lemma break_wait_times_out t0 p rest : forall pre b e,
  clock b = t0 + e -> 0 <= e -> rx_fifo b = [] ->
  forallb tickb (pre ++ [p]) = true -> silentb (pre ++ [p]) = true ->
  e + sum_dt pre < 500 -> 500 <= e + sum_dt pre + dt p ->
  exists b',
    busy_wait (break_pending (uint32 t0)) (pre ++ p :: rest) b = Ok b' /\
    clock b' = t0 + e + sum_dt pre + dt p /\ line b' = rest /\ rx_fifo b' = [].
Proof.
  assert (Hcond : forall b e, clock b = t0 + e -> 0 <= e < 4294967296 -> rx_fifo b = [] ->
            break_pending (uint32 t0) b = (e <? 500)).
  { intros b e Hc He Hq. unfold break_pending, Serial.available, micros.
    rewrite Hq, Hc, uint32_sub. cbn [length Z.of_nat Z.eqb andb].
    replace (t0 + e - t0) with e by lia.
    unfold uint32. rewrite Z.mod_small by lia. reflexivity. }
  induction pre as [|q pre IH]; intros b e Hc He Hq Ht Hs Hlt Hge.
  - cbn [app] in *. simpl in Ht, Hs, Hlt, Hge.
    rewrite andb_true_r in Ht, Hs.
    unfold tickb in Ht. apply andb_true_iff in Ht. destruct Ht as [T1 T2].
    apply Z.leb_le in T1, T2.
    assert (Ha : arrived p = []) by (destruct (arrived p); [reflexivity | discriminate]).
    cbn [busy_wait]. rewrite (Hcond b e Hc ltac:(lia) Hq).
    replace (e <? 500) with true by (symmetry; apply Z.ltb_lt; lia).
    rewrite busy_wait_done.
    + eexists. split; [reflexivity|]. simpl. rewrite Hc, Hq, Ha.
      split; [lia|]. split; reflexivity.
    + rewrite (Hcond _ (e + dt p)); [apply Z.ltb_ge; lia | simpl; lia | lia |].
      simpl. rewrite Hq, Ha. reflexivity.
  - cbn [app] in *. simpl in Ht, Hs, Hlt, Hge.
    apply andb_true_iff in Ht. destruct Ht as [Tq Ht].
    apply andb_true_iff in Hs. destruct Hs as [Sq Hs].
    unfold tickb in Tq. apply andb_true_iff in Tq. destruct Tq as [T1 T2].
    apply Z.leb_le in T1, T2.
    assert (Ha : arrived q = []) by (destruct (arrived q); [reflexivity | discriminate]).
    assert (Hpos : 0 <= sum_dt pre).
    { clear -Ht. induction pre as [|r pre IH]; simpl in *; [lia|].
      apply andb_true_iff in Ht. destruct Ht as [Tr Ht].
      unfold tickb in Tr. apply andb_true_iff in Tr. destruct Tr as [T1 _].
      apply Z.leb_le in T1. specialize (IH Ht). lia. }
    cbn [busy_wait]. rewrite (Hcond b e Hc ltac:(lia) Hq).
    replace (e <? 500) with true by (symmetry; apply Z.ltb_lt; lia).
    destruct (IH (set_line (elapse q b) (pre ++ p :: rest)) (e + dt q))
      as (b' & Hrun & H1 & H2 & H3).
    + simpl. lia.
    + lia.
    + simpl. rewrite Hq, Ha. reflexivity.
    + exact Ht.
    + exact Hs.
    + lia.
    + lia.
    + exists b'. split; [exact Hrun|].
      change (sum_dt (q :: pre)) with (dt q + sum_dt pre).
      split; [lia|]. split; assumption.
Qed.

(** X23: with nothing received, the wait of [handlerSend] for the echo
    of the break ends at the first look at the hardware at which 500
    microseconds or more have passed since it began, whatever the value
    of the clock: also when the 32 bit counter of [micros()] wraps
    around during the wait. *)
Theorem break_wait_survives_clock_wrap
  (b : Board) (pre : list poll) (p : poll) (rest : list poll)
  (Hline : line b = pre ++ p :: rest) (Hq : rx_fifo b = [])
  (Hticks : forallb tickb (pre ++ [p]) = true)
  (Hsilent : silentb (pre ++ [p]) = true)
  (Hshort : sum_dt pre < 500) (Hlong : 500 <= sum_dt pre + dt p) :
  exists b',
    break_wait b = Ok b' /\
    clock b' = clock b + sum_dt pre + dt p /\ line b' = rest /\ rx_fifo b' = [].
Proof.
  unfold break_wait, micros. rewrite Hline.
  destruct (break_wait_times_out (clock b) p rest pre b 0)
    as (b' & Hrun & H1 & H2 & H3); try assumption; try lia.
  exists b'. split; [exact Hrun|]. split; [lia|]. split; assumption.
Qed.

Lemma break_wait_survives_clock_wrap_witness :
  line Fixture.wrapping
  = [mkPoll 200 []; mkPoll 200 []] ++ mkPoll 200 [] :: [mkPoll 200 []] /\
  rx_fifo Fixture.wrapping = [] /\
  exists b',
    break_wait Fixture.wrapping = Ok b' /\
    clock b' = 4294967796 /\ micros b' = 500 /\ line b' = [mkPoll 200 []].
Proof.
  split; [reflexivity|]. split; [reflexivity|].
  destruct (break_wait_survives_clock_wrap Fixture.wrapping
              [mkPoll 200 []; mkPoll 200 []] (mkPoll 200 []) [mkPoll 200 []]
              eq_refl eq_refl eq_refl eq_refl)
    as (b' & H1 & H2 & H3 & _).
  - simpl. lia.
  - simpl. lia.
  - exists b'. split; [exact H1|]. split; [exact H2|]. split; [|exact H3].
    unfold micros. rewrite H2. reflexivity.
Defined.
